(** * Resource lifecycle and resource-ID handling of the AzureRM provider

  A shallow embedding of the resource functions of
  [azurerm_servicebus_namespace], [azurerm_service_plan] and
  [azurerm_monitor_diagnostic_setting], and of the generated resource-ID
  formatters and parsers, together with the properties the specification
  states about them. *)

From Stdlib Require Import ZArith Ascii String List Bool Lia.
From stdpp Require Import base option list gmap strings pretty.

#[local] Set Warnings "-register-all".

Local Open Scope string_scope.

(** ** Go strings

  [strings.Split], [strings.TrimPrefix], [strings.TrimSuffix] and
  [strings.ToUpper], restricted to the one-byte separators and ASCII
  letters the provider uses them with. *)
Module GoStrings.

(** [strings.Split(s, sep)] for a one-byte [sep]: the pieces of [s] between
    the occurrences of [sep]; a string without [sep] (the empty one too) is
    one piece. *)
Fixpoint Split (sep : ascii) (s : string) : list string :=
  match s with
  | EmptyString => [EmptyString]
  | String c s' =>
      if Ascii.eqb c sep then EmptyString :: Split sep s'
      else match Split sep s' with
           | [] => [String c EmptyString]
           | w :: ws => String c w :: ws
           end
  end.

(** [strings.ContainsRune(s, c)] *)
Fixpoint Contains (c : ascii) (s : string) : bool :=
  match s with
  | EmptyString => false
  | String a s' => Ascii.eqb a c || Contains c s'
  end.

(** [strings.TrimPrefix(s, string(c))] *)
Definition TrimPrefix (c : ascii) (s : string) : string :=
  match s with
  | String a s' => if Ascii.eqb a c then s' else s
  | EmptyString => s
  end.

(** [strings.TrimSuffix(s, string(c))] *)
Fixpoint TrimSuffix (c : ascii) (s : string) : string :=
  match s with
  | EmptyString => EmptyString
  | String a EmptyString => if Ascii.eqb a c then EmptyString else s
  | String a s' => String a (TrimSuffix c s')
  end.

Definition is_lower (c : ascii) : bool :=
  let n := nat_of_ascii c in Nat.leb 97 n && Nat.leb n 122.

Definition upper_char (c : ascii) : ascii :=
  if is_lower c then ascii_of_nat (nat_of_ascii c - 32) else c.

(** [strings.ToUpper] on ASCII text. *)
Fixpoint ToUpper (s : string) : string :=
  match s with
  | EmptyString => EmptyString
  | String c s' => String (upper_char c) (ToUpper s')
  end.


End GoStrings.

(** ** Errors

  A Go [error] is kept as the format string of the [fmt.Errorf] call that
  built it (its arguments are not expanded), with the error it wraps when
  there is one.  Errors coming back from the ARM client are [Remote];
  [tf.ImportAsExistsError] and [metadata.ResourceRequiresImport] have a
  constructor of their own so that the import guard can be told apart from
  a failed retrieval. *)
Inductive error : Type :=
| Errorf (format : string)
| Wrapf (format : string) (cause : error)
| Remote (msg : string)
| ImportAsExistsError (resourceName id : string)
| ResourceRequiresImport (resourceName id : string).

Inductive result (A : Type) : Type :=
| Ok (a : A)
| Err (e : error).
Arguments Ok {A} a.
Arguments Err {A} e.

Definition is_ok {A} (r : result A) : bool :=
match r with Ok _ => true | Err _ => false end.

(** ** Generated resource-ID formatters and parsers *)
Module ResourceIDs.
Import GoStrings.

Definition slash : ascii := "/"%char.

Record ResourceId := {
  SubscriptionID : string;
  ResourceGroup : string;
  Provider : string;
  Path : gmap string string;
}.

(** Modelled from the spec: the loop of [resourceids.ParseAzureResourceID]
    (the go-azure-helpers package the generated parsers call; not part of
    the sources at hand) that files the key/value pairs of a path: the first
    [subscriptions] and the first [providers] pair are kept aside, every
    other pair goes into the component map, later keys overwriting earlier
    ones; an empty key or value is an error. *)
Fixpoint collectComponents (components : list string)
    (subscriptionID provider : string) (componentMap : gmap string string)
    : result (string * string * gmap string string) :=
  match components with
  | key :: value :: rest =>
      if String.eqb key "" || String.eqb value "" then
        Err (Errorf "Key/Value cannot be empty strings. Key: '%s', Value: '%s'")
      else if String.eqb key "subscriptions" && String.eqb subscriptionID "" then
        collectComponents rest value provider componentMap
      else if String.eqb key "providers" && String.eqb provider "" then
        collectComponents rest subscriptionID value componentMap
      else
        collectComponents rest subscriptionID provider (<[key := value]> componentMap)
  | _ => Ok (subscriptionID, provider, componentMap)
  end.

(** Modelled from the spec: [resourceids.ParseAzureResourceID], the parser
    of hierarchical ARM paths shared by the generated ID parsers (vendored
    go-azure-helpers, absent from the sources).  The path is stripped of one
    leading and one trailing slash and split on slashes into key/value
    pairs; keys are compared as written (the tests of the generated parsers
    expect an upper-cased path to be refused), except that the resource
    group is also found under the all-lower-case key [resourcegroups]. *)
Definition ParseAzureResourceID (id : string) : result ResourceId :=
  let id := TrimPrefix slash id in
  let id := TrimSuffix slash id in
  let components := Split slash id in
  if negb (Nat.even (length components)) then
    Err (Errorf "the number of path segments is not divisible by 2 in %q")
  else
    match collectComponents components "" "" ∅ with
    | Err e => Err e
    | Ok (subscriptionID, provider, componentMap) =>
        if String.eqb subscriptionID "" then
          Err (Errorf "No subscription ID found in: %q")
        else
          match componentMap !! "resourceGroups" with
          | Some resourceGroup =>
              Ok {| SubscriptionID := subscriptionID;
                    ResourceGroup := resourceGroup;
                    Provider := provider;
                    Path := delete "resourceGroups" componentMap |}
          | None =>
              match componentMap !! "resourcegroups" with
              | Some resourceGroup =>
                  Ok {| SubscriptionID := subscriptionID;
                        ResourceGroup := resourceGroup;
                        Provider := provider;
                        Path := delete "resourcegroups" componentMap |}
              | None =>
                  Ok {| SubscriptionID := subscriptionID;
                        ResourceGroup := "";
                        Provider := provider;
                        Path := componentMap |}
              end
          end
    end.

(** Modelled from the spec: [ResourceId.PopSegment], which takes the value
    of a key out of the component map and fails when the key is absent. *)
Definition PopSegment (id : ResourceId) (name : string) : result (string * ResourceId) :=
  match Path id !! name with
  | None => Err (Errorf "ID was missing the `%s` element")
  | Some val =>
      Ok (val, {| SubscriptionID := SubscriptionID id;
                  ResourceGroup := ResourceGroup id;
                  Provider := Provider id;
                  Path := delete name (Path id) |})
  end.

(** Modelled from the spec: [ResourceId.ValidateNoEmptySegments], which
    refuses an ID with components left over after all pops. *)
Definition ValidateNoEmptySegments (id : ResourceId) : option error :=
  if decide (Path id = ∅) then None
  else Some (Errorf "ID has %d unexpected segments: %q. Source ID: %q").

(** Modelled from the spec: the body shared by the generated parsers of a
    resource with two named segments under a resource group
    ([parse.BotChannelID], [parse.ServerDNSAliasID],
    [parse.SpringCloudConfigurationServiceID]; the generated files
    themselves are not among the sources, their tests are). *)
Definition parseTwoSegments (kind first second : string) (input : string)
    : result (string * string * string * string) :=
  match ParseAzureResourceID input with
  | Err e => Err (Wrapf ("parsing %q as an " +:+ kind +:+ " ID: %+v") e)
  | Ok id =>
      if String.eqb (SubscriptionID id) "" then
        Err (Errorf "ID was missing the 'subscriptions' element")
      else if String.eqb (ResourceGroup id) "" then
        Err (Errorf "ID was missing the 'resourceGroups' element")
      else
        match PopSegment id first with
        | Err e => Err e
        | Ok (v1, id) =>
            match PopSegment id second with
            | Err e => Err e
            | Ok (v2, id) =>
                match ValidateNoEmptySegments id with
                | Some e => Err e
                | None => Ok (SubscriptionID id, ResourceGroup id, v1, v2)
                end
            end
        end
  end.

(** A path segment a formatter can be given and a parser gives back: not
    empty and free of slashes. *)
Definition segment_ok (s : string) : Prop :=
  s <> "" /\ Contains slash s = false.

(** The path built from key/value segments. *)
Fixpoint joinPath (segments : list string) : string :=
  match segments with
  | [] => ""
  | [s] => s
  | s :: rest => s +:+ String slash (joinPath rest)
  end.

(** *** [mssql/parse]: DNS alias of a SQL server *)
Record ServerDNSAliasId := {
  sda_SubscriptionId : string;
  sda_ResourceGroup : string;
  sda_ServerName : string;
  sda_DnsAliaseName : string;
}.

Definition NewServerDNSAliasID (subscriptionId resourceGroup serverName dnsAliaseName : string)
    : ServerDNSAliasId :=
  {| sda_SubscriptionId := subscriptionId;
     sda_ResourceGroup := resourceGroup;
     sda_ServerName := serverName;
     sda_DnsAliaseName := dnsAliaseName |}.

(** Modelled from the spec: [ServerDNSAliasId.ID], the format string the
    formatter test expects. *)
Definition ServerDNSAliasId_ID (id : ServerDNSAliasId) : string :=
  "/subscriptions/" +:+ sda_SubscriptionId id +:+
  "/resourceGroups/" +:+ sda_ResourceGroup id +:+
  "/providers/Microsoft.Sql/servers/" +:+ sda_ServerName id +:+
  "/dnsAliases/" +:+ sda_DnsAliaseName id.

(** Modelled from the spec: [parse.ServerDNSAliasID]. *)
Definition ServerDNSAliasID (input : string) : result ServerDNSAliasId :=
  match parseTwoSegments "ServerDNSAlias" "servers" "dnsAliases" input with
  | Err e => Err e
  | Ok (s, g, a, b) => Ok (NewServerDNSAliasID s g a b)
  end.

(** *** [bot/parse]: channel of a bot service *)
Record BotChannelId := {
  bc_SubscriptionId : string;
  bc_ResourceGroup : string;
  bc_BotServiceName : string;
  bc_ChannelName : string;
}.

Definition NewBotChannelID (subscriptionId resourceGroup botServiceName channelName : string)
    : BotChannelId :=
  {| bc_SubscriptionId := subscriptionId;
     bc_ResourceGroup := resourceGroup;
     bc_BotServiceName := botServiceName;
     bc_ChannelName := channelName |}.

(** Modelled from the spec: [BotChannelId.ID]. *)
Definition BotChannelId_ID (id : BotChannelId) : string :=
  "/subscriptions/" +:+ bc_SubscriptionId id +:+
  "/resourceGroups/" +:+ bc_ResourceGroup id +:+
  "/providers/Microsoft.BotService/botServices/" +:+ bc_BotServiceName id +:+
  "/channels/" +:+ bc_ChannelName id.

(** Modelled from the spec: [parse.BotChannelID]. *)
Definition BotChannelID (input : string) : result BotChannelId :=
  match parseTwoSegments "BotChannel" "botServices" "channels" input with
  | Err e => Err e
  | Ok (s, g, a, b) => Ok (NewBotChannelID s g a b)
  end.




End ResourceIDs.

(** ** Programs that talk to the ARM API

    A resource function is a program over the operations [E] of its API
    client: it returns, asks the client for something and goes on with the
    answer, or panics (a nil dereference in the Go code).  Every program is
    finite; the polling loops take the number of polls that fit before their
    deadline. *)
Inductive Prog (E : Type -> Type) (R : Type) : Type :=
| Ret (r : R)
| Vis (X : Type) (e : E X) (k : X -> Prog E R)
| Panic (msg : string).
Arguments Ret {E R} r.
Arguments Vis {E R X} e k.
Arguments Panic {E R} msg.

Fixpoint pbind {E A B} (p : Prog E A) (k : A -> Prog E B) : Prog E B :=
  match p with
  | Ret a => k a
  | Vis e h => Vis e (fun x => pbind (h x) k)
  | Panic msg => Panic msg
  end.

(** One exchange with the client: the operation and the answer it got. *)
Record Event (E : Type -> Type) : Type := Ev {
  ev_type : Type;
  ev_op : E ev_type;
  ev_answer : ev_type;
}.
Arguments Ev {E ev_type} ev_op ev_answer.
Arguments ev_type {E} e.
Arguments ev_op {E} e.
Arguments ev_answer {E} e.

(** The remote side: any function from an operation and the state of the
    world to an answer and the next state. *)
Definition Remote_ (E : Type -> Type) (W : Type) : Type :=
  forall X, E X -> W -> X * W.

Inductive outcome (R : Type) : Type :=
| Returned (r : R)
| Panicked (msg : string).
Arguments Returned {R} r.
Arguments Panicked {R} msg.

Record Run (E : Type -> Type) (R W : Type) : Type := MkRun {
  run_outcome : outcome R;
  run_world : W;
  run_trace : list (Event E);
}.
Arguments MkRun {E R W} run_outcome run_world run_trace.
Arguments run_outcome {E R W} r.
Arguments run_world {E R W} r.
Arguments run_trace {E R W} r.

(** Running a program against a remote side, recording the exchanges in
    order. *)
Fixpoint run {E R W} (remote : Remote_ E W) (p : Prog E R) (w : W) : Run E R W :=
  match p with
  | Ret r => MkRun (Returned r) w []
  | Panic msg => MkRun (Panicked msg) w []
  | Vis e k =>
      let '(x, w') := remote _ e w in
      let r := run remote (k x) w' in
      MkRun (run_outcome r) (run_world r) (Ev e x :: run_trace r)
  end.

(** The executions of a program, whatever the remote side answers: the
    exchanges in order and how the program ended. *)
Inductive exec {E R} : Prog E R -> list (Event E) -> outcome R -> Prop :=
| exec_Ret r : exec (Ret r) [] (Returned r)
| exec_Panic msg : exec (Panic msg) [] (Panicked msg)
| exec_Vis X (e : E X) k (x : X) tr o :
    exec (k x) tr o -> exec (Vis e k) (Ev e x :: tr) o.

(** [holds p Q]: [Q] is true of every execution of [p]. *)
Fixpoint holds {E R} (p : Prog E R) (Q : list (Event E) -> outcome R -> Prop) : Prop :=
  match p with
  | Ret r => Q [] (Returned r)
  | Panic msg => Q [] (Panicked msg)
  | Vis e k => forall x, holds (k x) (fun tr o => Q (Ev e x :: tr) o)
  end.

(** ** Terraform resource data

    [d *pluginsdk.ResourceData] as the resource functions use it: the ID, the
    values [d.Get] reads (a record per resource, typed by its schema), the
    attributes [d.HasChange] reports as changed, and the values written with
    [d.Set]. *)
Inductive value : Type :=
| VNull
| VString (s : string)
| VBool (b : bool)
| VInt (z : Z)
| VList (items : list value)
| VObject (fields : list (string * value))
| VSet (items : list value).

Definition VStringPtr (s : option string) : value :=
  match s with Some s => VString s | None => VNull end.
Definition VIntPtr (z : option Z) : value :=
  match z with Some z => VInt z | None => VNull end.
Definition VBoolPtr (b : option bool) : value :=
  match b with Some b => VBool b | None => VNull end.

Record ResourceData (Config : Type) : Type := MkResourceData {
  rd_Id : string;
  rd_config : Config;
  rd_changed : gset string;
  rd_written : gmap string value;
}.
Arguments MkResourceData {Config} rd_Id rd_config rd_changed rd_written.
Arguments rd_Id {Config} r.
Arguments rd_config {Config} r.
Arguments rd_changed {Config} r.
Arguments rd_written {Config} r.

(** [d.SetId(id)] *)
Definition withId {Config} (id : string) (d : ResourceData Config) : ResourceData Config :=
  MkResourceData id (rd_config d) (rd_changed d) (rd_written d).

(** [d.Set(key, v)] *)
Definition withSet {Config} (key : string) (v : value) (d : ResourceData Config)
    : ResourceData Config :=
  MkResourceData (rd_Id d) (rd_config d) (rd_changed d) (<[key := v]> (rd_written d)).

(** ** The monad of resource functions

    A resource function mutates [d], calls the client, and returns a Go
    [error]: a state monad over [ResourceData] with errors, on top of
    [Prog].  An error leaves the mutations made so far in place. *)
Definition M (E : Type -> Type) (Config : Type) (A : Type) : Type :=
  ResourceData Config -> Prog E (result A * ResourceData Config).

Global Instance M_ret {E Config} : MRet (M E Config) :=
  fun A a d => Ret (Ok a, d).

Global Instance M_bind {E Config} : MBind (M E Config) :=
  fun A B k c d =>
    pbind (c d) (fun rd =>
      match rd.1 with
      | Ok a => k a rd.2
      | Err e => Ret (Err e, rd.2)
      end).

Section Operations.
Context {E : Type -> Type} {Config : Type}.

(** [return err] *)
Definition fail {A} (e : error) : M E Config A := fun d => Ret (Err e, d).

(** a nil pointer dereference or a failed type assertion *)
Definition panic {A} (msg : string) : M E Config A := fun _ => Panic msg.

(** a call of the API client *)
Definition call {X} (e : E X) : M E Config X :=
  fun d => Vis e (fun x => Ret (Ok x, d)).

(** a computation that may panic but neither calls the client nor fails *)
Definition liftP {A} (p : Prog E A) : M E Config A :=
  fun d => pbind p (fun a => Ret (Ok a, d)).

(** [v, err := f(...); if err != nil { return err }] *)
Definition try {A} (r : result A) : M E Config A :=
  match r with Ok a => mret a | Err e => fail e end.

(** [if err != nil { return fmt.Errorf(format, err) }] *)
Definition check (format : string) (err : option error) : M E Config unit :=
  match err with Some e => fail (Wrapf format e) | None => mret tt end.

Definition d_Id : M E Config string := fun d => Ret (Ok (rd_Id d), d).
Definition d_SetId (id : string) : M E Config unit := fun d => Ret (Ok tt, withId id d).
Definition d_Get {A} (field : Config -> A) : M E Config A :=
  fun d => Ret (Ok (field (rd_config d)), d).
Definition d_HasChange (key : string) : M E Config bool :=
  fun d => Ret (Ok (bool_decide (key ∈ rd_changed d)), d).
Definition d_Set (key : string) (v : value) : M E Config unit :=
  fun d => Ret (Ok tt, withSet key v d).

(** [if cond { body }] *)
Definition when (cond : bool) (body : M E Config unit) : M E Config unit :=
  if cond then body else mret tt.

End Operations.

(** A statement that sends nothing: it returns, with a value or an error,
    or panics, and leaves [d] as it was. *)
Definition silent {E Config A} (c : M E Config A) : Prop :=
  forall d, (exists r, c d = Ret (r, d)) \/ (exists msg, c d = Panic msg).

(** A statement that sends nothing but may write to [d]. *)
Definition quiet {E Config A} (c : M E Config A) : Prop :=
  forall d, (exists r d', c d = Ret (r, d')) \/ (exists msg, c d = Panic msg).

(** [never f tr o]: no exchange of the trace satisfies [f]. *)
Definition never {E R} (f : Event E -> bool) (tr : list (Event E)) (o : outcome R)
    : Prop :=
  existsb f tr = false.

(** The [*http.Response] of an SDK answer; nil when the request never got
    one. *)
Record HttpResponse := { StatusCode : Z }.

(** Modelled from the spec: [response.WasNotFound] of go-azure-helpers
    (vendored, absent from the sources): the answer exists and carries the
    status 404. *)
Definition WasNotFound (resp : option HttpResponse) : bool :=
  match resp with
  | Some r => Z.eqb (StatusCode r) 404
  | None => false
  end.

(** [strings.EqualFold] on ASCII text. *)
Definition EqualFold (a b : string) : bool :=
  String.eqb (GoStrings.ToUpper a) (GoStrings.ToUpper b).

(** ** [azurerm_servicebus_namespace] *)
Module ServiceBus.

(** *** The SDK models ([namespaces], API version 2024-01-01)

    The type declarations live in the vendored SDK; the fields below are the
    ones the resource reads or writes, with the names the source uses.  A Go
    pointer is an [option].  What the resource never touches is carried along
    as [Untouched]. *)
Inductive Untouched : Type := untouched (json : string).

Record NamespaceId := {
  SubscriptionId : string;
  ResourceGroupName : string;
  NamespaceName : string;
}.

Definition NewNamespaceID (subscriptionId resourceGroupName namespaceName : string)
    : NamespaceId :=
  {| SubscriptionId := subscriptionId;
     ResourceGroupName := resourceGroupName;
     NamespaceName := namespaceName |}.

Definition NamespaceId_ID (id : NamespaceId) : string :=
  "/subscriptions/" +:+ SubscriptionId id +:+
  "/resourceGroups/" +:+ ResourceGroupName id +:+
  "/providers/Microsoft.ServiceBus/namespaces/" +:+ NamespaceName id.

Record AuthorizationRuleId := {
  ar_SubscriptionId : string;
  ar_ResourceGroupName : string;
  ar_NamespaceName : string;
  ar_AuthorizationRuleName : string;
}.

Definition NewAuthorizationRuleID (s g n r : string) : AuthorizationRuleId :=
  {| ar_SubscriptionId := s; ar_ResourceGroupName := g;
     ar_NamespaceName := n; ar_AuthorizationRuleName := r |}.

Record UserAssignedIdentityDetails := {
  ClientId : option string;
  PrincipalId : option string;
}.

(** [identity.Type] and its values. *)
Definition TypeNone : string := "None".
Definition TypeSystemAssigned : string := "SystemAssigned".
Definition TypeSystemAssignedUserAssigned : string := "SystemAssigned, UserAssigned".
Definition TypeUserAssigned : string := "UserAssigned".

Record SystemAndUserAssignedMap := {
  Type_ : string;
  IdentityIds : gmap string UserAssignedIdentityDetails;
}.

Record UserAssignedIdentityProperties := {
  UserAssignedIdentity : option string;
}.

Record KeyVaultProperties := {
  kv_Identity : option UserAssignedIdentityProperties;
  KeyName : option string;
  KeyVaultUri : option string;
  KeyVersion : option string;
}.

Record Encryption := {
  KeySource : option string;
  KeyVaultProperties_ : option (list KeyVaultProperties);
  RequireInfrastructureEncryption : option bool;
}.

Record SBSku := {
  Capacity : option Z;
  sku_Name : string;
  Tier : option string;
}.

Record SBNamespaceProperties := {
  DisableLocalAuth : option bool;
  Encryption_ : option Encryption;
  MinimumTlsVersion : option string;
  PremiumMessagingPartitions : option Z;
  PublicNetworkAccess : option string;
  ServiceBusEndpoint : option string;
  props_rest : Untouched;
}.

Record SBNamespace := {
  ns_Id : option string;
  Identity : option SystemAndUserAssignedMap;
  Location : string;
  ns_Name : option string;
  Properties : option SBNamespaceProperties;
  Sku : option SBSku;
  SystemData : option Untouched;
  Tags : option (gmap string string);
  ns_Type : option string;
}.

Definition PublicNetworkAccessEnabled : string := "Enabled".
Definition PublicNetworkAccessDisabled : string := "Disabled".
Definition SkuNamePremium : string := "Premium".
Definition KeySourceMicrosoftPointKeyVault : string := "Microsoft.KeyVault".
Definition DefaultActionAllow : string := "Allow".
Definition DefaultActionDeny : string := "Deny".
Definition NetworkRuleIPActionAllow : string := "Allow".
Definition PublicNetworkAccessFlagEnabled : string := "Enabled".

(** [namespaces.PossibleValuesForSkuName()] *)
Definition PossibleValuesForSkuName : list string := ["Basic"; "Premium"; "Standard"].

Record Subnet := { subnet_Id : string }.

Record NWRuleSetVirtualNetworkRules := {
  IgnoreMissingVnetServiceEndpoint : option bool;
  Subnet_ : option Subnet;
}.

Record NWRuleSetIPRules := {
  Action : option string;
  IPMask : option string;
}.

Record NetworkRuleSetProperties := {
  DefaultAction : option string;
  IPRules : option (list NWRuleSetIPRules);
  nrs_PublicNetworkAccess : option string;
  TrustedServiceAccessEnabled : option bool;
  VirtualNetworkRules : option (list NWRuleSetVirtualNetworkRules);
}.

Record NetworkRuleSet := {
  nrs_Properties : option NetworkRuleSetProperties;
}.

Record AccessKeys := {
  PrimaryConnectionString : option string;
  SecondaryConnectionString : option string;
  PrimaryKey : option string;
  SecondaryKey : option string;
}.

(** The answer of a [Get]-like SDK call, beside its [error]. *)
Record Response (Model : Type) := {
  HttpResponse_ : option HttpResponse;
  Model_ : option Model;
}.
Arguments HttpResponse_ {Model} r.
Arguments Model_ {Model} r.

(** *** The client

    The methods of [namespaces.NamespacesClient] and
    [namespacesauthorizationrule] the resource calls.  The [...ThenPoll]
    methods return once the long-running operation has completed.
    [waitForNamespaceStatusToBeReady] is a function of the servicebus package
    kept in another file; it polls the namespace until its status is ready
    and is taken here as one more operation of the remote side. *)
Inductive Op : Type -> Type :=
| Get (id : NamespaceId) : Op (Response SBNamespace * option error)
| CreateOrUpdateThenPoll (id : NamespaceId) (input : SBNamespace) : Op (option error)
| DeleteThenPoll (id : NamespaceId) : Op (option error)
| CreateOrUpdateNetworkRuleSet (id : NamespaceId) (input : NetworkRuleSet)
    : Op (option error)
| GetNetworkRuleSet (id : NamespaceId) : Op (Response NetworkRuleSet * option error)
| NamespacesListKeys (id : AuthorizationRuleId) : Op (Response AccessKeys * option error)
| waitForNamespaceStatusToBeReady (id : NamespaceId) (timeout : Z) : Op (option error).

(** Reading a trace: the answer of a [Get], the payload of a create or
    update request, and whether such a request was sent and succeeded. *)
Definition get_answer (ev : Event Op) : option (Response SBNamespace * option error) :=
  match ev with
  | Ev op ans =>
      match op in Op X return X -> option (Response SBNamespace * option error) with
      | Get _ => fun a => Some a
      | _ => fun _ => None
      end ans
  end.

Definition sent_payload (ev : Event Op) : option SBNamespace :=
  match ev_op ev with
  | CreateOrUpdateThenPoll _ input => Some input
  | _ => None
  end.

Definition created_ok (ev : Event Op) : bool :=
  match ev with
  | Ev op ans =>
      match op in Op X return X -> bool with
      | CreateOrUpdateThenPoll _ _ =>
          fun a => match a with None => true | Some _ => false end
      | _ => fun _ => false
      end ans
  end.

Definition sends_payload (ev : Event Op) : bool :=
  match sent_payload ev with Some _ => true | None => false end.

(** The requests that change nothing on the remote side. *)
Definition is_read (ev : Event Op) : bool :=
  match ev_op ev with
  | Get _ | GetNetworkRuleSet _ | NamespacesListKeys _ => true
  | _ => false
  end.

(** The rule set a [CreateOrUpdateNetworkRuleSet] request carries. *)
Definition sent_rules (ev : Event Op) : option NetworkRuleSet :=
  match ev_op ev with
  | CreateOrUpdateNetworkRuleSet _ input => Some input
  | _ => None
  end.

(** *** The schema, as [d.Get] returns it *)
Record IdentityBlock := {
  type : string;
  identity_ids : list string;
}.

Record CustomerManagedKeyBlock := {
  key_vault_key_id : string;
  identity_id : string;
  infrastructure_encryption_enabled : bool;
}.

Record NetworkRuleBlock := {
  subnet_id : string;
  ignore_missing_vnet_service_endpoint : bool;
}.

Record NetworkRuleSetBlock := {
  default_action : string;
  nrs_public_network_access_enabled : bool;
  trusted_services_allowed : bool;
  network_rules : list NetworkRuleBlock;
  ip_rules : list string;
}.

Record Config := {
  name : string;
  location : string;
  resource_group_name : string;
  identity : list IdentityBlock;
  sku : string;
  capacity : option Z;
  premium_messaging_partitions : option Z;
  customer_managed_key : list (option CustomerManagedKeyBlock);
  local_auth_enabled : bool;
  public_network_access_enabled : bool;
  minimum_tls_version : string;
  network_rule_set : list (option NetworkRuleSetBlock);
  old_network_rule_set : list (option NetworkRuleSetBlock);
  tags : gmap string string;
  timeout_update : Z;
}.

(** *** Helpers of other packages

    Functions the resource calls whose code is not among the sources: the
    location and tag helpers, the ID parsers of the SDK and of the key vault
    package, and the identity flattener. *)
Record NestedItemId := {
  KeyVaultBaseUrl : string;
  NestedItemType : string;
  nested_Name : string;
  nested_Version : string;
}.

Record UserAssignedIdentityId := {
  uai_SubscriptionId : string;
  uai_ResourceGroupName : string;
  UserAssignedIdentityName : string;
}.

Definition UserAssignedIdentityId_ID (id : UserAssignedIdentityId) : string :=
  "/subscriptions/" +:+ uai_SubscriptionId id +:+
  "/resourceGroups/" +:+ uai_ResourceGroupName id +:+
  "/providers/Microsoft.ManagedIdentity/userAssignedIdentities/" +:+
  UserAssignedIdentityName id.

Definition NestedItemTypeKey : string := "keys".

Class Helpers := {
  NormalizeLocation : string -> string;
  location_Normalize : string -> string;
  expandTags : gmap string string -> option (gmap string string);
  flattenTags : option (gmap string string) -> value;
  ParseNamespaceID : string -> result NamespaceId;
  ParseOptionallyVersionedNestedItemID : string -> result NestedItemId;
  NewNestedItemID : string -> string -> string -> string -> result NestedItemId;
  NestedItemId_ID : NestedItemId -> string;
  ParseUserAssignedIdentityIDInsensitively : string -> result UserAssignedIdentityId;
  FlattenSystemAndUserAssignedMap : option SystemAndUserAssignedMap -> result value;
}.

Definition serviceBusNamespaceDefaultAuthorizationRule : string :=
  "RootManageSharedAccessKey".

Abbreviation RM := (M Op Config).

Section Resource.
Context `{Helpers}.

Definition expandServiceBusNamespaceEncryption
    (input : list (option CustomerManagedKeyBlock)) : Prog Op (option Encryption) :=
  match input with
  | [] | None :: _ => Ret None
  | Some v :: _ =>
      match ParseOptionallyVersionedNestedItemID (key_vault_key_id v) with
      | Err _ => Panic "nil pointer dereference: keyId"
      | Ok keyId =>
          Ret (Some
            {| KeySource := Some KeySourceMicrosoftPointKeyVault;
               RequireInfrastructureEncryption := Some (infrastructure_encryption_enabled v);
               KeyVaultProperties_ := Some [
                 {| KeyName := Some (nested_Name keyId);
                    KeyVersion := Some (nested_Version keyId);
                    KeyVaultUri := Some (KeyVaultBaseUrl keyId);
                    kv_Identity := Some {| UserAssignedIdentity := Some (identity_id v) |} |} ] |})
      end
  end.

Definition expandSystemAndUserAssignedMap (input : list IdentityBlock)
    : result SystemAndUserAssignedMap :=
  let '(identityType, identityIds) :=
    match input with
    | raw :: _ =>
        let typeRaw := type raw in
        let identityType := TypeNone in
        let identityType :=
          if String.eqb typeRaw TypeSystemAssigned then TypeSystemAssigned
          else identityType in
        let identityType :=
          if String.eqb typeRaw TypeSystemAssignedUserAssigned
          then TypeSystemAssignedUserAssigned else identityType in
        let identityType :=
          if String.eqb typeRaw TypeUserAssigned then TypeUserAssigned
          else identityType in
        (identityType,
         foldl (fun ids v => <[v := {| ClientId := None; PrincipalId := None |}]> ids)
               ∅ (identity_ids raw))
    | [] => (TypeNone, ∅)
    end in
  if bool_decide (0 < size identityIds)
     && (negb (String.eqb identityType TypeSystemAssignedUserAssigned)
         && negb (String.eqb identityType TypeUserAssigned)) then
    Err (Errorf "`identity_ids` can only be specified when `type` is set to %q or %q")
  else if bool_decide (size identityIds = 0) then
    Ok {| Type_ := identityType; IdentityIds := ∅ |}
  else
    Ok {| Type_ := identityType; IdentityIds := identityIds |}.

Definition expandServiceBusNamespaceVirtualNetworkRules (input : list NetworkRuleBlock)
    : option (list NWRuleSetVirtualNetworkRules) :=
  if bool_decide (length input = 0) then None
  else Some (map (fun raw =>
    {| Subnet_ := Some {| subnet_Id := subnet_id raw |};
       IgnoreMissingVnetServiceEndpoint := Some (ignore_missing_vnet_service_endpoint raw) |})
    input).

Definition expandServiceBusNamespaceIPRules (input : list string)
    : option (list NWRuleSetIPRules) :=
  if bool_decide (length input = 0) then None
  else Some (map (fun v =>
    {| IPMask := Some v; Action := Some NetworkRuleIPActionAllow |}) input).

Definition createNetworkRuleSetForNamespace (id : NamespaceId)
    (input : list (option NetworkRuleSetBlock)) : RM unit :=
  match input with
  | [] | None :: _ => mret tt
  | Some item :: _ =>
      let defaultAction := default_action item in
      let vnetRule := expandServiceBusNamespaceVirtualNetworkRules (network_rules item) in
      let ipRule := expandServiceBusNamespaceIPRules (ip_rules item) in
      let publicNetworkAcc :=
        if nrs_public_network_access_enabled item then "Enabled" else "Disabled" in
      if String.eqb defaultAction DefaultActionDeny
         && bool_decide (vnetRule = None) && bool_decide (ipRule = None) then
        fail (Errorf " The `default_action` of `network_rule_set` can only be set to `Allow` if no `ip_rules` or `network_rules` is set")
      else
        let parameters :=
          {| nrs_Properties := Some
               {| DefaultAction := Some defaultAction;
                  VirtualNetworkRules := vnetRule;
                  IPRules := ipRule;
                  nrs_PublicNetworkAccess := Some publicNetworkAcc;
                  TrustedServiceAccessEnabled := Some (trusted_services_allowed item) |} |} in
        err ← call (CreateOrUpdateNetworkRuleSet id parameters);
        check "creating/updating %s: %+v" err
  end.

Definition resetNetworkRuleSetForNamespace (id : NamespaceId) : RM unit :=
  let parameters :=
    {| nrs_Properties := Some
         {| DefaultAction := Some DefaultActionAllow;
            VirtualNetworkRules := None;
            IPRules := None;
            nrs_PublicNetworkAccess := None;
            TrustedServiceAccessEnabled := None |} |} in
  err ← call (CreateOrUpdateNetworkRuleSet id parameters);
  check "resetting %s: %+v" err.

(** Field updates of the payload ([payload.X = v]). *)
Definition set_Identity (v : option SystemAndUserAssignedMap) (p : SBNamespace) : SBNamespace :=
  {| ns_Id := ns_Id p; Identity := v; Location := Location p; ns_Name := ns_Name p;
     Properties := Properties p; Sku := Sku p; SystemData := SystemData p;
     Tags := Tags p; ns_Type := ns_Type p |}.

Definition set_Sku (v : option SBSku) (p : SBNamespace) : SBNamespace :=
  {| ns_Id := ns_Id p; Identity := Identity p; Location := Location p; ns_Name := ns_Name p;
     Properties := Properties p; Sku := v; SystemData := SystemData p;
     Tags := Tags p; ns_Type := ns_Type p |}.

Definition set_Tags (v : option (gmap string string)) (p : SBNamespace) : SBNamespace :=
  {| ns_Id := ns_Id p; Identity := Identity p; Location := Location p; ns_Name := ns_Name p;
     Properties := Properties p; Sku := Sku p; SystemData := SystemData p;
     Tags := v; ns_Type := ns_Type p |}.

Definition set_Properties (v : option SBNamespaceProperties) (p : SBNamespace) : SBNamespace :=
  {| ns_Id := ns_Id p; Identity := Identity p; Location := Location p; ns_Name := ns_Name p;
     Properties := v; Sku := Sku p; SystemData := SystemData p;
     Tags := Tags p; ns_Type := ns_Type p |}.

Definition set_PublicNetworkAccess (v : option string) (p : SBNamespaceProperties)
    : SBNamespaceProperties :=
  {| DisableLocalAuth := DisableLocalAuth p; Encryption_ := Encryption_ p;
     MinimumTlsVersion := MinimumTlsVersion p;
     PremiumMessagingPartitions := PremiumMessagingPartitions p;
     PublicNetworkAccess := v; ServiceBusEndpoint := ServiceBusEndpoint p;
     props_rest := props_rest p |}.

Definition set_Encryption (v : option Encryption) (p : SBNamespaceProperties)
    : SBNamespaceProperties :=
  {| DisableLocalAuth := DisableLocalAuth p; Encryption_ := v;
     MinimumTlsVersion := MinimumTlsVersion p;
     PremiumMessagingPartitions := PremiumMessagingPartitions p;
     PublicNetworkAccess := PublicNetworkAccess p;
     ServiceBusEndpoint := ServiceBusEndpoint p; props_rest := props_rest p |}.

Definition set_DisableLocalAuth (v : option bool) (p : SBNamespaceProperties)
    : SBNamespaceProperties :=
  {| DisableLocalAuth := v; Encryption_ := Encryption_ p;
     MinimumTlsVersion := MinimumTlsVersion p;
     PremiumMessagingPartitions := PremiumMessagingPartitions p;
     PublicNetworkAccess := PublicNetworkAccess p;
     ServiceBusEndpoint := ServiceBusEndpoint p; props_rest := props_rest p |}.

Definition set_MinimumTlsVersion (v : option string) (p : SBNamespaceProperties)
    : SBNamespaceProperties :=
  {| DisableLocalAuth := DisableLocalAuth p; Encryption_ := Encryption_ p;
     MinimumTlsVersion := v;
     PremiumMessagingPartitions := PremiumMessagingPartitions p;
     PublicNetworkAccess := PublicNetworkAccess p;
     ServiceBusEndpoint := ServiceBusEndpoint p; props_rest := props_rest p |}.

Definition set_PremiumMessagingPartitions (v : option Z) (p : SBNamespaceProperties)
    : SBNamespaceProperties :=
  {| DisableLocalAuth := DisableLocalAuth p; Encryption_ := Encryption_ p;
     MinimumTlsVersion := MinimumTlsVersion p;
     PremiumMessagingPartitions := v;
     PublicNetworkAccess := PublicNetworkAccess p;
     ServiceBusEndpoint := ServiceBusEndpoint p; props_rest := props_rest p |}.

Definition set_Capacity (v : option Z) (s : SBSku) : SBSku :=
  {| Capacity := v; sku_Name := sku_Name s; Tier := Tier s |}.

(** [payload.Properties.X = v]: [payload.Properties] is a pointer the caller
    has checked. *)
Definition onProperties (f : SBNamespaceProperties -> SBNamespaceProperties)
    (payload : SBNamespace) : RM SBNamespace :=
  match Properties payload with
  | Some props => mret (set_Properties (Some (f props)) payload)
  | None => panic "nil pointer dereference: payload.Properties"
  end.

(** [payload.Sku.Capacity = v] *)
Definition onSku (f : SBSku -> SBSku) (payload : SBNamespace) : RM SBNamespace :=
  match Sku payload with
  | Some s => mret (set_Sku (Some (f s)) payload)
  | None => panic "nil pointer dereference: payload.Sku"
  end.

(** The checks on [capacity] shared by Create and Update. *)
Definition checkCapacity (sku : string) (capacity : Z) : RM unit :=
  if negb (EqualFold sku SkuNamePremium) && (0 <? capacity)%Z then
    fail (Errorf "service bus SKU %q only supports `capacity` of 0")
  else if EqualFold sku SkuNamePremium && (capacity =? 0)%Z then
    fail (Errorf "service bus SKU %q only supports `capacity` of 1, 2, 4, 8 or 16")
  else mret tt.

Definition flattenServiceBusNamespaceEncryption (encryption : option Encryption)
    : result value :=
  match encryption with
  | None => Ok (VList [])
  | Some encryption =>
      let ids : result (string * string) :=
        match KeyVaultProperties_ encryption with
        | Some (props :: _) =>
            match NewNestedItemID (default "" (KeyVaultUri props)) NestedItemTypeKey
                    (default "" (KeyName props)) (default "" (KeyVersion props)) with
            | Err e => Err (Wrapf "parsing `key_vault_key_id`: %+v" e)
            | Ok keyVaultKeyId =>
                let keyId := NestedItemId_ID keyVaultKeyId in
                match kv_Identity props with
                | Some {| UserAssignedIdentity := Some uai |} =>
                    match ParseUserAssignedIdentityIDInsensitively uai with
                    | Err e => Err e
                    | Ok sbnUaiId => Ok (keyId, UserAssignedIdentityId_ID sbnUaiId)
                    end
                | _ => Ok (keyId, "")
                end
            end
        | _ => Ok ("", "")
        end in
      match ids with
      | Err e => Err e
      | Ok (keyId, identityId) =>
          Ok (VList [VObject [
            ("infrastructure_encryption_enabled",
               VBoolPtr (RequireInfrastructureEncryption encryption));
            ("key_vault_key_id", VString keyId);
            ("identity_id", VString identityId)]])
      end
  end.

Definition flattenServiceBusNamespaceVirtualNetworkRules
    (input : option (list NWRuleSetVirtualNetworkRules)) : list value :=
  match input with
  | None => []
  | Some input =>
      map (fun v =>
        let subnetId :=
          match Subnet_ v with
          | Some s => if negb (String.eqb (subnet_Id s) "") then subnet_Id s else ""
          | None => ""
          end in
        let ignore := default false (IgnoreMissingVnetServiceEndpoint v) in
        VObject [("subnet_id", VString subnetId);
                 ("ignore_missing_vnet_service_endpoint", VBool ignore)]) input
  end.

Definition flattenServiceBusNamespaceIPRules (input : option (list NWRuleSetIPRules))
    : list value :=
  match input with
  | None | Some [] => []
  | Some input =>
      omap (fun v => match IPMask v with Some m => Some (VString m) | None => None end) input
  end.

Definition flattenServiceBusNamespaceNetworkRuleSet (networkRuleSet : NetworkRuleSetProperties)
    : value :=
  let defaultAction := default "" (DefaultAction networkRuleSet) in
  let publicNetworkAccess :=
    default PublicNetworkAccessFlagEnabled (nrs_PublicNetworkAccess networkRuleSet) in
  let trustedServiceEnabled := default false (TrustedServiceAccessEnabled networkRuleSet) in
  let networkRules :=
    flattenServiceBusNamespaceVirtualNetworkRules (VirtualNetworkRules networkRuleSet) in
  let ipRules := flattenServiceBusNamespaceIPRules (IPRules networkRuleSet) in
  VList [VObject [
    ("default_action", VString defaultAction);
    ("trusted_services_allowed", VBool trustedServiceEnabled);
    ("public_network_access_enabled",
       VBool (String.eqb publicNetworkAccess PublicNetworkAccessFlagEnabled));
    ("network_rules", VSet networkRules);
    ("ip_rules", VList ipRules)]].

(** [resourceServiceBusNamespaceRead].  The log lines are left out; [d.Set]
    of a value built by the flatteners does not fail. *)
Definition resourceServiceBusNamespaceRead : RM unit :=
  s ← d_Id;
  id ← try (ParseNamespaceID s);
  '(resp, err) ← call (Get id);
  match err with
  | Some e =>
      if WasNotFound (HttpResponse_ resp) then d_SetId ""
      else fail (Wrapf "retrieving %s: %+v" e)
  | None =>
      d_Set "name" (VString (NamespaceName id));;
      d_Set "resource_group_name" (VString (ResourceGroupName id));;
      match Model_ resp with
      | None => mret tt
      | Some model =>
          d_Set "location" (VString (location_Normalize (Location model)));;
          d_Set "tags" (flattenTags (Tags model));;
          identity ←
            match FlattenSystemAndUserAssignedMap (Identity model) with
            | Err e => fail (Wrapf "flattening `identity`: %+v" e)
            | Ok v => mret v
            end;
          d_Set "identity" identity;;
          match Sku model with
          | None => mret tt
          | Some sku =>
              let skuName :=
                foldl (fun acc v => if EqualFold v (sku_Name sku) then v else acc)
                      "" PossibleValuesForSkuName in
              d_Set "sku" (VString skuName);;
              d_Set "capacity" (VIntPtr (Capacity sku));;
              match Properties model with
              | None => mret tt
              | Some props =>
                  d_Set "premium_messaging_partitions"
                    (VIntPtr (PremiumMessagingPartitions props));;
                  match flattenServiceBusNamespaceEncryption (Encryption_ props) with
                  | Ok customerManagedKey => d_Set "customer_managed_key" customerManagedKey
                  | Err _ => mret tt
                  end;;
                  let localAuthEnabled :=
                    match DisableLocalAuth props with
                    | Some disabled => negb disabled
                    | None => true
                    end in
                  d_Set "local_auth_enabled" (VBool localAuthEnabled);;
                  let publicNetworkAccess :=
                    match PublicNetworkAccess props with
                    | Some v => negb (String.eqb v PublicNetworkAccessDisabled)
                    | None => true
                    end in
                  d_Set "public_network_access_enabled" (VBool publicNetworkAccess);;
                  match MinimumTlsVersion props with
                  | Some v => d_Set "minimum_tls_version" (VString v)
                  | None => mret tt
                  end;;
                  d_Set "endpoint" (VStringPtr (ServiceBusEndpoint props))
              end
          end
      end;;
      let authRuleId :=
        NewAuthorizationRuleID (SubscriptionId id) (ResourceGroupName id)
          (NamespaceName id) serviceBusNamespaceDefaultAuthorizationRule in
      '(keys, err) ← call (NamespacesListKeys authRuleId);
      match err with
      | Some _ => mret tt
      | None =>
          match Model_ keys with
          | Some keysModel =>
              d_Set "default_primary_connection_string"
                (VStringPtr (PrimaryConnectionString keysModel));;
              d_Set "default_secondary_connection_string"
                (VStringPtr (SecondaryConnectionString keysModel));;
              d_Set "default_primary_key" (VStringPtr (PrimaryKey keysModel));;
              d_Set "default_secondary_key" (VStringPtr (SecondaryKey keysModel))
          | None => mret tt
          end
      end;;
      '(networkRuleSet, err) ← call (GetNetworkRuleSet id);
      check "retrieving network rule set %s: %+v" err;;
      match Model_ networkRuleSet with
      | Some model =>
          match nrs_Properties model with
          | Some props =>
              d_Set "network_rule_set" (flattenServiceBusNamespaceNetworkRuleSet props)
          | None => mret tt
          end
      | None => mret tt
      end
  end.

(** [resourceServiceBusNamespaceCreate]; [subscriptionId] is the
    subscription of the provider's account. *)
Definition resourceServiceBusNamespaceCreate (subscriptionId : string) : RM unit :=
  location ← d_Get (fun c => NormalizeLocation (location c));
  sku ← d_Get sku;
  t ← d_Get tags;
  resourceGroup ← d_Get resource_group_name;
  name ← d_Get name;
  let id := NewNamespaceID subscriptionId resourceGroup name in
  '(existing, err) ← call (Get id);
  match err with
  | Some e =>
      if negb (WasNotFound (HttpResponse_ existing)) then
        fail (Wrapf "checking for presence of existing %s: %+v" e)
      else mret tt
  | None => mret tt
  end;;
  (if negb (WasNotFound (HttpResponse_ existing)) then
     fail (ImportAsExistsError "azurerm_servicebus_namespace" (NamespaceId_ID id))
   else mret tt);;
  identityRaw ← d_Get identity;
  identity ←
    match expandSystemAndUserAssignedMap identityRaw with
    | Err e => fail (Wrapf "expanding `identity`: %+v" e)
    | Ok v => mret v
    end;
  publicNetworkAccessEnabled ← d_Get public_network_access_enabled;
  let publicNetworkEnabled :=
    if negb publicNetworkAccessEnabled then PublicNetworkAccessDisabled
    else PublicNetworkAccessEnabled in
  customerManagedKey ← d_Get customer_managed_key;
  encryption ← liftP (expandServiceBusNamespaceEncryption customerManagedKey);
  localAuthEnabled ← d_Get local_auth_enabled;
  let parameters :=
    {| ns_Id := None; ns_Name := None; ns_Type := None; SystemData := None;
       Location := location;
       Identity := Some identity;
       Sku := Some {| sku_Name := sku; Tier := Some sku; Capacity := None |};
       Properties := Some
         {| Encryption_ := encryption;
            DisableLocalAuth := Some (negb localAuthEnabled);
            PublicNetworkAccess := Some publicNetworkEnabled;
            MinimumTlsVersion := None;
            PremiumMessagingPartitions := None;
            ServiceBusEndpoint := None;
            props_rest := untouched "" |};
       Tags := expandTags t |} in
  tlsValue ← d_Get minimum_tls_version;
  parameters ←
    (if negb (String.eqb tlsValue "") then
       onProperties (set_MinimumTlsVersion (Some tlsValue)) parameters
     else mret parameters);
  capacity ← d_Get capacity;
  parameters ←
    match capacity with
    | Some capacity =>
        checkCapacity sku capacity;;
        onSku (set_Capacity (Some capacity)) parameters
    | None => mret parameters
    end;
  premiumMessagingUnit ← d_Get premium_messaging_partitions;
  parameters ←
    match premiumMessagingUnit with
    | Some premiumMessagingUnit =>
        (if negb (EqualFold sku SkuNamePremium) && (0 <? premiumMessagingUnit)%Z then
           fail (Errorf "premium messaging partition is not supported by service Bus SKU %q and it can only be set to 0")
         else if EqualFold sku SkuNamePremium && (premiumMessagingUnit =? 0)%Z then
           fail (Errorf "service bus SKU %q only supports `premium_messaging_partitions` of 1, 2, 4")
         else mret tt);;
        onProperties (set_PremiumMessagingPartitions (Some premiumMessagingUnit)) parameters
    | None => mret parameters
    end;
  err ← call (CreateOrUpdateThenPoll id parameters);
  check "creating %s: %+v" err;;
  d_SetId (NamespaceId_ID id);;
  networkRuleSet ← d_Get network_rule_set;
  createNetworkRuleSetForNamespace id networkRuleSet;;
  resourceServiceBusNamespaceRead.

(** [resourceServiceBusNamespaceUpdate] *)
Definition resourceServiceBusNamespaceUpdate : RM unit :=
  s ← d_Id;
  id ← try (ParseNamespaceID s);
  '(existing, err) ← call (Get id);
  check "retrieving %s: %+v" err;;
  match Model_ existing with
  | None => fail (Errorf "retrieving  %s: `model` was nil")
  | Some model =>
  match Properties model with
  | None => fail (Errorf "retrieving %s: `model.Properties` was nil")
  | Some _ =>
      let payload := model in
      changed ← d_HasChange "identity";
      payload ←
        (if (changed : bool) then
           identityRaw ← d_Get identity;
           match expandSystemAndUserAssignedMap identityRaw with
           | Err e => fail (Wrapf "expanding `identity`: %+v" e)
           | Ok identity => mret (set_Identity (Some identity) payload)
           end
         else mret payload);
      changed ← d_HasChange "public_network_access_enabled";
      payload ←
        (if (changed : bool) then
           enabled ← d_Get public_network_access_enabled;
           let publicNetworkEnabled :=
             if negb enabled then PublicNetworkAccessDisabled
             else PublicNetworkAccessEnabled in
           onProperties (set_PublicNetworkAccess (Some publicNetworkEnabled)) payload
         else mret payload);
      changed ← d_HasChange "sku";
      payload ←
        (if (changed : bool) then
           sku ← d_Get sku;
           mret (set_Sku (Some {| sku_Name := sku; Tier := Some sku; Capacity := None |})
                   payload)
         else mret payload);
      changed ← d_HasChange "customer_managed_key";
      payload ←
        (if (changed : bool) then
           customerManagedKey ← d_Get customer_managed_key;
           encryption ← liftP (expandServiceBusNamespaceEncryption customerManagedKey);
           onProperties (set_Encryption encryption) payload
         else mret payload);
      changed ← d_HasChange "local_auth_enabled";
      payload ←
        (if (changed : bool) then
           localAuthEnabled ← d_Get local_auth_enabled;
           onProperties (set_DisableLocalAuth (Some (negb localAuthEnabled))) payload
         else mret payload);
      changed ← d_HasChange "tags";
      payload ←
        (if (changed : bool) then
           t ← d_Get tags;
           mret (set_Tags (expandTags t) payload)
         else mret payload);
      changed ← d_HasChange "minimum_tls_version";
      payload ←
        (if (changed : bool) then
           tlsValue ← d_Get minimum_tls_version;
           onProperties (set_MinimumTlsVersion (Some tlsValue)) payload
         else mret payload);
      changed ← d_HasChange "capacity";
      payload ←
        (if (changed : bool) then
           sku ← d_Get sku;
           capacity ← d_Get capacity;
           match capacity return RM SBNamespace with
           | Some capacity =>
               checkCapacity sku capacity;;
               onSku (set_Capacity (Some capacity)) payload
           | None => mret payload
           end
         else mret payload);
      err ← call (CreateOrUpdateThenPoll id payload);
      check "updating %s: %+v" err;;
      d_SetId (NamespaceId_ID id);;
      changed ← d_HasChange "network_rule_set";
      when (changed : bool) (
         oldNetworkRuleSet ← d_Get old_network_rule_set;
         newNetworkRuleSet ← d_Get network_rule_set;
         if bool_decide (length oldNetworkRuleSet = 1)
            && bool_decide (length newNetworkRuleSet = 0) then
           resetNetworkRuleSetForNamespace id
         else createNetworkRuleSetForNamespace id newNetworkRuleSet);;
      resourceServiceBusNamespaceRead
  end
  end.

(** What Update leaves as retrieved, field by field: the payload against
    the model the API returned, given the attributes the plan reports as
    changed.  A field of the properties or of the SKU is compared under its
    pointer.  [Sku.Name] and [Sku.Tier] go with [sku]; [Sku.Capacity] is
    compared when neither [sku] nor [capacity] changed. *)
Definition kept (changed : gset string) (model payload : SBNamespace) : Prop :=
  ns_Id payload = ns_Id model
  /\ Location payload = Location model
  /\ ns_Name payload = ns_Name model
  /\ SystemData payload = SystemData model
  /\ ns_Type payload = ns_Type model
  /\ ("identity" ∉ changed -> Identity payload = Identity model)
  /\ ("tags" ∉ changed -> Tags payload = Tags model)
  /\ ("sku" ∉ changed ->
      sku_Name <$> Sku payload = sku_Name <$> Sku model
      /\ Tier <$> Sku payload = Tier <$> Sku model)
  /\ ("sku" ∉ changed -> "capacity" ∉ changed ->
      Capacity <$> Sku payload = Capacity <$> Sku model)
  /\ PremiumMessagingPartitions <$> Properties payload
     = PremiumMessagingPartitions <$> Properties model
  /\ ServiceBusEndpoint <$> Properties payload = ServiceBusEndpoint <$> Properties model
  /\ props_rest <$> Properties payload = props_rest <$> Properties model
  /\ ("public_network_access_enabled" ∉ changed ->
      PublicNetworkAccess <$> Properties payload
      = PublicNetworkAccess <$> Properties model)
  /\ ("customer_managed_key" ∉ changed ->
      Encryption_ <$> Properties payload = Encryption_ <$> Properties model)
  /\ ("local_auth_enabled" ∉ changed ->
      DisableLocalAuth <$> Properties payload = DisableLocalAuth <$> Properties model)
  /\ ("minimum_tls_version" ∉ changed ->
      MinimumTlsVersion <$> Properties payload = MinimumTlsVersion <$> Properties model).

(** [resourceServiceBusNamespaceDelete] *)
Definition resourceServiceBusNamespaceDelete : RM unit :=
  s ← d_Id;
  id ← try (ParseNamespaceID s);
  timeout ← d_Get timeout_update;
  err ← call (waitForNamespaceStatusToBeReady id timeout);
  check "waiting for serviceBus namespace %s state to be ready error: %+v" err;;
  err ← call (DeleteThenPoll id);
  check "deleting %s: %+v" err.

End Resource.
End ServiceBus.

(** ** [azurerm_service_plan] *)
Module ServicePlan.

(** *** The SDK models ([appserviceplans], API version 2023-12-01) *)
Inductive Untouched : Type := untouched (json : string).

Record AppServicePlanId := {
  SubscriptionId : string;
  ResourceGroupName : string;
  ServerFarmName : string;
}.

Definition NewAppServicePlanID (subscriptionId resourceGroupName serverFarmName : string)
    : AppServicePlanId :=
  {| SubscriptionId := subscriptionId;
     ResourceGroupName := resourceGroupName;
     ServerFarmName := serverFarmName |}.

Definition AppServicePlanId_ID (id : AppServicePlanId) : string :=
  "/subscriptions/" +:+ SubscriptionId id +:+
  "/resourceGroups/" +:+ ResourceGroupName id +:+
  "/providers/Microsoft.Web/serverFarms/" +:+ ServerFarmName id.

Record HostingEnvironmentProfile := {
  hep_Id : option string;
}.

Record AppServicePlanProperties := {
  ElasticScaleEnabled : option bool;
  HostingEnvironmentProfile_ : option HostingEnvironmentProfile;
  HyperV : option bool;
  MaximumElasticWorkerCount : option Z;
  PerSiteScaling : option bool;
  Reserved : option bool;
  ZoneRedundant : option bool;
  props_rest : Untouched;
}.

Record SkuDescription := {
  Capacity : option Z;
  sku_Name : option string;
  sku_rest : Untouched;
}.

Record AppServicePlan := {
  asp_Id : option string;
  Kind : option string;
  Location : string;
  asp_Name : option string;
  Properties : option AppServicePlanProperties;
  Sku : option SkuDescription;
  Tags : option (gmap string string);
  asp_Type : option string;
  asp_rest : Untouched;
}.

Record Response (Model : Type) := {
  HttpResponse_ : option HttpResponse;
  Model_ : option Model;
}.
Arguments HttpResponse_ {Model} r.
Arguments Model_ {Model} r.

(** *** The client ([appserviceplans.AppServicePlansClient]) *)
Inductive Op : Type -> Type :=
| Get (id : AppServicePlanId) : Op (Response AppServicePlan * option error)
| CreateOrUpdateThenPoll (id : AppServicePlanId) (input : AppServicePlan)
    : Op (option error)
| Delete (id : AppServicePlanId) : Op (Response unit * option error).

Definition get_answer (ev : Event Op) : option (Response AppServicePlan * option error) :=
  match ev with
  | Ev op ans =>
      match op in Op X return X -> option (Response AppServicePlan * option error) with
      | Get _ => fun a => Some a
      | _ => fun _ => None
      end ans
  end.

Definition sent_payload (ev : Event Op) : option AppServicePlan :=
  match ev_op ev with
  | CreateOrUpdateThenPoll _ input => Some input
  | _ => None
  end.

Definition created_ok (ev : Event Op) : bool :=
  match ev with
  | Ev op ans =>
      match op in Op X return X -> bool with
      | CreateOrUpdateThenPoll _ _ =>
          fun a => match a with None => true | Some _ => false end
      | _ => fun _ => false
      end ans
  end.

Definition sends_payload (ev : Event Op) : bool :=
  match sent_payload ev with Some _ => true | None => false end.

(** The request that changes nothing on the remote side. *)
Definition is_read (ev : Event Op) : bool :=
  match ev_op ev with
  | Get _ => true
  | _ => false
  end.

(** *** The schema model *)
Definition OSTypeLinux : string := "Linux".
Definition OSTypeWindows : string := "Windows".
Definition OSTypeWindowsContainer : string := "WindowsContainer".

Record ServicePlanModel := {
  Name : string;
  ResourceGroup : string;
  Location_ : string;
  Kind_ : string;
  OSType : string;
  Sku_ : string;
  AppServiceEnvironmentId : string;
  PerSiteScaling_ : bool;
  Reserved_ : bool;
  WorkerCount : Z;
  PremiumPlanAutoScaleEnabled : bool;
  MaximumElasticWorkerCount_ : Z;
  ZoneBalancing : bool;
  Tags_ : gmap string string;
}.

(** What [metadata.Decode] finds in the configuration: the model, or the
    error of a failed decoding. *)
Record Config := {
  decoded : result ServicePlanModel;
}.

Class Helpers := {
  location_Normalize : string -> string;
  ParseAppServicePlanID : string -> result AppServicePlanId;
  PlanIsPremium : string -> bool;
}.

Abbreviation RM := (M Op Config).

Section Resource.
Context `{Helpers}.

Definition ResourceType : string := "azurerm_service_plan".

(** [metadata.Decode(&model)] *)
Definition Decode : RM ServicePlanModel :=
  r ← d_Get decoded;
  try r.

(** Modelled from the spec: [metadata.Encode] of the typed-resource SDK
    (package [internal/sdk], absent from the sources), which writes each
    field of the model under its [tfschema] name. *)
Definition Encode (state : ServicePlanModel) : RM unit :=
  d_Set "name" (VString (Name state));;
  d_Set "resource_group_name" (VString (ResourceGroup state));;
  d_Set "location" (VString (Location_ state));;
  d_Set "kind" (VString (Kind_ state));;
  d_Set "os_type" (VString (OSType state));;
  d_Set "sku_name" (VString (Sku_ state));;
  d_Set "app_service_environment_id" (VString (AppServiceEnvironmentId state));;
  d_Set "per_site_scaling_enabled" (VBool (PerSiteScaling_ state));;
  d_Set "reserved" (VBool (Reserved_ state));;
  d_Set "worker_count" (VInt (WorkerCount state));;
  d_Set "premium_plan_auto_scale_enabled" (VBool (PremiumPlanAutoScaleEnabled state));;
  d_Set "maximum_elastic_worker_count" (VInt (MaximumElasticWorkerCount_ state));;
  d_Set "zone_balancing_enabled" (VBool (ZoneBalancing state));;
  d_Set "tags" (VObject (prod_map id VString <$> map_to_list (Tags_ state))).

(** Modelled from the spec: [metadata.SetID] and [metadata.MarkAsGone] of the
    typed-resource SDK (absent from the sources): the first stores the ID of
    the resource, the second removes the resource from the state by clearing
    the ID, and reports no error. *)
Definition SetID (id : AppServicePlanId) : RM unit :=
  d_SetId (AppServicePlanId_ID id).

Definition MarkAsGone (id : AppServicePlanId) : RM unit :=
  d_SetId "".

(** Field updates of the payload. *)
Definition set_Properties (v : option AppServicePlanProperties) (p : AppServicePlan)
    : AppServicePlan :=
  {| asp_Id := asp_Id p; Kind := Kind p; Location := Location p; asp_Name := asp_Name p;
     Properties := v; Sku := Sku p; Tags := Tags p; asp_Type := asp_Type p;
     asp_rest := asp_rest p |}.

Definition set_Sku (v : option SkuDescription) (p : AppServicePlan) : AppServicePlan :=
  {| asp_Id := asp_Id p; Kind := Kind p; Location := Location p; asp_Name := asp_Name p;
     Properties := Properties p; Sku := v; Tags := Tags p; asp_Type := asp_Type p;
     asp_rest := asp_rest p |}.

Definition set_Tags (v : option (gmap string string)) (p : AppServicePlan)
    : AppServicePlan :=
  {| asp_Id := asp_Id p; Kind := Kind p; Location := Location p; asp_Name := asp_Name p;
     Properties := Properties p; Sku := Sku p; Tags := v; asp_Type := asp_Type p;
     asp_rest := asp_rest p |}.

Definition set_PerSiteScaling (v : option bool) (p : AppServicePlanProperties)
    : AppServicePlanProperties :=
  {| ElasticScaleEnabled := ElasticScaleEnabled p;
     HostingEnvironmentProfile_ := HostingEnvironmentProfile_ p;
     HyperV := HyperV p; MaximumElasticWorkerCount := MaximumElasticWorkerCount p;
     PerSiteScaling := v; Reserved := Reserved p; ZoneRedundant := ZoneRedundant p;
     props_rest := props_rest p |}.

Definition set_ElasticScaleEnabled (v : option bool) (p : AppServicePlanProperties)
    : AppServicePlanProperties :=
  {| ElasticScaleEnabled := v;
     HostingEnvironmentProfile_ := HostingEnvironmentProfile_ p;
     HyperV := HyperV p; MaximumElasticWorkerCount := MaximumElasticWorkerCount p;
     PerSiteScaling := PerSiteScaling p; Reserved := Reserved p;
     ZoneRedundant := ZoneRedundant p; props_rest := props_rest p |}.

Definition set_MaximumElasticWorkerCount (v : option Z) (p : AppServicePlanProperties)
    : AppServicePlanProperties :=
  {| ElasticScaleEnabled := ElasticScaleEnabled p;
     HostingEnvironmentProfile_ := HostingEnvironmentProfile_ p;
     HyperV := HyperV p; MaximumElasticWorkerCount := v;
     PerSiteScaling := PerSiteScaling p; Reserved := Reserved p;
     ZoneRedundant := ZoneRedundant p; props_rest := props_rest p |}.

Definition set_ZoneRedundant (v : option bool) (p : AppServicePlanProperties)
    : AppServicePlanProperties :=
  {| ElasticScaleEnabled := ElasticScaleEnabled p;
     HostingEnvironmentProfile_ := HostingEnvironmentProfile_ p;
     HyperV := HyperV p; MaximumElasticWorkerCount := MaximumElasticWorkerCount p;
     PerSiteScaling := PerSiteScaling p; Reserved := Reserved p;
     ZoneRedundant := v; props_rest := props_rest p |}.

Definition set_HostingEnvironmentProfile (v : option HostingEnvironmentProfile)
    (p : AppServicePlanProperties) : AppServicePlanProperties :=
  {| ElasticScaleEnabled := ElasticScaleEnabled p;
     HostingEnvironmentProfile_ := v;
     HyperV := HyperV p; MaximumElasticWorkerCount := MaximumElasticWorkerCount p;
     PerSiteScaling := PerSiteScaling p; Reserved := Reserved p;
     ZoneRedundant := ZoneRedundant p; props_rest := props_rest p |}.

Definition set_Capacity (v : option Z) (s : SkuDescription) : SkuDescription :=
  {| Capacity := v; sku_Name := sku_Name s; sku_rest := sku_rest s |}.

Definition set_sku_Name (v : option string) (s : SkuDescription) : SkuDescription :=
  {| Capacity := Capacity s; sku_Name := v; sku_rest := sku_rest s |}.

(** [model.Properties.X = v] and [model.Sku.X = v]: a nil pointer panics. *)
Definition onProperties (f : AppServicePlanProperties -> AppServicePlanProperties)
    (model : AppServicePlan) : RM AppServicePlan :=
  match Properties model with
  | Some props => mret (set_Properties (Some (f props)) model)
  | None => panic "nil pointer dereference: model.Properties"
  end.

Definition onSku (f : SkuDescription -> SkuDescription) (model : AppServicePlan)
    : RM AppServicePlan :=
  match Sku model with
  | Some s => mret (set_Sku (Some (f s)) model)
  | None => panic "nil pointer dereference: model.Sku"
  end.

(** The struct literal [ServicePlanResource.Create] starts its request
    from. *)
Definition newAppServicePlan (servicePlan : ServicePlanModel) : AppServicePlan :=
  {| Properties := Some
       {| PerSiteScaling := Some (PerSiteScaling_ servicePlan);
          Reserved := Some (String.eqb (OSType servicePlan) OSTypeLinux);
          HyperV := Some (String.eqb (OSType servicePlan) OSTypeWindowsContainer);
          ElasticScaleEnabled := Some (PremiumPlanAutoScaleEnabled servicePlan);
          ZoneRedundant := Some (ZoneBalancing servicePlan);
          HostingEnvironmentProfile_ := None;
          MaximumElasticWorkerCount := None;
          props_rest := untouched "" |};
     Sku := Some {| sku_Name := Some (Sku_ servicePlan); Capacity := None;
                    sku_rest := untouched "" |};
     Location := location_Normalize (Location_ servicePlan);
     Tags := Some (Tags_ servicePlan);
     asp_Id := None; Kind := None; asp_Name := None; asp_Type := None;
     asp_rest := untouched "" |}.

(** [ServicePlanResource.Create().Func] *)
Definition Create (subscriptionId : string) : RM unit :=
  servicePlan ← Decode;
  let id := NewAppServicePlanID subscriptionId (ResourceGroup servicePlan)
              (Name servicePlan) in
  '(existing, err) ← call (Get id);
  match err with
  | Some e =>
      if negb (WasNotFound (HttpResponse_ existing)) then
        fail (Wrapf "retrieving %s: %v" e)
      else mret tt
  | None => mret tt
  end;;
  (if negb (WasNotFound (HttpResponse_ existing)) then
     fail (ResourceRequiresImport ResourceType (AppServicePlanId_ID id))
   else mret tt);;
  let appServicePlan := newAppServicePlan servicePlan in
  appServicePlan ←
    (if negb (String.eqb (AppServiceEnvironmentId servicePlan) "") then
       if negb (String.prefix "I" (Sku_ servicePlan)) then
         fail (Errorf "App Service Environment based Service Plans can only be used with Isolated SKUs")
       else
         onProperties (set_HostingEnvironmentProfile
           (Some {| hep_Id := Some (AppServiceEnvironmentId servicePlan) |})) appServicePlan
     else mret appServicePlan);
  appServicePlan ←
    (if (0 <? MaximumElasticWorkerCount_ servicePlan)%Z then
       onProperties (set_MaximumElasticWorkerCount
         (Some (MaximumElasticWorkerCount_ servicePlan))) appServicePlan
     else mret appServicePlan);
  appServicePlan ←
    (if negb (WorkerCount servicePlan =? 0)%Z then
       onSku (set_Capacity (Some (WorkerCount servicePlan))) appServicePlan
     else mret appServicePlan);
  err ← call (CreateOrUpdateThenPoll id appServicePlan);
  check "creating %s: %v" err;;
  SetID id.

(** The state [ServicePlanResource.Read] builds from the answer of [Get]. *)
Definition readState (id : AppServicePlanId) (model : option AppServicePlan)
    : ServicePlanModel :=
  let state :=
    {| Name := ServerFarmName id; ResourceGroup := ResourceGroupName id;
       Location_ := ""; Kind_ := ""; OSType := ""; Sku_ := "";
       AppServiceEnvironmentId := ""; PerSiteScaling_ := false; Reserved_ := false;
       WorkerCount := 0; PremiumPlanAutoScaleEnabled := false;
       MaximumElasticWorkerCount_ := 0; ZoneBalancing := false; Tags_ := ∅ |} in
  match model with
  | None => state
  | Some model =>
      let location := location_Normalize (Location model) in
      let kind := default "" (Kind model) in
      (* sku read *)
      let '(sku, workerCount) :=
        match Sku model with
        | Some sku =>
            match sku_Name sku with
            | Some name =>
                (name, match Capacity sku with
                       | Some c => c
                       | None => WorkerCount state
                       end)
            | None => (Sku_ state, WorkerCount state)
            end
        | None => (Sku_ state, WorkerCount state)
        end in
      (* props read *)
      match Properties model with
      | Some props =>
          let osType := OSTypeWindows in
          let osType :=
            if bool_decide (HyperV props = Some true) then OSTypeWindowsContainer
            else osType in
          let osType :=
            if bool_decide (Reserved props = Some true) then OSTypeLinux
            else osType in
          let ase :=
            match HostingEnvironmentProfile_ props with
            | Some {| hep_Id := Some aseId |} => aseId
            | _ => AppServiceEnvironmentId state
            end in
          let autoScale :=
            if default false (ElasticScaleEnabled props)
               && negb (String.eqb sku "") && PlanIsPremium sku
            then default false (ElasticScaleEnabled props)
            else PremiumPlanAutoScaleEnabled state in
          {| Name := Name state; ResourceGroup := ResourceGroup state;
             Location_ := location; Kind_ := kind; OSType := osType; Sku_ := sku;
             AppServiceEnvironmentId := ase;
             PerSiteScaling_ := default false (PerSiteScaling props);
             Reserved_ := default false (Reserved props);
             WorkerCount := workerCount;
             PremiumPlanAutoScaleEnabled := autoScale;
             MaximumElasticWorkerCount_ := default 0%Z (MaximumElasticWorkerCount props);
             ZoneBalancing := default false (ZoneRedundant props);
             Tags_ := default ∅ (Tags model) |}
      | None =>
          {| Name := Name state; ResourceGroup := ResourceGroup state;
             Location_ := location; Kind_ := kind; OSType := OSType state; Sku_ := sku;
             AppServiceEnvironmentId := AppServiceEnvironmentId state;
             PerSiteScaling_ := PerSiteScaling_ state;
             Reserved_ := Reserved_ state;
             WorkerCount := workerCount;
             PremiumPlanAutoScaleEnabled := PremiumPlanAutoScaleEnabled state;
             MaximumElasticWorkerCount_ := MaximumElasticWorkerCount_ state;
             ZoneBalancing := ZoneBalancing state;
             Tags_ := default ∅ (Tags model) |}
      end
  end.

(** [ServicePlanResource.Read().Func] *)
Definition Read : RM unit :=
  s ← d_Id;
  id ← try (ParseAppServicePlanID s);
  '(servicePlan, err) ← call (Get id);
  match err with
  | Some e =>
      if WasNotFound (HttpResponse_ servicePlan) then MarkAsGone id
      else fail (Wrapf "retrieving %s: %+v" e)
  | None => Encode (readState id (Model_ servicePlan))
  end.

(** [ServicePlanResource.Update().Func] *)
Definition Update : RM unit :=
  s ← d_Id;
  id ← try (ParseAppServicePlanID s);
  r ← d_Get decoded;
  state ←
    match r with
    | Err e => fail (Wrapf "decoding: %+v" e)
    | Ok state => mret state
    end;
  '(existing, err) ← call (Get id);
  check "retrieving %s: %+v" err;;
  match Model_ existing with
  | None => panic "nil pointer dereference: existing.Model"
  | Some model =>
      changed ← d_HasChange "per_site_scaling_enabled";
      model ←
        (if (changed : bool) then
           onProperties (set_PerSiteScaling (Some (PerSiteScaling_ state))) model
         else mret model);
      changed ← d_HasChange "sku_name";
      model ←
        (if (changed : bool) then onSku (set_sku_Name (Some (Sku_ state))) model
         else mret model);
      changed ← d_HasChange "tags";
      model ←
        (if (changed : bool) then mret (set_Tags (Some (Tags_ state)) model)
         else mret model);
      changed ← d_HasChange "worker_count";
      model ←
        (if (changed : bool) then onSku (set_Capacity (Some (WorkerCount state))) model
         else mret model);
      changed ← d_HasChange "premium_plan_auto_scale_enabled";
      model ←
        (if (changed : bool) then
           onProperties
             (set_ElasticScaleEnabled (Some (PremiumPlanAutoScaleEnabled state))) model
         else mret model);
      changed ← d_HasChange "maximum_elastic_worker_count";
      model ←
        (if (changed : bool) then
           onProperties
             (set_MaximumElasticWorkerCount (Some (MaximumElasticWorkerCount_ state)))
             model
         else mret model);
      changed ← d_HasChange "zone_balancing_enabled";
      model ←
        (if (changed : bool) then
           onProperties (set_ZoneRedundant (Some (ZoneBalancing state))) model
         else mret model);
      err ← call (CreateOrUpdateThenPoll id model);
      check "updating %s: %+v" err
  end.

(** What Update leaves as retrieved, field by field. *)
Definition kept (changed : gset string) (model payload : AppServicePlan) : Prop :=
  asp_Id payload = asp_Id model
  /\ Kind payload = Kind model
  /\ Location payload = Location model
  /\ asp_Name payload = asp_Name model
  /\ asp_Type payload = asp_Type model
  /\ asp_rest payload = asp_rest model
  /\ ("tags" ∉ changed -> Tags payload = Tags model)
  /\ sku_rest <$> Sku payload = sku_rest <$> Sku model
  /\ ("sku_name" ∉ changed -> sku_Name <$> Sku payload = sku_Name <$> Sku model)
  /\ ("worker_count" ∉ changed -> Capacity <$> Sku payload = Capacity <$> Sku model)
  /\ HyperV <$> Properties payload = HyperV <$> Properties model
  /\ Reserved <$> Properties payload = Reserved <$> Properties model
  /\ HostingEnvironmentProfile_ <$> Properties payload
     = HostingEnvironmentProfile_ <$> Properties model
  /\ props_rest <$> Properties payload = props_rest <$> Properties model
  /\ ("per_site_scaling_enabled" ∉ changed ->
      PerSiteScaling <$> Properties payload = PerSiteScaling <$> Properties model)
  /\ ("premium_plan_auto_scale_enabled" ∉ changed ->
      ElasticScaleEnabled <$> Properties payload
      = ElasticScaleEnabled <$> Properties model)
  /\ ("maximum_elastic_worker_count" ∉ changed ->
      MaximumElasticWorkerCount <$> Properties payload
      = MaximumElasticWorkerCount <$> Properties model)
  /\ ("zone_balancing_enabled" ∉ changed ->
      ZoneRedundant <$> Properties payload = ZoneRedundant <$> Properties model).

(** [ServicePlanResource.Delete().Func] *)
Definition Delete_ : RM unit :=
  s ← d_Id;
  id ← try (ParseAppServicePlanID s);
  '(_, err) ← call (Delete id);
  check "deleting %s: %v" err.

End Resource.
End ServicePlan.

(** ** Waiting for a state ([pluginsdk.StateChangeConf])

    Modelled from the spec: [StateChangeConf.WaitForStateContext] of the
    Terraform plugin SDK (vendored, absent from the sources), the
    poll-until-complete step of the lifecycle.  It calls [Refresh] again and
    again; it succeeds once the state has been one of [Target]
    [ContinuousTargetOccurence] times in a row, a [Pending] state starting
    the count afresh; it fails when [Refresh] fails, when the state is
    neither awaited nor pending, when [Refresh] keeps returning no result,
    and when the timeout passes first.  Time is counted in polls: [Timeout]
    is the number of calls of [Refresh] that fit before the deadline. *)
Module StateChange.

Record Refreshed := {
  result_ : option string;
  state : string;
  err : option error;
}.

Record StateChangeConf (E : Type -> Type) := {
  Pending : list string;
  Target : list string;
  Refresh : Prog E Refreshed;
  ContinuousTargetOccurence : nat;
  NotFoundChecks : nat;
  Timeout : nat;
}.
Arguments Pending {E} s.
Arguments Target {E} s.
Arguments Refresh {E} s.
Arguments ContinuousTargetOccurence {E} s.
Arguments NotFoundChecks {E} s.
Arguments Timeout {E} s.

Definition TimeoutError : error := Errorf "timeout while waiting for state to become '%s'".
Definition NotFoundError : error := Errorf "couldn't find resource".
Definition UnexpectedStateError : error :=
  Errorf "unexpected state '%s', wanted target '%s'".

Definition inStates (s : string) (states : list string) : bool :=
  existsb (String.eqb s) states.

Definition defaulted (n d : nat) : nat := if Nat.eqb n 0 then d else n.

Fixpoint waitLoop {E} (conf : StateChangeConf E) (polls : nat)
    (notfoundTick targetOccurence : nat) : Prog E (option error) :=
  match polls with
  | O => Ret (Some TimeoutError)
  | S polls =>
      pbind (Refresh conf) (fun r =>
        match err r with
        | Some e => Ret (Some e)
        | None =>
            match result_ r with
            | None =>
                if bool_decide (Target conf = []) then
                  if Nat.eqb (defaulted (ContinuousTargetOccurence conf) 1)
                             (S targetOccurence)
                  then Ret None
                  else waitLoop conf polls notfoundTick (S targetOccurence)
                else if Nat.ltb (defaulted (NotFoundChecks conf) 20) (S notfoundTick)
                then Ret (Some NotFoundError)
                else waitLoop conf polls (S notfoundTick) targetOccurence
            | Some _ =>
                if inStates (state r) (Target conf) then
                  if Nat.eqb (defaulted (ContinuousTargetOccurence conf) 1)
                             (S targetOccurence)
                  then Ret None
                  else waitLoop conf polls 0 (S targetOccurence)
                else if inStates (state r) (Pending conf) then
                  waitLoop conf polls 0 0
                else if negb (bool_decide (Pending conf = [])) then
                  Ret (Some UnexpectedStateError)
                else waitLoop conf polls 0 targetOccurence
            end
        end)
  end.

Definition WaitForStateContext {E} (conf : StateChangeConf E) : Prog E (option error) :=
  waitLoop conf (Timeout conf) 0 0.

End StateChange.

(** ** [azurerm_monitor_diagnostic_setting] *)
Module Monitor.

(** *** The SDK models ([diagnosticsettings], API version 2021-05-01-preview) *)
Inductive Untouched : Type := untouched (json : string).

Record ScopedDiagnosticSettingId := {
  ResourceUri : string;
  DiagnosticSettingName : string;
}.

Definition NewScopedDiagnosticSettingID (resourceUri diagnosticSettingName : string)
    : ScopedDiagnosticSettingId :=
  {| ResourceUri := resourceUri; DiagnosticSettingName := diagnosticSettingName |}.

Record RetentionPolicy := {
  Days : Z;
  rp_Enabled : bool;
}.

Record LogSettings := {
  Category : option string;
  CategoryGroup : option string;
  Enabled : bool;
  RetentionPolicy_ : option RetentionPolicy;
}.

Record MetricSettings := {
  m_Category : option string;
  m_Enabled : bool;
  m_RetentionPolicy : option RetentionPolicy;
  TimeGrain : option string;
}.

Record DiagnosticSettings := {
  EventHubAuthorizationRuleId : option string;
  EventHubName : option string;
  LogAnalyticsDestinationType : option string;
  Logs : option (list LogSettings);
  MarketplacePartnerId : option string;
  Metrics : option (list MetricSettings);
  ServiceBusRuleId : option string;
  StorageAccountId : option string;
  WorkspaceId : option string;
}.

Record DiagnosticSettingsResource := {
  dsr_Id : option string;
  dsr_Name : option string;
  Properties : option DiagnosticSettings;
  dsr_rest : option Untouched;
}.

Record Response (Model : Type) := {
  HttpResponse_ : option HttpResponse;
  Model_ : option Model;
}.
Arguments HttpResponse_ {Model} r.
Arguments Model_ {Model} r.

(** *** The client ([diagnosticsettings.DiagnosticSettingsClient]) *)
Inductive Op : Type -> Type :=
| Get (id : ScopedDiagnosticSettingId)
    : Op (Response DiagnosticSettingsResource * option error)
| CreateOrUpdate (id : ScopedDiagnosticSettingId) (input : DiagnosticSettingsResource)
    : Op (Response DiagnosticSettingsResource * option error)
| Delete (id : ScopedDiagnosticSettingId) : Op (Response unit * option error).

Definition get_answer (ev : Event Op)
    : option (Response DiagnosticSettingsResource * option error) :=
  match ev with
  | Ev op ans =>
      match op in Op X
            return X -> option (Response DiagnosticSettingsResource * option error) with
      | Get _ => fun a => Some a
      | _ => fun _ => None
      end ans
  end.

Definition delete_answer (ev : Event Op) : option (Response unit * option error) :=
  match ev with
  | Ev op ans =>
      match op in Op X return X -> option (Response unit * option error) with
      | Delete _ => fun a => Some a
      | _ => fun _ => None
      end ans
  end.

Definition created_ok (ev : Event Op) : bool :=
  match ev with
  | Ev op ans =>
      match op in Op X return X -> bool with
      | CreateOrUpdate _ _ =>
          fun a => match a.2 with None => true | Some _ => false end
      | _ => fun _ => false
      end ans
  end.

(** A poll that saw the setting absent: a [Get] that failed with a 404. *)
Definition saw_absent (ev : Event Op) : bool :=
  match get_answer ev with
  | Some (res, Some _) => WasNotFound (HttpResponse_ res)
  | _ => false
  end.

Definition is_poll (ev : Event Op) : bool :=
  match get_answer ev with Some _ => true | None => false end.

(** A poll that saw the setting: a [Get] that succeeded. *)
Definition saw_present (ev : Event Op) : bool :=
  match get_answer ev with
  | Some (_, None) => true
  | _ => false
  end.

(** A poll of the setting [id]: a [Get] of that very setting. *)
Definition is_poll_of (id : ScopedDiagnosticSettingId) (ev : Event Op) : Prop :=
  exists ans, ev = Ev (Get id) ans.

(** A poll of the setting [id] that saw it absent: a [Get] of that setting
    that failed with a 404. *)
Definition saw_absent_of (id : ScopedDiagnosticSettingId) (ev : Event Op) : Prop :=
  exists res e,
    ev = Ev (Get id) (res, Some e) /\ WasNotFound (HttpResponse_ res) = true.

(** The settings a [CreateOrUpdate] request carries. *)
Definition sent_payload (ev : Event Op) : option DiagnosticSettingsResource :=
  match ev_op ev with
  | CreateOrUpdate _ input => Some input
  | _ => None
  end.

Definition sends_payload (ev : Event Op) : bool :=
  match sent_payload ev with Some _ => true | None => false end.

(** *** The schema, as [d.Get] returns it *)
Record RetentionPolicyBlock := {
  rp_enabled : bool;
  rp_days : Z;
}.

Record EnabledLogBlock := {
  category : string;
  category_group : string;
  retention_policy : list RetentionPolicyBlock;
}.

Record MetricBlock := {
  m_category : string;
  m_enabled : bool;
  m_retention_policy : list (option RetentionPolicyBlock);
}.

Record EnabledMetricBlock := {
  em_category : string;
}.

Record Config := {
  name : string;
  target_resource_id : string;
  eventhub_name : string;
  eventhub_authorization_rule_id : string;
  log_analytics_workspace_id : string;
  storage_account_id : string;
  partner_solution_id : string;
  log_analytics_destination_type : string;
  enabled_log : list EnabledLogBlock;
  enabled_metric : list EnabledMetricBlock;
  metric : list MetricBlock;
}.

(** Helpers of other packages: the feature flag of the 5.0 release and the
    case-insensitive ID parsers of the SDK, each followed by [ID()] of what
    it parsed. *)
Class Helpers := {
  FivePointOh : bool;
  ParseKustoClusterIDInsensitively : string -> result string;
  ParseAuthorizationRuleIDInsensitively : string -> result string;
  ParseWorkspaceIDInsensitively : string -> result string;
  ParseStorageAccountIDInsensitively : string -> result string;
}.

Abbreviation RM := (M Op Config).

Definition pipe : ascii := "|"%char.

(** [ParseMonitorDiagnosticId] *)
Definition ParseMonitorDiagnosticId (monitorId : string)
    : result ScopedDiagnosticSettingId :=
  let v := GoStrings.Split pipe monitorId in
  match v with
  | [v0; v1] => Ok (NewScopedDiagnosticSettingID v0 v1)
  | _ =>
      Err (Errorf "expected the Monitor Diagnostics ID to be in the format `{resourceId}|{name}` but got %d segments")
  end.

(** [fmt.Sprintf("%s|%s", id.ResourceUri, id.DiagnosticSettingName)] *)
Definition resourceIdOf (id : ScopedDiagnosticSettingId) : string :=
  ResourceUri id +:+ String pipe (DiagnosticSettingName id).

(** [expandMonitorDiagnosticsSettingsEnabledLogs] *)
Fixpoint expandMonitorDiagnosticsSettingsEnabledLogs (input : list EnabledLogBlock)
    (results : list LogSettings) : result (list LogSettings) :=
  match input with
  | [] => Ok results
  | v :: rest =>
      let category := category v in
      let categoryGroup := category_group v in
      let policiesRaw := retention_policy v in
      let retentionPolicy :=
        match policiesRaw with
        | policyRaw :: _ =>
            Some {| Days := rp_days policyRaw; rp_Enabled := rp_enabled policyRaw |}
        | [] => None
        end in
      let output :=
        {| Enabled := true; RetentionPolicy_ := retentionPolicy;
           Category := None; CategoryGroup := None |} in
      if negb (String.eqb category "") then
        expandMonitorDiagnosticsSettingsEnabledLogs rest
          (results ++ [ {| Enabled := Enabled output;
                           RetentionPolicy_ := RetentionPolicy_ output;
                           Category := Some category;
                           CategoryGroup := CategoryGroup output |} ])
      else if negb (String.eqb categoryGroup "") then
        expandMonitorDiagnosticsSettingsEnabledLogs rest
          (results ++ [ {| Enabled := Enabled output;
                           RetentionPolicy_ := RetentionPolicy_ output;
                           Category := Category output;
                           CategoryGroup := Some categoryGroup |} ])
      else
        Err (Errorf "exactly one of `category` or `category_group` must be specified")
  end.

(** What one [enabled_log] entry expands to. *)
Definition expandsTo (v : EnabledLogBlock) (l : LogSettings) : Prop :=
  Enabled l = true
  /\ (category v <> "" -> Category l = Some (category v) /\ CategoryGroup l = None)
  /\ (category v = "" ->
      Category l = None /\ CategoryGroup l = Some (category_group v)).

Section Resource.
Context `{Helpers}.

(** [expandMonitorDiagnosticsSettingsMetrics] *)
Definition expandMonitorDiagnosticsSettingsMetrics (input : list MetricBlock)
    : list MetricSettings :=
  map (fun v =>
    {| m_Category := Some (m_category v);
       m_Enabled := m_enabled v;
       TimeGrain := None;
       m_RetentionPolicy :=
         if negb FivePointOh then
           match m_retention_policy v with
           | Some policyRaw :: _ =>
               Some {| Days := rp_days policyRaw; rp_Enabled := rp_enabled policyRaw |}
           | _ => None
           end
         else None |}) input.

(** [expandMonitorDiagnosticsSettingsEnabledMetrics] *)
Definition expandMonitorDiagnosticsSettingsEnabledMetrics (input : list EnabledMetricBlock)
    : list MetricSettings :=
  map (fun v =>
    {| m_Category := Some (em_category v); m_Enabled := true;
       m_RetentionPolicy := None; TimeGrain := None |}) input.

Definition flattenRetentionPolicy (p : option RetentionPolicy) : value :=
  match p with
  | Some inputPolicy =>
      VList [VObject [("days", VInt (Days inputPolicy));
                      ("enabled", VBool (rp_Enabled inputPolicy))]]
  | None => VList []
  end.

(** [flattenMonitorDiagnosticEnabledLogs] *)
Definition flattenMonitorDiagnosticEnabledLogs (input : option (list LogSettings))
    : list value :=
  match input with
  | None => []
  | Some input =>
      omap (fun v =>
        if negb (Enabled v) then None
        else Some (VObject [
          ("category", VString (default "" (Category v)));
          ("category_group", VString (default "" (CategoryGroup v)));
          ("retention_policy", flattenRetentionPolicy (RetentionPolicy_ v))])) input
  end.

(** [flattenMonitorDiagnosticEnabledMetrics] *)
Definition flattenMonitorDiagnosticEnabledMetrics (input : option (list MetricSettings))
    : list value :=
  match input with
  | None => []
  | Some input =>
      omap (fun v =>
        if negb (m_Enabled v) then None
        else Some (VObject [("category", VString (default "" (m_Category v)))])) input
  end.

(** [flattenMonitorDiagnosticMetrics] *)
Definition flattenMonitorDiagnosticMetrics (input : option (list MetricSettings))
    : list value :=
  match input with
  | None => []
  | Some input =>
      map (fun v =>
        VObject (
          match m_Category v with
          | Some c => [("category", VString c)]
          | None => []
          end ++
          [("enabled", VBool (m_Enabled v))] ++
          if negb FivePointOh then
            [("retention_policy", flattenRetentionPolicy (m_RetentionPolicy v))]
          else [])) input
  end.

(** [monitorDiagnosticSettingRefreshFunc] *)
Definition monitorDiagnosticSettingRefreshFunc (targetResourceId : ScopedDiagnosticSettingId)
    : Prog Op StateChange.Refreshed :=
  Vis (Get targetResourceId) (fun '(res, err) =>
    match err with
    | Some e =>
        if WasNotFound (HttpResponse_ res) then
          Ret {| StateChange.result_ := Some "NotFound";
                 StateChange.state := "NotFound";
                 StateChange.err := None |}
        else
          Ret {| StateChange.result_ := None;
                 StateChange.state := "";
                 StateChange.err :=
                   Some (Wrapf "issuing read request in monitorDiagnosticSettingRefreshFunc: %s" e) |}
    | None =>
        Ret {| StateChange.result_ := Some "res";
               StateChange.state := "Exists";
               StateChange.err := None |}
    end).

(** [stateConf.WaitForStateContext(ctx)], the error wrapped with [format]. *)
Definition waitFor (format : string) (conf : StateChange.StateChangeConf Op) : RM unit :=
  err ← liftP (StateChange.WaitForStateContext conf);
  check format err.

(** [resourceMonitorDiagnosticSettingRead] *)
Definition resourceMonitorDiagnosticSettingRead : RM unit :=
  s ← d_Id;
  id ← try (ParseMonitorDiagnosticId s);
  '(resp, err) ← call (Get id);
  match err with
  | Some e =>
      if WasNotFound (HttpResponse_ resp) then d_SetId ""
      else fail (Wrapf "retrieving Monitor Diagnostics Setting %q for Resource %q: %+v" e)
  | None =>
      d_Set "name" (VString (DiagnosticSettingName id));;
      let resourceUri := ResourceUri id in
      let resourceUri :=
        match ParseKustoClusterIDInsensitively resourceUri with
        | Ok v => v
        | Err _ => resourceUri
        end in
      d_Set "target_resource_id" (VString resourceUri);;
      match Model_ resp with
      | None => mret tt
      | Some model =>
      match Properties model with
      | None => mret tt
      | Some props =>
          d_Set "eventhub_name" (VStringPtr (EventHubName props));;
          eventhubAuthorizationRuleId ←
            match EventHubAuthorizationRuleId props with
            | Some authRuleId =>
                if negb (String.eqb authRuleId "") then
                  try (ParseAuthorizationRuleIDInsensitively authRuleId)
                else mret ""
            | None => mret ""
            end;
          d_Set "eventhub_authorization_rule_id" (VString eventhubAuthorizationRuleId);;
          workspaceId ←
            match WorkspaceId props with
            | Some w =>
                if negb (String.eqb w "") then try (ParseWorkspaceIDInsensitively w)
                else mret ""
            | None => mret ""
            end;
          d_Set "log_analytics_workspace_id" (VString workspaceId);;
          match StorageAccountId props with
          | Some a =>
              if negb (String.eqb a "") then
                parsedId ← try (ParseStorageAccountIDInsensitively a);
                d_Set "storage_account_id" (VString parsedId)
              else mret tt
          | None => mret tt
          end;;
          match MarketplacePartnerId props with
          | Some p =>
              if negb (String.eqb p "") then d_Set "partner_solution_id" (VString p)
              else mret tt
          | None => mret tt
          end;;
          let logAnalyticsDestinationType :=
            match LogAnalyticsDestinationType props with
            | Some t => if negb (String.eqb t "") then t else ""
            | None => ""
            end in
          d_Set "log_analytics_destination_type" (VString logAnalyticsDestinationType);;
          d_Set "enabled_log" (VSet (flattenMonitorDiagnosticEnabledLogs (Logs props)));;
          d_Set "enabled_metric"
            (VSet (flattenMonitorDiagnosticEnabledMetrics (Metrics props)));;
          when (negb FivePointOh)
            (d_Set "metric" (VSet (flattenMonitorDiagnosticMetrics (Metrics props))))
      end
      end
  end.

(** The optional destinations of a diagnostic setting, as Create fills them
    in. *)
Definition destinations (c : Config) (logs : list LogSettings)
    (metrics : list MetricSettings) : DiagnosticSettingsResource :=
  let nonEmpty (s : string) := if negb (String.eqb s "") then Some s else None in
  {| dsr_Id := None; dsr_Name := None; dsr_rest := None;
     Properties := Some
       {| Logs := Some logs;
          Metrics := Some metrics;
          EventHubAuthorizationRuleId := nonEmpty (eventhub_authorization_rule_id c);
          EventHubName :=
            if negb (String.eqb (eventhub_authorization_rule_id c) "")
            then Some (eventhub_name c) else None;
          WorkspaceId := nonEmpty (log_analytics_workspace_id c);
          StorageAccountId := nonEmpty (storage_account_id c);
          MarketplacePartnerId := nonEmpty (partner_solution_id c);
          LogAnalyticsDestinationType := nonEmpty (log_analytics_destination_type c);
          ServiceBusRuleId := None |} |}.

(** [resourceMonitorDiagnosticSettingCreate]; [deadline] is what
    [ctx.Deadline()] returns: nothing when the context has no deadline,
    else the polls that fit before it. *)
Definition resourceMonitorDiagnosticSettingCreate (deadline : option nat) : RM unit :=
  target ← d_Get target_resource_id;
  name ← d_Get name;
  let id := NewScopedDiagnosticSettingID target name in
  let resourceId := resourceIdOf id in
  '(existing, err) ← call (Get id);
  match err with
  | Some e =>
      if negb (WasNotFound (HttpResponse_ existing)) then
        fail (Wrapf "checking for presence of existing Monitor Diagnostic Setting %q for Resource %q: %s" e)
      else mret tt
  | None => mret tt
  end;;
  (if negb (WasNotFound (HttpResponse_ existing)) then
     fail (ImportAsExistsError "azurerm_monitor_diagnostic_setting" resourceId)
   else mret tt);;
  enabledLogsList ← d_Get enabled_log;
  '(logs, hasEnabledLogs) ←
    (if bool_decide (0 < length enabledLogsList) then
       match expandMonitorDiagnosticsSettingsEnabledLogs enabledLogsList [] with
       | Err e => fail (Wrapf "expanding enabled_log: %+v" e)
       | Ok expandEnabledLogs => mret (expandEnabledLogs, true)
       end
     else mret ([], false));
  metricRaw ← d_Get metric;
  let '(metrics, hasEnabledMetrics) :=
    if negb FivePointOh then
      let metrics := expandMonitorDiagnosticsSettingsMetrics metricRaw in
      (metrics, existsb m_Enabled metrics)
    else ([], false) in
  enabledMetricsList ← d_Get enabled_metric;
  let '(metrics, hasEnabledMetrics) :=
    if bool_decide (0 < length enabledMetricsList) then
      (expandMonitorDiagnosticsSettingsEnabledMetrics enabledMetricsList, true)
    else (metrics, hasEnabledMetrics) in
  (if negb hasEnabledMetrics && negb hasEnabledLogs then
     fail (Errorf "at least one type of Log or Metric must be enabled")
   else mret tt);;
  c ← d_Get (fun c : Config => c);
  let parameters := destinations c logs metrics in
  '(_, err) ← call (CreateOrUpdate id parameters);
  check "creating Monitor Diagnostics Setting %q for Resource %q: %+v" err;;
  match deadline with
  | None => fail (Errorf "internal error: could not retrieve context deadline for %s")
  | Some deadline =>
      let stateConf :=
        {| StateChange.Pending := ["NotFound"];
           StateChange.Target := ["Exists"];
           StateChange.Refresh := monitorDiagnosticSettingRefreshFunc id;
           StateChange.ContinuousTargetOccurence := 3;
           StateChange.NotFoundChecks := 0;
           StateChange.Timeout := deadline |} in
      waitFor "waiting for Monitor Diagnostic Setting %q for Resource %q to become ready: %s"
        stateConf;;
      d_SetId resourceId;;
      resourceMonitorDiagnosticSettingRead
  end.

(** [resourceMonitorDiagnosticSettingDelete] *)
Definition resourceMonitorDiagnosticSettingDelete (deadline : option nat) : RM unit :=
  s ← d_Id;
  id ← try (ParseMonitorDiagnosticId s);
  '(resp, err) ← call (Delete id);
  match err with
  | Some e =>
      if negb (WasNotFound (HttpResponse_ resp)) then
        fail (Wrapf "deleting Monitor Diagnostics Setting %q for Resource %q: %+v" e)
      else mret tt
  | None => mret tt
  end;;
  match deadline with
  | None => fail (Errorf "internal error: could not retrieve context deadline for %s")
  | Some deadline =>
      let stateConf :=
        {| StateChange.Pending := ["Exists"];
           StateChange.Target := ["NotFound"];
           StateChange.Refresh := monitorDiagnosticSettingRefreshFunc id;
           StateChange.ContinuousTargetOccurence := 5;
           StateChange.NotFoundChecks := 0;
           StateChange.Timeout := deadline |} in
      waitFor "waiting for Monitor Diagnostic Setting %q for Resource %q to disappear: %s"
        stateConf
  end.

(** [disabledLog := v; disabledLog.Enabled = false] *)
Definition disabledLog (v : LogSettings) : LogSettings :=
  {| Category := Category v; CategoryGroup := CategoryGroup v; Enabled := false;
     RetentionPolicy_ := RetentionPolicy_ v |}.

(** [disabledMetric := v; disabledMetric.Enabled = false] *)
Definition disabledMetric (v : MetricSettings) : MetricSettings :=
  {| m_Category := m_Category v; m_Enabled := false;
     m_RetentionPolicy := m_RetentionPolicy v; TimeGrain := TimeGrain v |}.

(** [resourceMonitorDiagnosticSettingUpdate].  A nil slice and an empty one
    are both the empty list. *)
Definition resourceMonitorDiagnosticSettingUpdate : RM unit :=
  s ← d_Id;
  id ← try (ParseMonitorDiagnosticId s);
  '(existing, err) ← call (Get id);
  check "retrieving Monitor Diagnostics Setting %q for Resource %q: %+v" err;;
  match Model_ existing ≫= Properties with
  | None =>
      fail (Errorf "unexpected null model of Monitor Diagnostics Setting %q for Resource %q")
  | Some props =>
      changed ← d_HasChange "enabled_log";
      '(logs, hasEnabledLogs) ←
        (if (changed : bool) then
           enabledLogs ← d_Get enabled_log;
           if bool_decide (0 < length enabledLogs) then
             match expandMonitorDiagnosticsSettingsEnabledLogs enabledLogs [] with
             | Err e => fail (Wrapf "expanding enabled_log: %+v" e)
             | Ok expandEnabledLogs => mret (expandEnabledLogs, true)
             end
           else
             match Logs props with
             | Some existingLogs => mret (map disabledLog existingLogs, false)
             | None => mret ([], false)
             end
         else
           match Logs props with
           | Some logs => mret (logs, existsb Enabled logs)
           | None => mret ([], false)
           end);
      changed ← d_HasChange "enabled_metric";
      '(metrics, hasEnabledMetrics) ←
        (if (changed : bool) then
           enabledMetrics ← d_Get enabled_metric;
           if bool_decide (0 < length enabledMetrics) then
             mret (expandMonitorDiagnosticsSettingsEnabledMetrics enabledMetrics, true)
           else
             match Metrics props with
             | Some existingMetrics => mret (map disabledMetric existingMetrics, false)
             | None => mret ([], false)
             end
         else
           match Metrics props with
           | Some metrics => mret (metrics, existsb m_Enabled metrics)
           | None => mret ([], false)
           end);
      '(metrics, hasEnabledMetrics) ←
        (if negb FivePointOh then
           changed ← d_HasChange "metric";
           if (changed : bool) then
             metricRaw ← d_Get metric;
             let metrics := expandMonitorDiagnosticsSettingsMetrics metricRaw in
             mret (metrics, hasEnabledMetrics || existsb m_Enabled metrics)
           else mret (metrics, hasEnabledMetrics)
         else mret (metrics, hasEnabledMetrics));
      (if negb hasEnabledMetrics && negb hasEnabledLogs then
         fail (Errorf "at least one type of Log or Metric must be enabled")
       else mret tt);;
      c ← d_Get (fun c : Config => c);
      let parameters := destinations c logs metrics in
      '(_, err) ← call (CreateOrUpdate id parameters);
      check "updating Monitor Diagnostics Setting %q for Resource %q: %+v" err;;
      resourceMonitorDiagnosticSettingRead
  end.

End Resource.

(** *** The hashes of the set elements

    [pluginsdk.HashString] is a function of the plugin SDK; the hashes are
    functions of it.  A block is the [map[string]interface{}] the SDK hands
    to the hash function, its values typed by the schema.  A type assertion
    without [ok] panics on a value of another type. *)
Section Hashes.
Variable HashString : string -> Z.

(** [rawData[key]] *)
Definition field (key : string) (rawData : list (string * value)) : option value :=
  (list_to_map rawData : gmap string value) !! key.

(** [fmt.Sprintf("%t-", b)] and [fmt.Sprintf("%d-", n)] *)
Definition sprint_t (b : bool) : string := (if b then "true" else "false") +:+ "-".
Definition sprint_d (n : Z) : string := pretty n +:+ "-".

(** [if v, ok := rawData[key]; ok { buf.WriteString(fmt.Sprintf("%s-", v.(string))) }],
    on the buffer written so far; nothing when the assertion panics. *)
Definition writeStringField (key : string) (rawData : list (string * value))
    (buf : option string) : option string :=
  buf ← buf;
  match field key rawData with
  | Some (VString s) => Some (buf +:+ s +:+ "-")
  | Some _ => None
  | None => Some buf
  end.

Definition writeBoolField (key : string) (rawData : list (string * value))
    (buf : option string) : option string :=
  buf ← buf;
  match field key rawData with
  | Some (VBool b) => Some (buf +:+ sprint_t b)
  | Some _ => None
  | None => Some buf
  end.

Definition writeIntField (key : string) (rawData : list (string * value))
    (buf : option string) : option string :=
  buf ← buf;
  match field key rawData with
  | Some (VInt n) => Some (buf +:+ sprint_d n)
  | Some _ => None
  | None => Some buf
  end.

(** [if policy, ok := rawData["retention_policy"].(map[string]interface{}); ok { ... }] *)
Definition writePolicy (rawData : list (string * value)) (buf : option string)
    : option string :=
  match field "retention_policy" rawData with
  | Some (VObject policy) =>
      writeIntField "days" policy (writeBoolField "enabled" policy buf)
  | _ => buf
  end.

Definition hashed (buf : option string) : outcome Z :=
  match buf with
  | Some s => Returned (HashString s)
  | None => Panicked "interface conversion"
  end.

(** [resourceMonitorDiagnosticLogSettingHash] *)
Definition resourceMonitorDiagnosticLogSettingHash (input : value) : outcome Z :=
  hashed
    match input with
    | VObject rawData =>
        writePolicy rawData
          (writeBoolField "enabled" rawData
             (writeStringField "category_group" rawData
                (writeStringField "category" rawData (Some ""))))
    | _ => Some ""
    end.

(** [resourceMonitorDiagnosticMetricsSettingHash] *)
Definition resourceMonitorDiagnosticMetricsSettingHash (input : value) : outcome Z :=
  hashed
    match input with
    | VObject rawData =>
        writePolicy rawData
          (writeBoolField "enabled" rawData
             (writeStringField "category" rawData (Some "")))
    | _ => Some ""
    end.

End Hashes.

(** The wait of the diagnostic setting's Delete: five polls in a row must
    see the setting absent. *)
Definition disappearConf (id : ScopedDiagnosticSettingId) (deadline : nat)
    : StateChange.StateChangeConf Op :=
  {| StateChange.Pending := ["Exists"];
     StateChange.Target := ["NotFound"];
     StateChange.Refresh := monitorDiagnosticSettingRefreshFunc id;
     StateChange.ContinuousTargetOccurence := 5;
     StateChange.NotFoundChecks := 0;
     StateChange.Timeout := deadline |}.

Definition disappeared (id : ScopedDiagnosticSettingId) (deadline polls occ : nat)
    (tr : list (Event Op)) (o : outcome (option error)) : Prop :=
  length tr <= polls
  /\ Forall (is_poll_of id) tr
  /\ ((o = Returned None
       /\ exists pre last,
            tr = (pre ++ last)%list /\ Forall (saw_absent_of id) last
            /\ (length last = 5 \/ (pre = [] /\ length last + occ = 5)))
      \/ (o = Returned (Some StateChange.TimeoutError) /\ length tr = polls)
      \/ (exists e,
            o = Returned (Some (Wrapf "issuing read request in monitorDiagnosticSettingRefreshFunc: %s" e)))).

End Monitor.

(** ** Concrete resources and remote sides

    Inputs on which the resource functions are run: helper functions that
    stand for the absent packages, a configuration per resource, and remote
    sides that answer in a fixed way. *)
Module Samples.

Definition notFound : option HttpResponse := Some {| StatusCode := 404 |}.
Definition serverError : option HttpResponse := Some {| StatusCode := 500 |}.
Definition okStatus : option HttpResponse := Some {| StatusCode := 200 |}.

(** *** A ServiceBus namespace *)
Definition sbParseNamespaceID (s : string) : result ServiceBus.NamespaceId :=
  match GoStrings.Split ResourceIDs.slash s with
  | [""; "subscriptions"; sub; "resourceGroups"; rg; "providers";
     "Microsoft.ServiceBus"; "namespaces"; n] => Ok (ServiceBus.NewNamespaceID sub rg n)
  | _ => Err (Errorf "parsing %q as a Namespace ID")
  end.

Definition sbHelpers : ServiceBus.Helpers :=
  {| ServiceBus.NormalizeLocation := fun s => s;
     ServiceBus.location_Normalize := fun s => s;
     ServiceBus.expandTags := Some;
     ServiceBus.flattenTags := fun _ => VObject [];
     ServiceBus.ParseNamespaceID := sbParseNamespaceID;
     ServiceBus.ParseOptionallyVersionedNestedItemID :=
       fun _ => Err (Errorf "parsing nested item ID");
     ServiceBus.NewNestedItemID := fun _ _ _ _ => Err (Errorf "parsing nested item ID");
     ServiceBus.NestedItemId_ID := fun _ => "";
     ServiceBus.ParseUserAssignedIdentityIDInsensitively :=
       fun _ => Err (Errorf "parsing identity ID");
     ServiceBus.FlattenSystemAndUserAssignedMap := fun _ => Ok (VList []) |}.

Definition sbConfig : ServiceBus.Config :=
  {| ServiceBus.name := "ns1";
     ServiceBus.location := "westeurope";
     ServiceBus.resource_group_name := "rg1";
     ServiceBus.identity := [];
     ServiceBus.sku := "Standard";
     ServiceBus.capacity := Some 0%Z;
     ServiceBus.premium_messaging_partitions := Some 0%Z;
     ServiceBus.customer_managed_key := [];
     ServiceBus.local_auth_enabled := true;
     ServiceBus.public_network_access_enabled := true;
     ServiceBus.minimum_tls_version := "1.2";
     ServiceBus.network_rule_set := [];
     ServiceBus.old_network_rule_set := [];
     ServiceBus.tags := ∅;
     ServiceBus.timeout_update := 1800%Z |}.

Definition sbNew : ResourceData ServiceBus.Config := MkResourceData "" sbConfig ∅ ∅.

Definition sbId : string :=
  "/subscriptions/sub1/resourceGroups/rg1/providers/Microsoft.ServiceBus/namespaces/ns1".

Definition sbExisting : ResourceData ServiceBus.Config := MkResourceData sbId sbConfig ∅ ∅.

(** The namespace as the API holds it: a Premium namespace of capacity 1. *)
Definition sbModel : ServiceBus.SBNamespace :=
  {| ServiceBus.ns_Id := Some sbId;
     ServiceBus.Identity := None;
     ServiceBus.Location := "westeurope";
     ServiceBus.ns_Name := Some "ns1";
     ServiceBus.Properties := Some
       {| ServiceBus.DisableLocalAuth := Some false;
          ServiceBus.Encryption_ := None;
          ServiceBus.MinimumTlsVersion := Some "1.2";
          ServiceBus.PremiumMessagingPartitions := Some 1%Z;
          ServiceBus.PublicNetworkAccess := Some "Enabled";
          ServiceBus.ServiceBusEndpoint := Some "https://ns1.servicebus.windows.net:443/";
          ServiceBus.props_rest := ServiceBus.untouched "{}" |};
     ServiceBus.Sku := Some
       {| ServiceBus.Capacity := Some 1%Z;
          ServiceBus.sku_Name := "Premium";
          ServiceBus.Tier := Some "Premium" |};
     ServiceBus.SystemData := None;
     ServiceBus.Tags := None;
     ServiceBus.ns_Type := Some "Microsoft.ServiceBus/Namespaces" |}.

(** A Basic namespace as the API holds it, its capacity given as 0. *)
Definition sbBasicModel : ServiceBus.SBNamespace :=
  ServiceBus.set_Sku
    (Some {| ServiceBus.Capacity := Some 0%Z;
             ServiceBus.sku_Name := "Basic";
             ServiceBus.Tier := Some "Basic" |})
    sbModel.

(** What Update sends for [sbBasicModel] when [sku] alone changes, to
    Standard. *)
Definition sbStandardPayload : ServiceBus.SBNamespace :=
  ServiceBus.set_Sku
    (Some {| ServiceBus.Capacity := None;
             ServiceBus.sku_Name := "Standard";
             ServiceBus.Tier := Some "Standard" |})
    sbBasicModel.

(** The plan of a change of [sku] alone, from Basic to Standard: the
    configuration keeps [capacity = 0], and only [sku] is reported as
    changed. *)
Definition sbSkuChange : ResourceData ServiceBus.Config :=
  MkResourceData sbId sbConfig {["sku"]} ∅.

(** A remote side that answers every [Get] of the namespace with [get] and
    lets every other request succeed, with empty answers. *)
Definition sbRemote (get : ServiceBus.Response ServiceBus.SBNamespace * option error)
    : Remote_ ServiceBus.Op unit :=
  fun X op w =>
    match op in ServiceBus.Op X return X * unit with
    | ServiceBus.Get _ => (get, w)
    | ServiceBus.CreateOrUpdateThenPoll _ _ => (None, w)
    | ServiceBus.DeleteThenPoll _ => (None, w)
    | ServiceBus.CreateOrUpdateNetworkRuleSet _ _ => (None, w)
    | ServiceBus.GetNetworkRuleSet _ =>
        (({| ServiceBus.HttpResponse_ := okStatus; ServiceBus.Model_ := None |}, None), w)
    | ServiceBus.NamespacesListKeys _ =>
        (({| ServiceBus.HttpResponse_ := okStatus; ServiceBus.Model_ := None |}, None), w)
    | ServiceBus.waitForNamespaceStatusToBeReady _ _ => (None, w)
    end.

Definition sbFailure : ServiceBus.Response ServiceBus.SBNamespace * option error :=
  ({| ServiceBus.HttpResponse_ := serverError; ServiceBus.Model_ := None |},
   Some (Remote "500 Internal Server Error")).

Definition sbExists : ServiceBus.Response ServiceBus.SBNamespace * option error :=
  ({| ServiceBus.HttpResponse_ := okStatus; ServiceBus.Model_ := Some sbModel |}, None).

Definition sbBasicExists : ServiceBus.Response ServiceBus.SBNamespace * option error :=
  ({| ServiceBus.HttpResponse_ := okStatus; ServiceBus.Model_ := Some sbBasicModel |}, None).

Definition sbMissing : ServiceBus.Response ServiceBus.SBNamespace * option error :=
  ({| ServiceBus.HttpResponse_ := notFound; ServiceBus.Model_ := None |},
   Some (Remote "404 Not Found")).

(** *** A service plan *)
Definition spParseAppServicePlanID (s : string) : result ServicePlan.AppServicePlanId :=
  match GoStrings.Split ResourceIDs.slash s with
  | [""; "subscriptions"; sub; "resourceGroups"; rg; "providers";
     "Microsoft.Web"; "serverFarms"; n] => Ok (ServicePlan.NewAppServicePlanID sub rg n)
  | _ => Err (Errorf "parsing %q as an App Service Plan ID")
  end.

Definition spHelpers : ServicePlan.Helpers :=
  {| ServicePlan.location_Normalize := fun s => s;
     ServicePlan.ParseAppServicePlanID := spParseAppServicePlanID;
     ServicePlan.PlanIsPremium := fun sku => String.prefix "P" sku |}.

Definition spModel : ServicePlan.ServicePlanModel :=
  {| ServicePlan.Name := "plan1";
     ServicePlan.ResourceGroup := "rg1";
     ServicePlan.Location_ := "westeurope";
     ServicePlan.Kind_ := "";
     ServicePlan.OSType := ServicePlan.OSTypeLinux;
     ServicePlan.Sku_ := "B1";
     ServicePlan.AppServiceEnvironmentId := "";
     ServicePlan.PerSiteScaling_ := false;
     ServicePlan.Reserved_ := false;
     ServicePlan.WorkerCount := 1%Z;
     ServicePlan.PremiumPlanAutoScaleEnabled := false;
     ServicePlan.MaximumElasticWorkerCount_ := 0%Z;
     ServicePlan.ZoneBalancing := false;
     ServicePlan.Tags_ := ∅ |}.

Definition spNew : ResourceData ServicePlan.Config :=
  MkResourceData "" {| ServicePlan.decoded := Ok spModel |} ∅ ∅.

Definition spId : string :=
  "/subscriptions/sub1/resourceGroups/rg1/providers/Microsoft.Web/serverFarms/plan1".

Definition spExisting : ResourceData ServicePlan.Config :=
  MkResourceData spId {| ServicePlan.decoded := Ok spModel |} ∅ ∅.

(** The plan as the API holds it after its creation from [spModel], with
    one worker. *)
Definition spPlan : ServicePlan.AppServicePlan :=
  ServicePlan.set_Sku
    (Some {| ServicePlan.Capacity := Some 1%Z;
             ServicePlan.sku_Name := Some "B1";
             ServicePlan.sku_rest := ServicePlan.untouched "" |})
    (ServicePlan.newAppServicePlan (H:=spHelpers) spModel).

(** The plan of a change of [worker_count] alone, from 1 to 3. *)
Definition spWorkerChange : ResourceData ServicePlan.Config :=
  MkResourceData spId
    {| ServicePlan.decoded := Ok
         {| ServicePlan.Name := "plan1";
            ServicePlan.ResourceGroup := "rg1";
            ServicePlan.Location_ := "westeurope";
            ServicePlan.Kind_ := "";
            ServicePlan.OSType := ServicePlan.OSTypeLinux;
            ServicePlan.Sku_ := "B1";
            ServicePlan.AppServiceEnvironmentId := "";
            ServicePlan.PerSiteScaling_ := false;
            ServicePlan.Reserved_ := false;
            ServicePlan.WorkerCount := 3%Z;
            ServicePlan.PremiumPlanAutoScaleEnabled := false;
            ServicePlan.MaximumElasticWorkerCount_ := 0%Z;
            ServicePlan.ZoneBalancing := false;
            ServicePlan.Tags_ := ∅ |} |}
    {["worker_count"]} ∅.

(** What Update sends for [spPlan] on that plan. *)
Definition spThreeWorkers : ServicePlan.AppServicePlan :=
  ServicePlan.set_Sku
    (Some {| ServicePlan.Capacity := Some 3%Z;
             ServicePlan.sku_Name := Some "B1";
             ServicePlan.sku_rest := ServicePlan.untouched "" |})
    spPlan.

(** A remote side that holds the plan [model]: every [Get] is answered with
    it, every other request succeeds. *)
Definition spHolds (model : ServicePlan.AppServicePlan) : Remote_ ServicePlan.Op unit :=
  fun X op w =>
    match op in ServicePlan.Op X return X * unit with
    | ServicePlan.Get _ =>
        (({| ServicePlan.HttpResponse_ := okStatus; ServicePlan.Model_ := Some model |},
          None), w)
    | ServicePlan.CreateOrUpdateThenPoll _ _ => (None, w)
    | ServicePlan.Delete _ =>
        (({| ServicePlan.HttpResponse_ := okStatus; ServicePlan.Model_ := None |}, None), w)
    end.

(** A remote side on which the plan does not exist at first and whose
    [Get] fails with a 500 once the plan has been created; the state of the
    world is whether a create request has been received. *)
Definition spRemote : Remote_ ServicePlan.Op bool :=
  fun X op created =>
    match op in ServicePlan.Op X return X * bool with
    | ServicePlan.Get _ =>
        if created then
          (({| ServicePlan.HttpResponse_ := serverError; ServicePlan.Model_ := None |},
            Some (Remote "500 Internal Server Error")), created)
        else
          (({| ServicePlan.HttpResponse_ := notFound; ServicePlan.Model_ := None |},
            Some (Remote "404 Not Found")), created)
    | ServicePlan.CreateOrUpdateThenPoll _ _ => (None, true)
    | ServicePlan.Delete _ =>
        (({| ServicePlan.HttpResponse_ := okStatus; ServicePlan.Model_ := None |}, None),
         false)
    end.

(** *** A diagnostic setting *)
Definition mHelpers : Monitor.Helpers :=
  {| Monitor.FivePointOh := false;
     Monitor.ParseKustoClusterIDInsensitively :=
       fun _ => Err (Errorf "parsing %q as a Kusto Cluster ID");
     Monitor.ParseAuthorizationRuleIDInsensitively := Ok;
     Monitor.ParseWorkspaceIDInsensitively := Ok;
     Monitor.ParseStorageAccountIDInsensitively := Ok |}.

Definition mTarget : string :=
  "/subscriptions/sub1/resourceGroups/rg1/providers/Microsoft.KeyVault/vaults/kv1".

Definition mConfig : Monitor.Config :=
  {| Monitor.name := "diag1";
     Monitor.target_resource_id := mTarget;
     Monitor.eventhub_name := "";
     Monitor.eventhub_authorization_rule_id := "";
     Monitor.log_analytics_workspace_id := "";
     Monitor.storage_account_id :=
       "/subscriptions/sub1/resourceGroups/rg1/providers/Microsoft.Storage/storageAccounts/sa1";
     Monitor.partner_solution_id := "";
     Monitor.log_analytics_destination_type := "";
     Monitor.enabled_log :=
       [ {| Monitor.category := "AuditEvent"; Monitor.category_group := "";
            Monitor.retention_policy := [] |} ];
     Monitor.enabled_metric := [];
     Monitor.metric := [] |}.

Definition mExisting : ResourceData Monitor.Config :=
  MkResourceData (mTarget +:+ "|diag1") mConfig ∅ ∅.

(** A remote side on which the setting is still seen [lag] times after its
    deletion has been requested; the state of the world is the number of
    polls that still see it.  The delete request itself is answered 404. *)
Definition mRemote : Remote_ Monitor.Op nat :=
  fun X op lag =>
    match op in Monitor.Op X return X * nat with
    | Monitor.Get _ =>
        match lag with
        | S lag' =>
            (({| Monitor.HttpResponse_ := okStatus; Monitor.Model_ := None |}, None), lag')
        | O =>
            (({| Monitor.HttpResponse_ := notFound; Monitor.Model_ := None |},
              Some (Remote "404 Not Found")), O)
        end
    | Monitor.CreateOrUpdate _ _ =>
        (({| Monitor.HttpResponse_ := okStatus; Monitor.Model_ := None |}, None), lag)
    | Monitor.Delete _ =>
        (({| Monitor.HttpResponse_ := notFound; Monitor.Model_ := None |},
          Some (Remote "404 Not Found")), lag)
    end.

End Samples.

(** * Properties *)

Local Open Scope list_scope.

(** ** Facts about the string functions *)
Section GoStringsFacts.
Import GoStrings.

Lemma Split_nonempty sep s : Split sep s <> [].
Proof.
  destruct s as [|c s]; simpl; [discriminate|].
  destruct (Ascii.eqb c sep); [discriminate|].
  destruct (Split sep s); discriminate.
Qed.

Lemma Split_without sep s : Contains sep s = false -> Split sep s = [s].
Proof.
  induction s as [|c s IH]; simpl; [reflexivity|].
  intros H. apply orb_false_iff in H as [Hc Hs].
  rewrite Hc, (IH Hs). reflexivity.
Qed.

Lemma Split_app sep a b :
  Contains sep a = false ->
  Split sep (a +:+ String sep b) = a :: Split sep b.
Proof.
  induction a as [|c a IH]; simpl; intros H.
  - rewrite Ascii.eqb_refl. reflexivity.
  - apply orb_false_iff in H as [Hc Ha].
    rewrite Hc, (IH Ha). reflexivity.
Qed.

Lemma TrimSuffix_app c a b :
  b <> EmptyString -> TrimSuffix c (a +:+ b) = a +:+ TrimSuffix c b.
Proof.
  intros Hb. induction a as [|x a IH]; simpl; [reflexivity|].
  rewrite IH. destruct (a +:+ b) eqn:E; [|reflexivity].
  destruct a; simpl in E; [contradiction | discriminate].
Qed.

Lemma TrimSuffix_without c s : Contains c s = false -> TrimSuffix c s = s.
Proof.
  induction s as [|a s IH]; simpl; [reflexivity|].
  intros H. apply orb_false_iff in H as [Ha Hs].
  destruct s; [rewrite Ha; reflexivity|].
  rewrite (IH Hs). reflexivity.
Qed.




Lemma TrimSuffix_cons2 c a b s :
  TrimSuffix c (String a (String b s)) = String a (TrimSuffix c (String b s)).
Proof. reflexivity. Qed.



End GoStringsFacts.

(** ** Executions of programs *)
Section ProgFacts.
Context {E : Type -> Type}.

Lemma run_exec {R W} (remote : Remote_ E W) (p : Prog E R) w :
  exec p (run_trace (run remote p w)) (run_outcome (run remote p w)).
Proof.
  revert w. induction p as [r|X e k IH|m]; intros w; simpl.
  - constructor.
  - destruct (remote X e w) as [x w']. simpl. constructor. apply IH.
  - constructor.
Qed.

Lemma holds_exec {R} (p : Prog E R) (Q : list (Event E) -> outcome R -> Prop) tr o :
  holds p Q -> exec p tr o -> Q tr o.
Proof.
  intros Hh Hex. revert Q Hh.
  induction Hex as [r|m|X e k x tr o _ IH]; intros Q Hh; simpl in Hh.
  - exact Hh.
  - exact Hh.
  - apply (IH (fun tr o => Q (Ev e x :: tr) o)), Hh.
Qed.

Lemma holds_all {R} (p : Prog E R) (Q : list (Event E) -> outcome R -> Prop) :
  holds p Q -> forall tr o, exec p tr o -> Q tr o.
Proof. intros Hh tr o Hex. eapply holds_exec; eassumption. Qed.

Lemma exec_holds {R} (p : Prog E R) (Q : list (Event E) -> outcome R -> Prop) :
  (forall tr o, exec p tr o -> Q tr o) -> holds p Q.
Proof.
  revert Q. induction p as [r|X e k IH|m]; intros Q HQ; simpl.
  - apply HQ. constructor.
  - intros x. apply IH. intros tr o Hex. apply HQ. constructor. exact Hex.
  - apply HQ. constructor.
Qed.

Lemma holds_mono {R} (p : Prog E R) (Q Q' : list (Event E) -> outcome R -> Prop) :
  holds p Q -> (forall tr o, Q tr o -> Q' tr o) -> holds p Q'.
Proof.
  intros Hh HQ. apply exec_holds. intros tr o Hex. apply HQ.
  eapply holds_exec; eassumption.
Qed.

Lemma holds_pbind {A B} (p : Prog E A) (k : A -> Prog E B)
    (Q : list (Event E) -> outcome B -> Prop) :
  holds p (fun tr o =>
    match o with
    | Returned a => holds (k a) (fun tr' o' => Q (tr ++ tr') o')
    | Panicked m => Q tr (Panicked m)
    end) ->
  holds (pbind p k) Q.
Proof.
  revert Q. induction p as [a|X e h IH|m]; intros Q Hh; simpl in *.
  - exact Hh.
  - intros x. apply IH. exact (Hh x).
  - exact Hh.
Qed.

Lemma holds_mbind {C A B} (c : M E C A) (k : A -> M E C B) d
    (Q : list (Event E) -> outcome (result B * ResourceData C) -> Prop) :
  holds (c d) (fun tr o =>
    match o with
    | Returned (Ok a, d') => holds (k a d') (fun tr' o' => Q (tr ++ tr') o')
    | Returned (Err e, d') => Q tr (Returned (Err e, d'))
    | Panicked m => Q tr (Panicked m)
    end) ->
  holds ((c ≫= k) d) Q.
Proof.
  intros Hh. unfold mbind, M_bind. apply holds_pbind.
  eapply holds_mono; [exact Hh|]. intros tr [[[a|e] d']|m]; simpl; auto.
  intros HQ. rewrite app_nil_r. exact HQ.
Qed.

Lemma holds_any {R} (p : Prog E R) (Q : list (Event E) -> outcome R -> Prop) :
  (forall tr o, Q tr o) -> holds p Q.
Proof. intros HQ. apply exec_holds. intros tr o _. apply HQ. Qed.

End ProgFacts.

(** Symbolic execution of a resource function, one statement at a time. *)
Section Primitives.
Context {E : Type -> Type} {C : Type}.
Implicit Types (d : ResourceData C).
Local Abbreviation Post A :=
  (list (Event E) -> outcome (result A * ResourceData C) -> Prop).

Lemma holds_mret {A} (a : A) d (Q : Post A) :
  Q [] (Returned (Ok a, d)) -> holds (mret (M:=M E C) a d) Q.
Proof. exact (fun H => H). Qed.

Lemma holds_fail {A} e d (Q : Post A) :
  Q [] (Returned (Err e, d)) -> holds (fail e d) Q.
Proof. exact (fun H => H). Qed.

Lemma holds_panic {A} m d (Q : Post A) :
  Q [] (Panicked m) -> holds (panic m d) Q.
Proof. exact (fun H => H). Qed.

Lemma holds_call {X} (e : E X) d (Q : Post X) :
  (forall x, Q [Ev e x] (Returned (Ok x, d))) -> holds (call e d) Q.
Proof. exact (fun H => H). Qed.

Lemma holds_d_Get {A} (f : C -> A) d (Q : Post A) :
  Q [] (Returned (Ok (f (rd_config d)), d)) -> holds (d_Get f d) Q.
Proof. exact (fun H => H). Qed.

Lemma holds_d_Id d (Q : Post string) :
  Q [] (Returned (Ok (rd_Id d), d)) -> holds (d_Id d) Q.
Proof. exact (fun H => H). Qed.

Lemma holds_d_SetId id d (Q : Post unit) :
  Q [] (Returned (Ok tt, withId id d)) -> holds (d_SetId id d) Q.
Proof. exact (fun H => H). Qed.

Lemma holds_d_Set key v d (Q : Post unit) :
  Q [] (Returned (Ok tt, withSet key v d)) -> holds (d_Set key v d) Q.
Proof. exact (fun H => H). Qed.

Lemma holds_d_HasChange key d (Q : Post bool) :
  Q [] (Returned (Ok (bool_decide (key ∈ rd_changed d)), d)) ->
  holds (d_HasChange key d) Q.
Proof. exact (fun H => H). Qed.

Lemma holds_try {A} (r : result A) d (Q : Post A) :
  match r with
  | Ok a => Q [] (Returned (Ok a, d))
  | Err e => Q [] (Returned (Err e, d))
  end -> holds (try r d) Q.
Proof. destruct r; exact (fun H => H). Qed.

Lemma holds_check format err d (Q : Post unit) :
  match err with
  | Some e => Q [] (Returned (Err (Wrapf format e), d))
  | None => Q [] (Returned (Ok tt, d))
  end -> holds (check format err d) Q.
Proof. destruct err; exact (fun H => H). Qed.

Lemma silent_mret {A} (a : A) : silent (mret (M:=M E C) a).
Proof. intros d. left. eexists. reflexivity. Qed.

Lemma silent_fail {A} e : silent (fail (E:=E) (Config:=C) (A:=A) e).
Proof. intros d. left. eexists. reflexivity. Qed.

Lemma silent_panic {A} m : silent (panic (E:=E) (Config:=C) (A:=A) m).
Proof. intros d. right. eexists. reflexivity. Qed.

Lemma silent_d_Get {A} (f : C -> A) : silent (d_Get (E:=E) f).
Proof. intros d. left. eexists. reflexivity. Qed.

Lemma silent_d_Id : silent (d_Id (E:=E) (Config:=C)).
Proof. intros d. left. eexists. reflexivity. Qed.

Lemma silent_d_HasChange key : silent (d_HasChange (E:=E) (Config:=C) key).
Proof. intros d. left. eexists. reflexivity. Qed.

Lemma silent_try {A} (r : result A) : silent (try (E:=E) (Config:=C) r).
Proof. destruct r; [apply silent_mret | apply silent_fail]. Qed.

Lemma silent_check format err : silent (check (E:=E) (Config:=C) format err).
Proof. destruct err; [apply silent_fail | apply silent_mret]. Qed.

Lemma silent_liftP {A} (p : Prog E A) :
  (exists a, p = Ret a) \/ (exists m, p = Panic m) ->
  silent (liftP (Config:=C) p).
Proof.
  intros [[a ->]|[m ->]] d; [left | right]; eexists; reflexivity.
Qed.

Lemma silent_bind {A B} (c : M E C A) (k : A -> M E C B) :
  silent c -> (forall a, silent (k a)) -> silent (c ≫= k).
Proof.
  intros Hc Hk d. unfold mbind, M_bind.
  destruct (Hc d) as [[[a|e] ->]|[m ->]]; simpl.
  - apply Hk.
  - left. eexists. reflexivity.
  - right. eexists. reflexivity.
Qed.

Lemma holds_silent {A} (c : M E C A) d (Q : Post A) :
  silent c ->
  (forall r, Q [] (Returned (r, d))) -> (forall m, Q [] (Panicked m)) ->
  holds (c d) Q.
Proof.
  intros Hc Hr Hm. destruct (Hc d) as [[r ->]|[m ->]]; simpl; auto.
Qed.

Lemma holds_mbind_silent {A B} (c : M E C A) (k : A -> M E C B) d (Q : Post B) :
  silent c ->
  (forall a, holds (k a d) Q) ->
  (forall e, Q [] (Returned (Err e, d))) ->
  (forall m, Q [] (Panicked m)) ->
  holds ((c ≫= k) d) Q.
Proof.
  intros Hc Hk He Hm. apply holds_mbind, holds_silent; [exact Hc | |].
  - intros [a|e]; [|apply He].
    eapply holds_mono; [apply Hk|]. intros tr o HQ. exact HQ.
  - exact Hm.
Qed.

Lemma quiet_silent {A} (c : M E C A) : silent c -> quiet c.
Proof.
  intros Hc d. destruct (Hc d) as [[r ->]|[m ->]]; [left | right]; eauto.
Qed.

Lemma quiet_d_Set key v : quiet (d_Set (E:=E) (Config:=C) key v).
Proof. intros d. left. eexists _, _. reflexivity. Qed.

Lemma quiet_d_SetId id : quiet (d_SetId (E:=E) (Config:=C) id).
Proof. intros d. left. eexists _, _. reflexivity. Qed.

Lemma quiet_bind {A B} (c : M E C A) (k : A -> M E C B) :
  quiet c -> (forall a, quiet (k a)) -> quiet (c ≫= k).
Proof.
  intros Hc Hk d. unfold mbind, M_bind.
  destruct (Hc d) as [([a|e] & d' & ->)|[m ->]]; simpl.
  - apply Hk.
  - left. eexists _, _. reflexivity.
  - right. eexists. reflexivity.
Qed.

Lemma holds_quiet {A} (c : M E C A) d (Q : Post A) :
  quiet c ->
  (forall r d', Q [] (Returned (r, d'))) -> (forall m, Q [] (Panicked m)) ->
  holds (c d) Q.
Proof.
  intros Hc Hr Hm. destruct (Hc d) as [(r & d' & ->)|[m ->]]; simpl; auto.
Qed.

Lemma holds_mbind_quiet {A B} (c : M E C A) (k : A -> M E C B) d (Q : Post B) :
  quiet c ->
  (forall a d', holds (k a d') Q) ->
  (forall e d', Q [] (Returned (Err e, d'))) ->
  (forall m, Q [] (Panicked m)) ->
  holds ((c ≫= k) d) Q.
Proof.
  intros Hc Hk He Hm. apply holds_mbind, holds_quiet; [exact Hc | |].
  - intros [a|e] d'; [|apply He].
    eapply holds_mono; [apply Hk|]. intros tr o HQ. exact HQ.
  - exact Hm.
Qed.

(** A silent statement whose result satisfies [I]. *)
Lemma holds_mbind_inv {A B} (I : A -> Prop) (c : M E C A) (k : A -> M E C B) d
    (Q : Post B) :
  silent c ->
  (forall a, c d = Ret (Ok a, d) -> I a) ->
  (forall a, I a -> holds (k a d) Q) ->
  (forall e, Q [] (Returned (Err e, d))) ->
  (forall m, Q [] (Panicked m)) ->
  holds ((c ≫= k) d) Q.
Proof.
  intros Hc HI Hk He Hm. apply holds_mbind.
  destruct (Hc d) as [[[a|e] Heq]|[m Heq]]; rewrite Heq; simpl.
  - eapply holds_mono; [apply Hk, HI, Heq|]. intros tr o HQ. exact HQ.
  - apply He.
  - apply Hm.
Qed.

(** Traces without an exchange of some kind. *)
Lemma never_mbind {A B} (f : Event E -> bool) (c : M E C A) (k : A -> M E C B) d :
  holds (c d) (never f) -> (forall a d', holds (k a d') (never f)) ->
  holds ((c ≫= k) d) (never f).
Proof.
  intros Hc Hk. apply holds_mbind. eapply holds_mono; [exact Hc|].
  intros tr o Htr. destruct o as [[[a|e] d']|m]; [|exact Htr..].
  eapply holds_mono; [apply Hk|]. intros tr' o' Htr'.
  unfold never in *. rewrite existsb_app, Htr, Htr'. reflexivity.
Qed.

Lemma never_quiet {A} (f : Event E -> bool) (c : M E C A) d :
  quiet c -> holds (c d) (never f).
Proof. intros Hc. apply holds_quiet; [exact Hc | |]; intros; reflexivity. Qed.

Lemma never_call {X} (f : Event E -> bool) (e : E X) d :
  (forall x, f (Ev e x) = false) -> holds (call (Config:=C) e d) (never f).
Proof. intros Hf. apply holds_call. intros x. unfold never. simpl. rewrite Hf. reflexivity. Qed.

(** The state of the resource data is only changed by [d.SetId] and
    [d.Set]: a function that calls the client but does neither returns it as
    it was. *)
Lemma holds_liftP {A} (p : Prog E A) d (Q : Post A) :
  holds p (fun tr o =>
    match o with
    | Returned a => Q tr (Returned (Ok a, d))
    | Panicked m => Q tr (Panicked m)
    end) ->
  holds (liftP p d) Q.
Proof.
  intros Hh. unfold liftP. apply holds_pbind.
  eapply holds_mono; [exact Hh|]. intros tr [a|m]; simpl; [|auto].
  rewrite app_nil_r. auto.
Qed.

End Primitives.

Ltac wp_prim :=
  lazymatch goal with
  | |- holds (d_Get _ _) _ => apply holds_d_Get
  | |- holds (d_Id _) _ => apply holds_d_Id
  | |- holds (d_SetId _ _) _ => apply holds_d_SetId
  | |- holds (d_Set _ _ _) _ => apply holds_d_Set
  | |- holds (d_HasChange _ _) _ => apply holds_d_HasChange
  | |- holds (mret _ _) _ => apply holds_mret
  | |- holds (fail _ _) _ => apply holds_fail
  | |- holds (panic _ _) _ => apply holds_panic
  | |- holds (call _ _) _ => apply holds_call; intros ?
  | |- holds (try _ _) _ => apply holds_try
  | |- holds (check _ _ _) _ => apply holds_check
  end; cbn beta iota; rewrite ?app_nil_l, ?app_nil_r.

Ltac wp_step := first [ wp_prim | apply holds_mbind; wp_prim ].

(** Statements that send nothing. *)
Ltac silent_step :=
  first
    [ apply silent_mret | apply silent_fail | apply silent_panic
    | apply silent_d_Get | apply silent_d_Id | apply silent_d_HasChange
    | apply silent_try | apply silent_check
    | apply silent_bind; [|intros ?]
    | lazymatch goal with
      | |- silent (if ?b then _ else _) => destruct b
      | |- silent (match ?x with _ => _ end) => destruct x
      end ].

Ltac quiet_step :=
  first
    [ apply quiet_d_Set | apply quiet_d_SetId
    | apply quiet_bind; [|intros ?]
    | lazymatch goal with
      | |- quiet (if ?b then _ else _) => destruct b
      | |- quiet (match ?x with _ => _ end) => destruct x
      | |- quiet (when ?b _) => destruct b; unfold when
      end
    | apply quiet_silent; silent_step ].

(** Case analysis on the condition of the statement at the head. *)
Ltac wp_case :=
  lazymatch goal with
  | |- holds ((if ?b then _ else _) _) _ => destruct b eqn:?
  | |- holds (mbind _ (if ?b then _ else _) _) _ => destruct b eqn:?
  | |- holds ((match ?x with _ => _ end) _) _ => destruct x eqn:?
  | |- holds (mbind _ (match ?x with _ => _ end) _) _ => destruct x eqn:?
  | |- match ?x with _ => _ end => destruct x eqn:?
  end.

(** From a statement about every execution to a statement about the
    program. *)
Ltac wp_start tr o Hex :=
  revert tr o Hex;
  lazymatch goal with
  | |- forall tr o, exec ?p tr o -> @?Q tr o => apply (holds_all p Q)
  end.

(** ** The generated ID formatters and parsers *)
Section ResourceIDFacts.
Import GoStrings ResourceIDs.

Lemma segment_ok_eqb s : segment_ok s -> String.eqb s "" = false.
Proof. intros [H _]. apply String.eqb_neq. exact H. Qed.

Lemma Split_joinPath segments :
  segments <> [] ->
  Forall (fun s => Contains slash s = false) segments ->
  Split slash (joinPath segments) = segments.
Proof.
  induction segments as [|s rest IH]; [congruence|].
  intros _ Hall. inversion Hall as [|? ? Hs Hrest]; subst.
  destruct rest as [|r rest'].
  - simpl. apply Split_without. exact Hs.
  - change (joinPath (s :: r :: rest'))
      with (s +:+ String slash (joinPath (r :: rest'))).
    rewrite Split_app by exact Hs. f_equal. apply IH; [discriminate | exact Hrest].
Qed.

Lemma joinPath_nonempty segments :
  Forall (fun s => s <> "") segments -> segments <> [] -> joinPath segments <> "".
Proof.
  destruct segments as [|s rest]; [congruence|].
  intros Hall _. inversion Hall as [|? ? Hs Hrest]; subst.
  destruct rest; simpl; [exact Hs|].
  destruct s; [congruence | discriminate].
Qed.

Lemma Contains_app c a b : Contains c (a +:+ b) = Contains c a || Contains c b.
Proof.
  induction a as [|x a IH]; simpl; [reflexivity|].
  rewrite IH. apply orb_assoc.
Qed.

Lemma TrimSuffix_joinPath segments :
  Forall segment_ok segments -> TrimSuffix slash (joinPath segments) = joinPath segments.
Proof.
  induction segments as [|s rest IH]; [reflexivity|].
  intros Hall. inversion Hall as [|? ? Hs Hrest]; subst.
  destruct rest as [|r rest'].
  - simpl. apply TrimSuffix_without, Hs.
  - change (joinPath (s :: r :: rest'))
      with (s +:+ String slash (joinPath (r :: rest'))).
    rewrite TrimSuffix_app by discriminate. f_equal.
    assert (Hne : joinPath (r :: rest') <> "").
    { apply joinPath_nonempty; [|discriminate].
      eapply Forall_impl; [exact Hrest|]. intros x [Hx _]. exact Hx. }
    specialize (IH Hrest).
    destruct (joinPath (r :: rest')) as [|c t] eqn:E; [congruence|].
    rewrite TrimSuffix_cons2, IH. reflexivity.
Qed.

(** What the generated parsers return on a path in the canonical layout. *)
Lemma parseTwoSegments_canonical kind first second provider sub rg v1 v2 :
  first <> "subscriptions" -> first <> "providers" ->
  first <> "resourceGroups" -> first <> "resourcegroups" ->
  second <> "subscriptions" -> second <> "providers" ->
  second <> "resourceGroups" -> second <> "resourcegroups" ->
  first <> second ->
  segment_ok first -> segment_ok second -> segment_ok provider ->
  segment_ok sub -> segment_ok rg -> segment_ok v1 -> segment_ok v2 ->
  parseTwoSegments kind first second
    (String slash (joinPath ["subscriptions"; sub; "resourceGroups"; rg;
                             "providers"; provider; first; v1; second; v2]))
  = Ok (sub, rg, v1, v2).
Proof.
  intros F1 F2 F3 F4 S1 S2 S3 S4 FS Hf Hs Hp Hsub Hrg Hv1 Hv2.
  unfold parseTwoSegments, ParseAzureResourceID.
  cbn [TrimPrefix]. rewrite Ascii.eqb_refl.
  assert (Hall : Forall segment_ok ["subscriptions"; sub; "resourceGroups"; rg;
                             "providers"; provider; first; v1; second; v2]).
  { repeat (constructor; [first [assumption | split; [discriminate | reflexivity]]|]).
    constructor. }
  rewrite TrimSuffix_joinPath by exact Hall.
  rewrite Split_joinPath;
    [| discriminate | eapply Forall_impl; [exact Hall|]; intros x [_ Hx]; exact Hx].
  cbn [length Nat.even negb].
  cbn [collectComponents String.eqb Ascii.eqb Bool.eqb orb andb].
  rewrite !(segment_ok_eqb sub), !(segment_ok_eqb rg), !(segment_ok_eqb provider),
    !(segment_ok_eqb v1), !(segment_ok_eqb v2), !(segment_ok_eqb first),
    !(segment_ok_eqb second) by assumption.
  cbn [orb andb].
  apply String.eqb_neq in F1 as F1', F2 as F2', S1 as S1', S2 as S2'.
  rewrite F1', F2', S1', S2'. cbn [orb andb].
  rewrite (segment_ok_eqb sub) by assumption.
  rewrite lookup_insert_ne by congruence.
  rewrite lookup_insert_ne by congruence.
  rewrite lookup_insert_eq.
  cbn [SubscriptionID ResourceGroup].
  rewrite (segment_ok_eqb sub), (segment_ok_eqb rg) by assumption.
  unfold PopSegment. cbn [Path SubscriptionID ResourceGroup Provider].
  rewrite (delete_insert_ne _ "resourceGroups" second) by congruence.
  rewrite (delete_insert_ne _ "resourceGroups" first) by congruence.
  rewrite delete_insert_eq, delete_empty.
  rewrite lookup_insert_ne by congruence. rewrite lookup_insert_eq.
  rewrite (delete_insert_ne _ first second) by congruence.
  rewrite delete_insert_eq, delete_empty.
  cbn [Path SubscriptionID ResourceGroup Provider].
  rewrite lookup_insert_eq.
  unfold ValidateNoEmptySegments. cbn [Path SubscriptionID ResourceGroup].
  rewrite delete_insert_eq, delete_empty.
  rewrite decide_True by reflexivity. reflexivity.
Qed.





Lemma ServerDNSAliasID_canonical (s g a b : string) :
  segment_ok s -> segment_ok g -> segment_ok a -> segment_ok b ->
  ServerDNSAliasID (ServerDNSAliasId_ID (NewServerDNSAliasID s g a b))
  = Ok (NewServerDNSAliasID s g a b).
Proof.
  intros Hs Hg Ha Hb. unfold ServerDNSAliasID.
  change (ServerDNSAliasId_ID (NewServerDNSAliasID s g a b))
    with (String slash (joinPath ["subscriptions"; s; "resourceGroups"; g;
            "providers"; "Microsoft.Sql"; "servers"; a; "dnsAliases"; b])).
  rewrite parseTwoSegments_canonical;
    solve [reflexivity | assumption | discriminate
          | split; [discriminate | reflexivity]].
Qed.

Lemma BotChannelID_canonical (s g a b : string) :
  segment_ok s -> segment_ok g -> segment_ok a -> segment_ok b ->
  BotChannelID (BotChannelId_ID (NewBotChannelID s g a b))
  = Ok (NewBotChannelID s g a b).
Proof.
  intros Hs Hg Ha Hb. unfold BotChannelID.
  change (BotChannelId_ID (NewBotChannelID s g a b))
    with (String slash (joinPath ["subscriptions"; s; "resourceGroups"; g;
            "providers"; "Microsoft.BotService"; "botServices"; a; "channels"; b])).
  rewrite parseTwoSegments_canonical;
    solve [reflexivity | assumption | discriminate
          | split; [discriminate | reflexivity]].
Qed.

(** C1 (as amended): for components that are not empty and contain no
    slash, the formatters produce the canonical path and the parsers give the
    four components back, for the SQL server DNS alias and for the bot
    channel. *)
Theorem generated_id_roundtrip (s g a b : string) :
  segment_ok s -> segment_ok g -> segment_ok a -> segment_ok b ->
  ServerDNSAliasId_ID (NewServerDNSAliasID s g a b)
    = "/subscriptions/" +:+ s +:+ "/resourceGroups/" +:+ g +:+
      "/providers/Microsoft.Sql/servers/" +:+ a +:+ "/dnsAliases/" +:+ b
  /\ ServerDNSAliasID (ServerDNSAliasId_ID (NewServerDNSAliasID s g a b))
    = Ok (NewServerDNSAliasID s g a b)
  /\ BotChannelId_ID (NewBotChannelID s g a b)
    = "/subscriptions/" +:+ s +:+ "/resourceGroups/" +:+ g +:+
      "/providers/Microsoft.BotService/botServices/" +:+ a +:+ "/channels/" +:+ b
  /\ BotChannelID (BotChannelId_ID (NewBotChannelID s g a b))
    = Ok (NewBotChannelID s g a b).
Proof.
  intros Hs Hg Ha Hb.
  split; [reflexivity|]. split; [|split; [reflexivity|]].
  - apply ServerDNSAliasID_canonical; assumption.
  - apply BotChannelID_canonical; assumption.
Qed.

Lemma generated_id_roundtrip_witness :
  segment_ok "12345678-1234-9876-4563-123456789012" /\
  ServerDNSAliasID
    "/subscriptions/12345678-1234-9876-4563-123456789012/resourceGroups/group1/providers/Microsoft.Sql/servers/server1/dnsAliases/default"
  = Ok (NewServerDNSAliasID "12345678-1234-9876-4563-123456789012" "group1"
          "server1" "default").
Proof.
  assert (H : forall x, x <> "" -> Contains slash x = false -> segment_ok x)
    by (intros x H1 H2; split; assumption).
  split; [apply H; [discriminate | reflexivity]|].
  apply (generated_id_roundtrip "12345678-1234-9876-4563-123456789012" "group1"
           "server1" "default"); apply H; first [discriminate | reflexivity].
Defined.

(** C1 (as stated, refuted): with an empty alias name the formatted path ends
    in a slash and the parser refuses it, as the case "missing value for
    DnsAliaseName" of the parser's test expects. *)
Lemma roundtrip_fails_on_empty_name :
  ServerDNSAliasId_ID (NewServerDNSAliasID "12345678-1234-9876-4563-123456789012"
                         "group1" "server1" "")
    = "/subscriptions/12345678-1234-9876-4563-123456789012/resourceGroups/group1/providers/Microsoft.Sql/servers/server1/dnsAliases/"
  /\ ~ (forall s g a b,
          ServerDNSAliasID (ServerDNSAliasId_ID (NewServerDNSAliasID s g a b))
          = Ok (NewServerDNSAliasID s g a b)).
Proof.
  split; [reflexivity|].
  intros H.
  specialize (H "12345678-1234-9876-4563-123456789012" "group1" "server1" "").
  vm_compute in H. discriminate H.
Qed.






(** Two strings are different when their upper-cased forms are; [U1] to
    [U5] give the upper-cased form of the keys of the path. *)
Ltac apart U1 U2 U3 U4 U5 :=
  let E := fresh "E" in
  intros E; apply (f_equal ToUpper) in E;
  change (ToUpper "resourcegroups") with (ToUpper "resourceGroups") in E;
  rewrite ?U1, ?U2, ?U3, ?U4, ?U5 in E; congruence.

(** Settles the comparisons of strings in the goal: by the segments being
    non-empty, by the keys being apart, or by cases. *)
Ltac keys U1 U2 U3 U4 U5 :=
  repeat match goal with
         | |- context [String.eqb "" ""] => change (String.eqb "" "") with true
         | |- context [String.eqb ?a ""] => rewrite (segment_ok_eqb a) by assumption
         | |- context [String.eqb ?a ?b] =>
             rewrite (proj2 (String.eqb_neq a b)) by apart U1 U2 U3 U4 U5
         | |- context [String.eqb ?a ?b] =>
             destruct (String.eqb_spec a b) as [->|?]
         end;
  cbn [andb orb].









End ResourceIDFacts.

(** ** The import guard of Create *)
Section CreateGuard.

Lemma servicebus_create_guard `{ServiceBus.Helpers} sub d tr o :
  exec (ServiceBus.resourceServiceBusNamespaceCreate sub d) tr o ->
  let id := ServiceBus.NewNamespaceID sub
              (ServiceBus.resource_group_name (rd_config d))
              (ServiceBus.name (rd_config d)) in
  exists existing err rest,
    tr = Ev (ServiceBus.Get id) (existing, err) :: rest /\
    (WasNotFound (ServiceBus.HttpResponse_ existing) = false ->
     rest = [] /\
     o = Returned
           (Err match err with
                | Some e => Wrapf "checking for presence of existing %s: %+v" e
                | None => ImportAsExistsError "azurerm_servicebus_namespace"
                            (ServiceBus.NamespaceId_ID id)
                end, d)).
Proof.
  intros Hex id. wp_start tr o Hex.
  unfold ServiceBus.resourceServiceBusNamespaceCreate.
  do 6 wp_step. destruct x as [existing err]. fold id.
  destruct (WasNotFound (ServiceBus.HttpResponse_ existing)) eqn:Hnf.
  - apply holds_any. intros tr' o'. exists existing, err, tr'.
    split; [reflexivity | congruence].
  - destruct err as [e|]; cbn [negb].
    + wp_step. exists existing, (Some e), []. split; [reflexivity|]. intros _.
      split; reflexivity.
    + do 2 wp_step. exists existing, None, []. split; [reflexivity|]. intros _.
      split; reflexivity.
Qed.

Lemma serviceplan_create_guard `{ServicePlan.Helpers} sub d tr o :
  exec (ServicePlan.Create sub d) tr o ->
  match ServicePlan.decoded (rd_config d) with
  | Err e => tr = [] /\ o = Returned (Err e, d)
  | Ok servicePlan =>
      let id := ServicePlan.NewAppServicePlanID sub
                  (ServicePlan.ResourceGroup servicePlan)
                  (ServicePlan.Name servicePlan) in
      exists existing err rest,
        tr = Ev (ServicePlan.Get id) (existing, err) :: rest /\
        (WasNotFound (ServicePlan.HttpResponse_ existing) = false ->
         rest = [] /\
         o = Returned
               (Err match err with
                    | Some e => Wrapf "retrieving %s: %v" e
                    | None => ResourceRequiresImport "azurerm_service_plan"
                                (ServicePlan.AppServicePlanId_ID id)
                    end, d))
  end.
Proof.
  intros Hex. wp_start tr o Hex.
  unfold ServicePlan.Create, ServicePlan.Decode.
  apply holds_mbind, holds_mbind. wp_prim.
  destruct (ServicePlan.decoded (rd_config d)) as [servicePlan|e]; wp_prim.
  - wp_step. destruct x as [existing err].
    destruct (WasNotFound (ServicePlan.HttpResponse_ existing)) eqn:Hnf.
    + apply holds_any. intros tr' o'. exists existing, err, tr'.
      split; [reflexivity | congruence].
    + destruct err as [e|]; cbn [negb].
      * wp_step. exists existing, (Some e), []. split; [reflexivity|]. intros _.
        split; reflexivity.
      * do 2 wp_step. exists existing, None, []. split; [reflexivity|]. intros _.
        split; reflexivity.
  - split; reflexivity.
Qed.

Lemma monitor_create_guard `{Monitor.Helpers} deadline d tr o :
  exec (Monitor.resourceMonitorDiagnosticSettingCreate deadline d) tr o ->
  let id := Monitor.NewScopedDiagnosticSettingID
              (Monitor.target_resource_id (rd_config d))
              (Monitor.name (rd_config d)) in
  exists existing err rest,
    tr = Ev (Monitor.Get id) (existing, err) :: rest /\
    (WasNotFound (Monitor.HttpResponse_ existing) = false ->
     rest = [] /\
     o = Returned
           (Err match err with
                | Some e => Wrapf "checking for presence of existing Monitor Diagnostic Setting %q for Resource %q: %s" e
                | None => ImportAsExistsError "azurerm_monitor_diagnostic_setting"
                            (Monitor.resourceIdOf id)
                end, d)).
Proof.
  intros Hex id. wp_start tr o Hex.
  unfold Monitor.resourceMonitorDiagnosticSettingCreate.
  do 3 wp_step. destruct x as [existing err]. fold id.
  destruct (WasNotFound (Monitor.HttpResponse_ existing)) eqn:Hnf.
  - apply holds_any. intros tr' o'. exists existing, err, tr'.
    split; [reflexivity | congruence].
  - destruct err as [e|]; cbn [negb].
    + wp_step. exists existing, (Some e), []. split; [reflexivity|]. intros _.
      split; reflexivity.
    + do 2 wp_step. exists existing, None, []. split; [reflexivity|]. intros _.
      split; reflexivity.
Qed.

(** C3 (as amended): each Create starts with a [Get] of the target ID (the
    service plan after decoding its model); when the answer is not a
    NotFound, nothing else is sent, no create request in particular, and
    Create returns an error: the import error when the [Get] succeeded, the
    wrapped error of the [Get] when it failed otherwise. *)
Theorem create_import_guard
    (Hsb : ServiceBus.Helpers) (Hsp : ServicePlan.Helpers) (Hm : Monitor.Helpers) :
  (forall sub d tr o,
     exec (ServiceBus.resourceServiceBusNamespaceCreate sub d) tr o ->
     let id := ServiceBus.NewNamespaceID sub
                 (ServiceBus.resource_group_name (rd_config d))
                 (ServiceBus.name (rd_config d)) in
     exists existing err rest,
       tr = Ev (ServiceBus.Get id) (existing, err) :: rest /\
       (WasNotFound (ServiceBus.HttpResponse_ existing) = false ->
        rest = [] /\
        o = Returned
              (Err match err with
                   | Some e => Wrapf "checking for presence of existing %s: %+v" e
                   | None => ImportAsExistsError "azurerm_servicebus_namespace"
                               (ServiceBus.NamespaceId_ID id)
                   end, d)))
  /\ (forall sub d servicePlan tr o,
     ServicePlan.decoded (rd_config d) = Ok servicePlan ->
     exec (ServicePlan.Create sub d) tr o ->
     let id := ServicePlan.NewAppServicePlanID sub
                 (ServicePlan.ResourceGroup servicePlan)
                 (ServicePlan.Name servicePlan) in
     exists existing err rest,
       tr = Ev (ServicePlan.Get id) (existing, err) :: rest /\
       (WasNotFound (ServicePlan.HttpResponse_ existing) = false ->
        rest = [] /\
        o = Returned
              (Err match err with
                   | Some e => Wrapf "retrieving %s: %v" e
                   | None => ResourceRequiresImport "azurerm_service_plan"
                               (ServicePlan.AppServicePlanId_ID id)
                   end, d)))
  /\ (forall deadline d tr o,
     exec (Monitor.resourceMonitorDiagnosticSettingCreate deadline d) tr o ->
     let id := Monitor.NewScopedDiagnosticSettingID
                 (Monitor.target_resource_id (rd_config d))
                 (Monitor.name (rd_config d)) in
     exists existing err rest,
       tr = Ev (Monitor.Get id) (existing, err) :: rest /\
       (WasNotFound (Monitor.HttpResponse_ existing) = false ->
        rest = [] /\
        o = Returned
              (Err match err with
                   | Some e => Wrapf "checking for presence of existing Monitor Diagnostic Setting %q for Resource %q: %s" e
                   | None => ImportAsExistsError "azurerm_monitor_diagnostic_setting"
                               (Monitor.resourceIdOf id)
                   end, d))).
Proof.
  split; [|split].
  - intros sub d tr o Hex. exact (servicebus_create_guard sub d tr o Hex).
  - intros sub d servicePlan tr o Hdec Hex.
    pose proof (serviceplan_create_guard sub d tr o Hex) as Hg.
    rewrite Hdec in Hg. exact Hg.
  - intros deadline d tr o Hex. exact (monitor_create_guard deadline d tr o Hex).
Qed.

(** An existing namespace: Create stops at the import error. *)
Lemma create_import_guard_witness :
  let p := ServiceBus.resourceServiceBusNamespaceCreate (H:=Samples.sbHelpers)
             "sub1" Samples.sbNew in
  let r := run (Samples.sbRemote Samples.sbExists) p tt in
  exec p (run_trace r) (run_outcome r)
  /\ exists existing err rest,
       run_trace r
       = Ev (ServiceBus.Get (ServiceBus.NewNamespaceID "sub1" "rg1" "ns1"))
            (existing, err) :: rest /\
       (WasNotFound (ServiceBus.HttpResponse_ existing) = false ->
        rest = [] /\
        run_outcome r
        = Returned
            (Err match err with
                 | Some e => Wrapf "checking for presence of existing %s: %+v" e
                 | None => ImportAsExistsError "azurerm_servicebus_namespace"
                             Samples.sbId
                 end, Samples.sbNew)).
Proof.
  intros p r. split; [apply run_exec|].
  apply (proj1 (create_import_guard Samples.sbHelpers Samples.spHelpers
                  Samples.mHelpers) "sub1" Samples.sbNew).
  apply run_exec.
Defined.

(** C3 (as stated, refuted): the [Get] of the exists-check fails with a 500,
    which is not a NotFound; Create returns the error of the failed check,
    not an import error. *)
Lemma create_guard_failed_check_is_no_import_error :
  WasNotFound (ServiceBus.HttpResponse_ (fst Samples.sbFailure)) = false
  /\ run_outcome
       (run (Samples.sbRemote Samples.sbFailure)
          (ServiceBus.resourceServiceBusNamespaceCreate (H:=Samples.sbHelpers)
             "sub1" Samples.sbNew) tt)
     = Returned (Err (Wrapf "checking for presence of existing %s: %+v"
                        (Remote "500 Internal Server Error")),
                 Samples.sbNew).
Proof. split; reflexivity. Qed.

End CreateGuard.

(** ** The composite ID of a diagnostic setting *)
Section MonitorID.
Import GoStrings Monitor.

Lemma Contains_false_app c a b :
  Contains c a = false -> Contains c b = false -> Contains c (a +:+ b) = false.
Proof.
  induction a as [|x a IH]; simpl; [auto|].
  intros Ha Hb. apply orb_false_iff in Ha as [Hx Ha].
  rewrite Hx, (IH Ha Hb). reflexivity.
Qed.

(** C7: [ParseMonitorDiagnosticId] succeeds exactly on the inputs that split
    on "|" into two segments, and it gives back the target resource ID and
    the name of the composite ID Create builds from them, when neither
    contains a "|". *)
Theorem ParseMonitorDiagnosticId_composite :
  (forall monitorId,
     is_ok (ParseMonitorDiagnosticId monitorId) = true
     <-> length (Split pipe monitorId) = 2)
  /\ (forall monitorId,
        is_ok (ParseMonitorDiagnosticId monitorId) = false
        <-> exists e, ParseMonitorDiagnosticId monitorId = Err e)
  /\ (forall target name,
        Contains pipe target = false -> Contains pipe name = false ->
        resourceIdOf (NewScopedDiagnosticSettingID target name)
          = target +:+ "|" +:+ name
        /\ ParseMonitorDiagnosticId
             (resourceIdOf (NewScopedDiagnosticSettingID target name))
           = Ok {| ResourceUri := target; DiagnosticSettingName := name |}).
Proof.
  split; [|split].
  - intros monitorId. unfold ParseMonitorDiagnosticId.
    destruct (Split pipe monitorId) as [|a [|b [|c l]]]; simpl;
      split; intros Hx; first [reflexivity | discriminate Hx].
  - intros monitorId. destruct (ParseMonitorDiagnosticId monitorId) as [x|e]; simpl.
    + split; [discriminate | intros [e He]; discriminate He].
    + split; [eauto | reflexivity].
  - intros target name Ht Hn. split; [reflexivity|].
    unfold ParseMonitorDiagnosticId, resourceIdOf. cbn [ResourceUri DiagnosticSettingName NewScopedDiagnosticSettingID].
    rewrite Split_app by exact Ht. rewrite Split_without by exact Hn. reflexivity.
Qed.

Lemma ParseMonitorDiagnosticId_composite_witness :
  Contains pipe Samples.mTarget = false /\ Contains pipe "diag1" = false
  /\ ParseMonitorDiagnosticId (Samples.mTarget +:+ "|" +:+ "diag1")
     = Ok {| ResourceUri := Samples.mTarget; DiagnosticSettingName := "diag1" |}.
Proof.
  split; [reflexivity|]. split; [reflexivity|].
  apply (proj2 (proj2 ParseMonitorDiagnosticId_composite) Samples.mTarget "diag1");
    reflexivity.
Defined.

End MonitorID.

(** ** Expanding the enabled logs *)
Section EnabledLogs.
Import Monitor.

Lemma expandEnabledLogs_spec input : forall results,
  match expandMonitorDiagnosticsSettingsEnabledLogs input results with
  | Err e =>
      Exists (fun v => category v = "" /\ category_group v = "") input
  | Ok out =>
      ~ Exists (fun v => category v = "" /\ category_group v = "") input
      /\ exists new, out = results ++ new /\ Forall2 expandsTo input new
  end.
Proof.
  induction input as [|v rest IH]; intros results; cbn [expandMonitorDiagnosticsSettingsEnabledLogs].
  - split; [intros Hex; inversion Hex|]. exists []. rewrite app_nil_r.
    split; [reflexivity | constructor].
  - destruct (String.eqb (category v) "") eqn:Ec; cbn [negb].
    + apply String.eqb_eq in Ec.
      destruct (String.eqb (category_group v) "") eqn:Eg; cbn [negb].
      * apply String.eqb_eq in Eg. left. split; assumption.
      * apply String.eqb_neq in Eg.
        match goal with
        | |- context [expandMonitorDiagnosticsSettingsEnabledLogs rest ?acc] =>
            specialize (IH acc);
            destruct (expandMonitorDiagnosticsSettingsEnabledLogs rest acc) as [out|e]
        end.
        -- destruct IH as [Hno (new & -> & Hall)]. split.
           ++ intros Hex. inversion Hex as [? ? [_ Hg]|? ? Hr]; subst; [congruence|].
              exact (Hno Hr).
           ++ eexists (_ :: new). rewrite <- app_assoc. split; [reflexivity|].
              constructor; [|exact Hall].
              unfold expandsTo; cbn. repeat split; try reflexivity; congruence.
        -- right. exact IH.
    + apply String.eqb_neq in Ec.
      match goal with
      | |- context [expandMonitorDiagnosticsSettingsEnabledLogs rest ?acc] =>
          specialize (IH acc);
          destruct (expandMonitorDiagnosticsSettingsEnabledLogs rest acc) as [out|e]
      end.
      * destruct IH as [Hno (new & -> & Hall)]. split.
        -- intros Hex. inversion Hex as [? ? [Hc _]|? ? Hr]; subst; [congruence|].
           exact (Hno Hr).
        -- eexists (_ :: new). rewrite <- app_assoc. split; [reflexivity|].
           constructor; [|exact Hall].
           unfold expandsTo; cbn. repeat split; try reflexivity; congruence.
      * right. exact IH.
Qed.

(** C10: [expandMonitorDiagnosticsSettingsEnabledLogs] fails exactly when
    some entry has neither a category nor a category group; otherwise every
    entry gives one log setting, enabled, carrying the category when there
    is one (also when a category group is given beside it) and the category
    group else. *)
Theorem expandEnabledLogs_error_iff_both_empty (input : list EnabledLogBlock) :
  ((exists e, expandMonitorDiagnosticsSettingsEnabledLogs input [] = Err e)
   <-> Exists (fun v => category v = "" /\ category_group v = "") input)
  /\ (forall out,
        expandMonitorDiagnosticsSettingsEnabledLogs input [] = Ok out ->
        Forall (fun l => Enabled l = true) out
        /\ Forall2 (fun v l =>
             (category v <> "" ->
              Category l = Some (category v) /\ CategoryGroup l = None)
             /\ (category v = "" ->
                 Category l = None /\ CategoryGroup l = Some (category_group v)))
             input out).
Proof.
  pose proof (expandEnabledLogs_spec input []) as Hs.
  destruct (expandMonitorDiagnosticsSettingsEnabledLogs input []) as [out|e].
  - destruct Hs as [Hno (new & -> & Hall)]. split.
    + split; [intros [e He]; discriminate He | intros Hex; contradiction].
    + intros out' [= <-]. simpl. split.
      * clear Hno. induction Hall as [|v l ? ? Hvl _ IH]; constructor; [|exact IH].
        apply Hvl.
      * eapply Forall2_impl; [exact Hall|]. intros v l (_ & H1 & H2). split; assumption.
  - split.
    + split; [intros _; exact Hs | intros _; eauto].
    + intros out [=].
Qed.

(** Two entries: one with a category and a category group, for which the
    category wins, and one with a category group alone. *)
Lemma expandEnabledLogs_error_iff_both_empty_witness :
  let input :=
    [ {| category := "AuditEvent"; category_group := "allLogs"; retention_policy := [] |};
      {| category := ""; category_group := "audit"; retention_policy := [] |} ] in
  let out :=
    [ {| Category := Some "AuditEvent"; CategoryGroup := None; Enabled := true;
         RetentionPolicy_ := None |};
      {| Category := None; CategoryGroup := Some "audit"; Enabled := true;
         RetentionPolicy_ := None |} ] in
  expandMonitorDiagnosticsSettingsEnabledLogs input [] = Ok out
  /\ Forall (fun l => Enabled l = true) out
  /\ Forall2 (fun v l =>
       (category v <> "" ->
        Category l = Some (category v) /\ CategoryGroup l = None)
       /\ (category v = "" ->
           Category l = None /\ CategoryGroup l = Some (category_group v)))
       input out.
Proof.
  intros input out.
  assert (Heq : expandMonitorDiagnosticsSettingsEnabledLogs input [] = Ok out)
    by reflexivity.
  split; [exact Heq|].
  exact (proj2 (expandEnabledLogs_error_iff_both_empty input) out Heq).
Defined.

End EnabledLogs.

(** ** Read and a resource that is gone *)
Section ReadGone.

Lemma servicebus_read_gone `{ServiceBus.Helpers} d tr o :
  exec (ServiceBus.resourceServiceBusNamespaceRead d) tr o ->
  match ServiceBus.ParseNamespaceID (rd_Id d) with
  | Err e => tr = [] /\ o = Returned (Err e, d)
  | Ok id =>
      exists resp err rest,
        tr = Ev (ServiceBus.Get id) (resp, err) :: rest
        /\ forall e, err = Some e ->
             rest = []
             /\ o = Returned
                      (if WasNotFound (ServiceBus.HttpResponse_ resp)
                       then (Ok tt, withId "" d)
                       else (Err (Wrapf "retrieving %s: %+v" e), d))
  end.
Proof.
  intros Hex. wp_start tr o Hex.
  unfold ServiceBus.resourceServiceBusNamespaceRead.
  wp_step. apply holds_mbind.
  destruct (ServiceBus.ParseNamespaceID (rd_Id d)) as [id|e0]; wp_prim.
  2:{ split; reflexivity. }
  wp_step. destruct x as [resp err]. destruct err as [e0|].
  - destruct (WasNotFound (ServiceBus.HttpResponse_ resp)) eqn:Hnf; wp_prim;
      exists resp, (Some e0), []; (split; [reflexivity|]);
      intros e' [= <-]; rewrite ?Hnf; split; reflexivity.
  - apply holds_any. intros tr' o'. exists resp, None, tr'.
    split; [reflexivity|]. intros e' [=].
Qed.

Lemma serviceplan_read_gone `{ServicePlan.Helpers} d tr o :
  exec (ServicePlan.Read d) tr o ->
  match ServicePlan.ParseAppServicePlanID (rd_Id d) with
  | Err e => tr = [] /\ o = Returned (Err e, d)
  | Ok id =>
      exists resp err rest,
        tr = Ev (ServicePlan.Get id) (resp, err) :: rest
        /\ forall e, err = Some e ->
             rest = []
             /\ o = Returned
                      (if WasNotFound (ServicePlan.HttpResponse_ resp)
                       then (Ok tt, withId "" d)
                       else (Err (Wrapf "retrieving %s: %+v" e), d))
  end.
Proof.
  intros Hex. wp_start tr o Hex.
  unfold ServicePlan.Read.
  wp_step. apply holds_mbind.
  destruct (ServicePlan.ParseAppServicePlanID (rd_Id d)) as [id|e0]; wp_prim.
  2:{ split; reflexivity. }
  wp_step. destruct x as [resp err]. destruct err as [e0|].
  - destruct (WasNotFound (ServicePlan.HttpResponse_ resp)) eqn:Hnf;
      unfold ServicePlan.MarkAsGone; wp_prim;
      exists resp, (Some e0), []; (split; [reflexivity|]);
      intros e' [= <-]; rewrite ?Hnf; split; reflexivity.
  - apply holds_any. intros tr' o'. exists resp, None, tr'.
    split; [reflexivity|]. intros e' [=].
Qed.

Lemma monitor_read_gone `{Monitor.Helpers} d tr o :
  exec (Monitor.resourceMonitorDiagnosticSettingRead d) tr o ->
  match Monitor.ParseMonitorDiagnosticId (rd_Id d) with
  | Err e => tr = [] /\ o = Returned (Err e, d)
  | Ok id =>
      exists resp err rest,
        tr = Ev (Monitor.Get id) (resp, err) :: rest
        /\ forall e, err = Some e ->
             rest = []
             /\ o = Returned
                      (if WasNotFound (Monitor.HttpResponse_ resp)
                       then (Ok tt, withId "" d)
                       else (Err (Wrapf "retrieving Monitor Diagnostics Setting %q for Resource %q: %+v" e), d))
  end.
Proof.
  intros Hex. wp_start tr o Hex.
  unfold Monitor.resourceMonitorDiagnosticSettingRead.
  wp_step. apply holds_mbind.
  destruct (Monitor.ParseMonitorDiagnosticId (rd_Id d)) as [id|e0]; wp_prim.
  2:{ split; reflexivity. }
  wp_step. destruct x as [resp err]. destruct err as [e0|].
  - destruct (WasNotFound (Monitor.HttpResponse_ resp)) eqn:Hnf; wp_prim;
      exists resp, (Some e0), []; (split; [reflexivity|]);
      intros e' [= <-]; rewrite ?Hnf; split; reflexivity.
  - apply holds_any. intros tr' o'. exists resp, None, tr'.
    split; [reflexivity|]. intros e' [=].
Qed.

(** C9: a Read whose state ID parses starts with a [Get] of the resource
    of that ID (one whose ID does not parse sends nothing and returns the
    error of the parser).  When that [Get] fails, Read sends nothing else;
    on a NotFound it clears the ID in the state and reports no error, on any
    other failure it returns the wrapped error and leaves the state as it
    was, for the ServiceBus namespace, the service plan and the diagnostic
    setting. *)
Theorem read_removes_missing_resource
    (Hsb : ServiceBus.Helpers) (Hsp : ServicePlan.Helpers) (Hm : Monitor.Helpers) :
  (forall d tr o,
     exec (ServiceBus.resourceServiceBusNamespaceRead d) tr o ->
     match ServiceBus.ParseNamespaceID (rd_Id d) with
     | Err e => tr = [] /\ o = Returned (Err e, d)
     | Ok id =>
         exists resp err rest,
           tr = Ev (ServiceBus.Get id) (resp, err) :: rest
           /\ forall e, err = Some e ->
                rest = []
                /\ (WasNotFound (ServiceBus.HttpResponse_ resp) = true ->
                    o = Returned (Ok tt, withId "" d))
                /\ (WasNotFound (ServiceBus.HttpResponse_ resp) = false ->
                    o = Returned (Err (Wrapf "retrieving %s: %+v" e), d))
     end)
  /\ (forall d tr o,
     exec (ServicePlan.Read d) tr o ->
     match ServicePlan.ParseAppServicePlanID (rd_Id d) with
     | Err e => tr = [] /\ o = Returned (Err e, d)
     | Ok id =>
         exists resp err rest,
           tr = Ev (ServicePlan.Get id) (resp, err) :: rest
           /\ forall e, err = Some e ->
                rest = []
                /\ (WasNotFound (ServicePlan.HttpResponse_ resp) = true ->
                    o = Returned (Ok tt, withId "" d))
                /\ (WasNotFound (ServicePlan.HttpResponse_ resp) = false ->
                    o = Returned (Err (Wrapf "retrieving %s: %+v" e), d))
     end)
  /\ (forall d tr o,
     exec (Monitor.resourceMonitorDiagnosticSettingRead d) tr o ->
     match Monitor.ParseMonitorDiagnosticId (rd_Id d) with
     | Err e => tr = [] /\ o = Returned (Err e, d)
     | Ok id =>
         exists resp err rest,
           tr = Ev (Monitor.Get id) (resp, err) :: rest
           /\ forall e, err = Some e ->
                rest = []
                /\ (WasNotFound (Monitor.HttpResponse_ resp) = true ->
                    o = Returned (Ok tt, withId "" d))
                /\ (WasNotFound (Monitor.HttpResponse_ resp) = false ->
                    o = Returned (Err (Wrapf "retrieving Monitor Diagnostics Setting %q for Resource %q: %+v" e), d))
     end).
Proof.
  split; [|split]; intros d tr o Hex.
  - pose proof (servicebus_read_gone d tr o Hex) as Hr.
    destruct (ServiceBus.ParseNamespaceID (rd_Id d)) as [id|e0]; [|exact Hr].
    destruct Hr as (resp & err & rest & Htr & Herr).
    exists resp, err, rest. split; [exact Htr|]. intros e He.
    destruct (Herr e He) as [Hrest Ho]. split; [exact Hrest|].
    split; intros Hnf; rewrite Hnf in Ho; exact Ho.
  - pose proof (serviceplan_read_gone d tr o Hex) as Hr.
    destruct (ServicePlan.ParseAppServicePlanID (rd_Id d)) as [id|e0]; [|exact Hr].
    destruct Hr as (resp & err & rest & Htr & Herr).
    exists resp, err, rest. split; [exact Htr|]. intros e He.
    destruct (Herr e He) as [Hrest Ho]. split; [exact Hrest|].
    split; intros Hnf; rewrite Hnf in Ho; exact Ho.
  - pose proof (monitor_read_gone d tr o Hex) as Hr.
    destruct (Monitor.ParseMonitorDiagnosticId (rd_Id d)) as [id|e0]; [|exact Hr].
    destruct Hr as (resp & err & rest & Htr & Herr).
    exists resp, err, rest. split; [exact Htr|]. intros e He.
    destruct (Herr e He) as [Hrest Ho]. split; [exact Hrest|].
    split; intros Hnf; rewrite Hnf in Ho; exact Ho.
Qed.

(** A namespace, a plan and a diagnostic setting deleted outside Terraform:
    each Read asks for the resource of the state ID, is answered 404, and
    clears the ID. *)
Lemma read_removes_missing_resource_witness :
  let sb := run (Samples.sbRemote Samples.sbMissing)
              (ServiceBus.resourceServiceBusNamespaceRead (H:=Samples.sbHelpers)
                 Samples.sbExisting) tt in
  let sp := run Samples.spRemote
              (ServicePlan.Read (H:=Samples.spHelpers) Samples.spExisting) false in
  let m := run Samples.mRemote
             (Monitor.resourceMonitorDiagnosticSettingRead (H:=Samples.mHelpers)
                Samples.mExisting) 0 in
  (exists resp err rest,
     run_trace sb
     = Ev (ServiceBus.Get (ServiceBus.NewNamespaceID "sub1" "rg1" "ns1")) (resp, err) :: rest
     /\ forall e, err = Some e ->
          rest = []
          /\ (WasNotFound (ServiceBus.HttpResponse_ resp) = true ->
              run_outcome sb = Returned (Ok tt, withId "" Samples.sbExisting))
          /\ (WasNotFound (ServiceBus.HttpResponse_ resp) = false ->
              run_outcome sb
              = Returned (Err (Wrapf "retrieving %s: %+v" e), Samples.sbExisting)))
  /\ (exists resp err rest,
        run_trace sp
        = Ev (ServicePlan.Get (ServicePlan.NewAppServicePlanID "sub1" "rg1" "plan1"))
             (resp, err) :: rest
        /\ forall e, err = Some e ->
             rest = []
             /\ (WasNotFound (ServicePlan.HttpResponse_ resp) = true ->
                 run_outcome sp = Returned (Ok tt, withId "" Samples.spExisting))
             /\ (WasNotFound (ServicePlan.HttpResponse_ resp) = false ->
                 run_outcome sp
                 = Returned (Err (Wrapf "retrieving %s: %+v" e), Samples.spExisting)))
  /\ (exists resp err rest,
        run_trace m
        = Ev (Monitor.Get (Monitor.NewScopedDiagnosticSettingID Samples.mTarget "diag1"))
             (resp, err) :: rest
        /\ forall e, err = Some e ->
             rest = []
             /\ (WasNotFound (Monitor.HttpResponse_ resp) = true ->
                 run_outcome m = Returned (Ok tt, withId "" Samples.mExisting))
             /\ (WasNotFound (Monitor.HttpResponse_ resp) = false ->
                 run_outcome m
                 = Returned (Err (Wrapf "retrieving Monitor Diagnostics Setting %q for Resource %q: %+v" e),
                             Samples.mExisting)))
  /\ run_outcome sb = Returned (Ok tt, withId "" Samples.sbExisting)
  /\ run_outcome sp = Returned (Ok tt, withId "" Samples.spExisting)
  /\ run_outcome m = Returned (Ok tt, withId "" Samples.mExisting).
Proof.
  intros sb sp m.
  pose proof (read_removes_missing_resource Samples.sbHelpers Samples.spHelpers
                Samples.mHelpers) as (Hsb & Hsp & Hm).
  split; [|split; [|split]].
  - exact (Hsb Samples.sbExisting _ _ (run_exec _ _ _)).
  - exact (Hsp Samples.spExisting _ _ (run_exec _ _ _)).
  - exact (Hm Samples.mExisting _ _ (run_exec _ _ _)).
  - repeat split.
Defined.

End ReadGone.

(** ** The operating system of a service plan *)
Section ServicePlanOS.
Import ServicePlan.
Context `{Helpers}.

Ltac sp_run :=
  repeat first
    [ wp_step
    | progress cbn [negb Properties Sku newAppServicePlan set_Properties set_Sku]
    | progress unfold onProperties, onSku, SetID, MarkAsGone
    | wp_case ].

Lemma Create_os_type sub d servicePlan tr o :
  decoded (rd_config d) = Ok servicePlan ->
  exec (Create sub d) tr o ->
  forall payload, In (Some payload) (map sent_payload tr) ->
  exists props, Properties payload = Some props
    /\ Reserved props = Some (String.eqb (OSType servicePlan) OSTypeLinux)
    /\ HyperV props = Some (String.eqb (OSType servicePlan) OSTypeWindowsContainer).
Proof.
  intros Hdec Hex. wp_start tr o Hex.
  unfold Create, Decode.
  apply holds_mbind, holds_mbind. wp_prim. rewrite Hdec. wp_prim.
  wp_step. destruct x as [existing err].
  sp_run.
  all: intros payload Hin; cbn in Hin; intuition (try discriminate).
  all: match goal with Hp : Some _ = Some _ |- _ => injection Hp as <- end.
  all: eexists; split; [reflexivity|]; split; reflexivity.
Qed.

Lemma readState_os_type id model props :
  Properties model = Some props ->
  OSType (readState id (Some model))
  = if bool_decide (Reserved props = Some true) then OSTypeLinux
    else if bool_decide (HyperV props = Some true) then OSTypeWindowsContainer
    else OSTypeWindows.
Proof.
  intros Hp. unfold readState. rewrite Hp.
  destruct (Sku model) as [[c [n|] r]|]; cbn;
    destruct (bool_decide (Reserved props = Some true));
    destruct (bool_decide (HyperV props = Some true)); reflexivity.
Qed.

(** Read sends one request, the [Get] of the plan of the state ID, and
    writes the state it builds from a successful answer. *)
Lemma Read_writes_state d tr o :
  exec (Read d) tr o ->
  match ParseAppServicePlanID (rd_Id d) with
  | Err e => tr = [] /\ o = Returned (Err e, d)
  | Ok id =>
      exists resp err,
        tr = [Ev (Get id) (resp, err)]
        /\ (err = None ->
            exists d',
              o = Returned (Ok tt, d')
              /\ rd_written d' !! "os_type"
                 = Some (VString (OSType (readState id (Model_ resp)))))
  end.
Proof.
  intros Hex. wp_start tr o Hex. unfold Read.
  wp_step. apply holds_mbind.
  destruct (ParseAppServicePlanID (rd_Id d)) as [id|e0]; wp_prim.
  2:{ split; reflexivity. }
  wp_step. destruct x as [resp err]. destruct err as [e0|].
  - destruct (WasNotFound (HttpResponse_ resp)); unfold MarkAsGone; wp_prim;
      exists resp, (Some e0); (split; [reflexivity|]); intros [=].
  - unfold Encode. sp_run. exists resp, None. split; [reflexivity|]. intros _.
    eexists. split; [reflexivity|].
    cbn [rd_written withSet].
    rewrite !lookup_insert_ne by discriminate. apply lookup_insert_eq.
Qed.

(** C8: Create sends [Reserved = (os_type == Linux)] and
    [HyperV = (os_type == WindowsContainer)].  Read sends one request, the
    [Get] of the plan of the state ID, and from a successful answer with
    properties it derives [os_type] as Linux when [Reserved] is true, else
    WindowsContainer when [HyperV] is true, else Windows, and writes it to
    the state.  So the [os_type] derived from what Create sent is the one
    Create was given, for Linux, Windows and WindowsContainer, and a Read
    whose [Get] is answered with what Create sent writes that [os_type]. *)
Theorem service_plan_os_type_round_trip :
  (forall sub d servicePlan tr o payload,
     decoded (rd_config d) = Ok servicePlan ->
     exec (Create sub d) tr o ->
     In (Some payload) (map sent_payload tr) ->
     exists props, Properties payload = Some props
       /\ Reserved props = Some (String.eqb (OSType servicePlan) "Linux")
       /\ HyperV props = Some (String.eqb (OSType servicePlan) "WindowsContainer"))
  /\ (forall d id tr o,
     ParseAppServicePlanID (rd_Id d) = Ok id ->
     exec (Read d) tr o ->
     exists resp err,
       tr = [Ev (Get id) (resp, err)]
       /\ forall model props,
            err = None ->
            Model_ resp = Some model ->
            Properties model = Some props ->
            exists d',
              o = Returned (Ok tt, d')
              /\ rd_written d' !! "os_type"
                 = Some (VString
                           (if bool_decide (Reserved props = Some true) then "Linux"
                            else if bool_decide (HyperV props = Some true)
                                 then "WindowsContainer"
                                 else "Windows")))
  /\ (forall sub d servicePlan tr o payload id,
     decoded (rd_config d) = Ok servicePlan ->
     exec (Create sub d) tr o ->
     In (Some payload) (map sent_payload tr) ->
     In (OSType servicePlan) ["Linux"; "Windows"; "WindowsContainer"] ->
     OSType (readState id (Some payload)) = OSType servicePlan)
  /\ (forall sub d servicePlan tr o payload d0 id http o0,
     decoded (rd_config d) = Ok servicePlan ->
     exec (Create sub d) tr o ->
     In (Some payload) (map sent_payload tr) ->
     In (OSType servicePlan) ["Linux"; "Windows"; "WindowsContainer"] ->
     exec (Read d0)
       [Ev (Get id) ({| HttpResponse_ := http; Model_ := Some payload |}, None)] o0 ->
     exists d',
       o0 = Returned (Ok tt, d')
       /\ rd_written d' !! "os_type" = Some (VString (OSType servicePlan))).
Proof.
  assert (Hround : forall sub d servicePlan tr o payload id,
     decoded (rd_config d) = Ok servicePlan ->
     exec (Create sub d) tr o ->
     In (Some payload) (map sent_payload tr) ->
     In (OSType servicePlan) ["Linux"; "Windows"; "WindowsContainer"] ->
     OSType (readState id (Some payload)) = OSType servicePlan).
  { intros sub d servicePlan tr o payload id Hdec Hex Hin Hos.
    destruct (Create_os_type sub d servicePlan tr o Hdec Hex payload Hin)
      as (props & Hp & Hr & Hh).
    rewrite (readState_os_type id payload props Hp), Hr, Hh.
    simpl in Hos. destruct Hos as [<-|[<-|[<-|[]]]]; reflexivity. }
  split; [|split; [|split]].
  - intros sub d servicePlan tr o payload Hdec Hex Hin.
    exact (Create_os_type sub d servicePlan tr o Hdec Hex payload Hin).
  - intros d id tr o Hid Hex.
    pose proof (Read_writes_state d tr o Hex) as Hr. rewrite Hid in Hr.
    destruct Hr as (resp & err & Htr & Hok).
    exists resp, err. split; [exact Htr|].
    intros model props He Hm Hp.
    destruct (Hok He) as (d' & Ho & Hw).
    exists d'. split; [exact Ho|]. rewrite Hw, Hm.
    rewrite (readState_os_type id model props Hp). reflexivity.
  - exact Hround.
  - intros sub d servicePlan tr o payload d0 id http o0 Hdec Hex Hin Hos Hread.
    pose proof (Read_writes_state d0 _ o0 Hread) as Hr.
    destruct (ParseAppServicePlanID (rd_Id d0)) as [id'|e0];
      [|destruct Hr as [Hr _]; discriminate Hr].
    destruct Hr as (resp & err & Htr & Hok).
    assert (Hans : Some ({| HttpResponse_ := http; Model_ := Some payload |},
                         @None error) = Some (resp, err)).
    { change (head [Ev (Get id)
                       ({| HttpResponse_ := http; Model_ := Some payload |}, None)]
                ≫= get_answer = head [Ev (Get id') (resp, err)] ≫= get_answer).
      rewrite Htr. reflexivity. }
    injection Hans as <- <-.
    destruct (Hok eq_refl) as (d' & Ho & Hw).
    exists d'. split; [exact Ho|]. rewrite Hw. cbn [Model_].
    rewrite (Hround sub d servicePlan tr o payload id' Hdec Hex Hin Hos).
    reflexivity.
Qed.

End ServicePlanOS.

(** A Linux plan that does not exist yet: Create sends [Reserved = true];
    Read, run against a remote side that holds what Create sent, asks for
    the plan and writes Linux. *)
Lemma service_plan_os_type_round_trip_witness :
  let create := ServicePlan.Create (H:=Samples.spHelpers) "sub1" Samples.spNew in
  let r := run Samples.spRemote create false in
  let id := ServicePlan.NewAppServicePlanID "sub1" "rg1" "plan1" in
  exists payload,
    In (Some payload) (map ServicePlan.sent_payload (run_trace r))
    /\ let read := ServicePlan.Read (H:=Samples.spHelpers) Samples.spExisting in
       let r' := run (Samples.spHolds payload) read tt in
       run_trace r'
       = [Ev (ServicePlan.Get id)
             ({| ServicePlan.HttpResponse_ := Samples.okStatus;
                 ServicePlan.Model_ := Some payload |}, None)]
       /\ exists d',
            run_outcome r' = Returned (Ok tt, d')
            /\ rd_written d' !! "os_type" = Some (VString "Linux").
Proof.
  intros create r id.
  assert (Hex : exec create (run_trace r) (run_outcome r)) by apply run_exec.
  eexists. split; [cbn; right; left; reflexivity|].
  intros read r'.
  assert (Htr : run_trace r'
                = [Ev (ServicePlan.Get id)
                      ({| ServicePlan.HttpResponse_ := Samples.okStatus;
                          ServicePlan.Model_ := Some _ |}, None)]) by reflexivity.
  split; [exact Htr|].
  assert (Hread : exec read (run_trace r') (run_outcome r')) by apply run_exec.
  rewrite Htr in Hread.
  refine (proj2 (proj2 (proj2 (service_plan_os_type_round_trip (H:=Samples.spHelpers))))
            "sub1" Samples.spNew Samples.spModel _ _ _ Samples.spExisting id _ _
            eq_refl Hex _ _ Hread).
  - cbn. right. left. reflexivity.
  - left. reflexivity.
Defined.

(** ** Waiting for a state *)
Section Waiting.
Import StateChange.
Context {E : Type -> Type}.

(** Waiting ends with an error or with none, it does not panic, when the
    refresh function does not. *)
Lemma waitLoop_returns (conf : StateChangeConf E) polls :
  holds (Refresh conf) (fun _ o => exists r, o = Returned r) ->
  forall notfoundTick targetOccurence,
    holds (waitLoop conf polls notfoundTick targetOccurence)
      (fun _ o => exists e, o = Returned e).
Proof.
  intros Hr. induction polls as [|polls IH]; intros nf occ; cbn [waitLoop].
  - simpl. eauto.
  - apply holds_pbind. eapply holds_mono; [exact Hr|].
    intros tr o [r ->]. cbn beta iota.
    repeat lazymatch goal with
    | |- holds (match ?x with _ => _ end) _ => destruct x
    | |- holds (if ?b then _ else _) _ => destruct b
    end;
      first [ solve [simpl; eauto]
            | eapply holds_mono; [apply IH|]; intros ? ? [e ->]; eauto ].
Qed.

End Waiting.

(** ** The read-back at the end of Create *)
Section ReadBack.

Lemma createNetworkRuleSet_keeps_state `{ServiceBus.Helpers} id input d tr o :
  exec (ServiceBus.createNetworkRuleSetForNamespace id input d) tr o ->
  exists r, o = Returned (r, d).
Proof.
  intros Hex. wp_start tr o Hex. unfold ServiceBus.createNetworkRuleSetForNamespace.
  repeat first [ wp_step | wp_case ]; eexists; reflexivity.
Qed.

Lemma silent_expandEncryption `{ServiceBus.Helpers} input :
  silent (liftP (E:=ServiceBus.Op) (Config:=ServiceBus.Config)
            (ServiceBus.expandServiceBusNamespaceEncryption input)).
Proof.
  apply silent_liftP. unfold ServiceBus.expandServiceBusNamespaceEncryption.
  destruct input as [|[v|] ?]; [eauto | | eauto].
  destruct (ServiceBus.ParseOptionallyVersionedNestedItemID _); eauto.
Qed.

(** An exit before any create request was sent or had succeeded. *)
Ltac no_create :=
  intros; try (let Hc := fresh "Hc" in intros Hc);
  match goal with Hc : existsb _ _ = true |- _ => discriminate Hc end.

Ltac sb_silent :=
  repeat first
    [ apply silent_expandEncryption
    | silent_step
    | progress unfold ServiceBus.onProperties, ServiceBus.onSku,
        ServiceBus.checkCapacity ].

Lemma servicebus_create_read_back `{ServiceBus.Helpers} sub d tr o :
  exec (ServiceBus.resourceServiceBusNamespaceCreate sub d) tr o ->
  let id := ServiceBus.NewNamespaceID sub
              (ServiceBus.resource_group_name (rd_config d))
              (ServiceBus.name (rd_config d)) in
  let d1 := withId (ServiceBus.NamespaceId_ID id) d in
  existsb ServiceBus.created_ok tr = true ->
  (exists pre suf,
     tr = pre ++ suf /\ exec (ServiceBus.resourceServiceBusNamespaceRead d1) suf o)
  \/ (exists pre trn e,
        tr = pre ++ trn
        /\ exec (ServiceBus.createNetworkRuleSetForNamespace id
                   (ServiceBus.network_rule_set (rd_config d)) d1)
             trn (Returned (Err e, d1))
        /\ o = Returned (Err e, d1)).
Proof.
  intros Hex id d1. wp_start tr o Hex.
  unfold ServiceBus.resourceServiceBusNamespaceCreate.
  do 6 wp_step. destruct x as [existing err].
  do 14 (apply holds_mbind_silent;
    [ solve [sb_silent] | intros ?
    | no_create | no_create ]).
  wp_step. apply holds_mbind. destruct x as [e|]; wp_prim.
  { no_create. }
  do 2 wp_step. apply holds_mbind. apply exec_holds. intros trn on Hn.
  destruct (createNetworkRuleSet_keeps_state _ _ _ _ _ Hn) as [r ->].
  destruct r as [[]|e].
  - apply exec_holds. intros suf o' Hr _. left.
    eexists (_ :: _ :: trn), suf. split; [reflexivity | exact Hr].
  - intros _. right. eexists [_; _], trn, e.
    split; [reflexivity | split; [exact Hn | reflexivity]].
Qed.

Lemma serviceplan_create_no_read_back `{ServicePlan.Helpers} sub d tr o :
  exec (ServicePlan.Create sub d) tr o ->
  length (filter (fun ev => is_Some (ServicePlan.get_answer ev)) tr) <= 1
  /\ forall servicePlan,
       ServicePlan.decoded (rd_config d) = Ok servicePlan ->
       existsb ServicePlan.created_ok tr = true ->
       length tr = 2
       /\ o = Returned
               (Ok tt,
                withId (ServicePlan.AppServicePlanId_ID
                          (ServicePlan.NewAppServicePlanID sub
                             (ServicePlan.ResourceGroup servicePlan)
                             (ServicePlan.Name servicePlan))) d).
Proof.
  intros Hex. wp_start tr o Hex.
  unfold ServicePlan.Create, ServicePlan.Decode.
  apply holds_mbind, holds_mbind. wp_prim.
  destruct (ServicePlan.decoded (rd_config d)) as [servicePlan|e0]; wp_prim.
  2:{ split; [simpl; lia | intros ? [=]]. }
  wp_step. destruct x as [existing err].
  do 5 (apply holds_mbind_silent;
    [ solve [repeat first [silent_step
                          | progress unfold ServicePlan.onProperties, ServicePlan.onSku]]
    | intros ?
    | intros; split; [simpl; lia | intros ? _ Hc; discriminate Hc]
    | intros; split; [simpl; lia | intros ? _ Hc; discriminate Hc] ]).
  wp_step. apply holds_mbind. destruct x as [e|]; wp_prim.
  { split; [simpl; lia | intros ? _ Hc; discriminate Hc]. }
  unfold ServicePlan.SetID. wp_prim.
  split; [simpl; lia|]. intros sp [= <-] _. split; reflexivity.
Qed.

Lemma monitor_refresh_returns id :
  holds (Monitor.monitorDiagnosticSettingRefreshFunc id)
    (fun _ o => exists r, o = Returned r).
Proof.
  unfold Monitor.monitorDiagnosticSettingRefreshFunc. cbn [holds].
  intros [res [e|]]; [destruct (WasNotFound _)|]; simpl; eauto.
Qed.

Lemma monitor_create_read_back `{Monitor.Helpers} deadline d tr o :
  exec (Monitor.resourceMonitorDiagnosticSettingCreate deadline d) tr o ->
  let id := Monitor.NewScopedDiagnosticSettingID
              (Monitor.target_resource_id (rd_config d))
              (Monitor.name (rd_config d)) in
  let d1 := withId (Monitor.resourceIdOf id) d in
  existsb Monitor.created_ok tr = true ->
  match deadline with
  | None =>
      o = Returned
            (Err (Errorf "internal error: could not retrieve context deadline for %s"), d)
  | Some _ =>
      (exists pre suf,
         tr = pre ++ suf /\ exec (Monitor.resourceMonitorDiagnosticSettingRead d1) suf o)
      \/ (exists e,
            o = Returned
                  (Err (Wrapf "waiting for Monitor Diagnostic Setting %q for Resource %q to become ready: %s" e), d))
  end.
Proof.
  intros Hex id d1. wp_start tr o Hex.
  unfold Monitor.resourceMonitorDiagnosticSettingCreate.
  do 3 wp_step. destruct x as [existing err].
  do 2 (apply holds_mbind_silent;
    [ solve [repeat silent_step] | intros ?
    | no_create | no_create ]).
  wp_step.
  apply holds_mbind_silent;
    [ solve [repeat silent_step] | intros [logs hasEnabledLogs]
    | no_create | no_create ].
  wp_step.
  match goal with |- holds ((let '(_, _) := ?x in _) _) _ => destruct x as [metrics0 has0] end.
  wp_step.
  match goal with |- holds ((let '(_, _) := ?x in _) _) _ => destruct x as [metrics has] end.
  apply holds_mbind_silent;
    [ solve [repeat silent_step] | intros ?
    | no_create | no_create ].
  do 2 wp_step. destruct x as [resp cerr].
  apply holds_mbind. destruct cerr as [e|]; wp_prim.
  { no_create. }
  destruct deadline as [polls|]; [|wp_prim; intros _; reflexivity].
  apply holds_mbind. unfold Monitor.waitFor. apply holds_mbind, holds_liftP.
  eapply holds_mono.
  { apply waitLoop_returns. apply monitor_refresh_returns. }
  intros trw ow [werr ->]. apply holds_check.
  destruct werr as [e|].
  - intros _. right. exists e. reflexivity.
  - cbn beta iota. wp_step. apply exec_holds. intros suf o' Hr _. left.
    eexists (_ :: _ :: trw), suf. split; [|exact Hr].
    cbn [app]. rewrite ?app_nil_r, ?app_nil_l. reflexivity.
Qed.

(** C4 (as amended): the Create of the ServiceBus namespace and of the
    diagnostic setting end with a read-back.  Once the create request has
    succeeded, the namespace's Create stores the ID and applies the network
    rule set, the diagnostic setting's Create waits for the setting to
    appear and stores the ID; unless that step fails, what Create then
    sends and returns is what Read sends and returns on the state holding
    the new ID.  The Create function of the service plan sends nothing
    after its create request: it stores the ID and returns no error. *)
Theorem create_read_back
    (Hsb : ServiceBus.Helpers) (Hsp : ServicePlan.Helpers) (Hm : Monitor.Helpers) :
  (forall sub d tr o,
     exec (ServiceBus.resourceServiceBusNamespaceCreate sub d) tr o ->
     existsb ServiceBus.created_ok tr = true ->
     let id := ServiceBus.NewNamespaceID sub
                 (ServiceBus.resource_group_name (rd_config d))
                 (ServiceBus.name (rd_config d)) in
     let d1 := withId (ServiceBus.NamespaceId_ID id) d in
     (exists pre suf,
        tr = pre ++ suf /\ exec (ServiceBus.resourceServiceBusNamespaceRead d1) suf o)
     \/ (exists pre trn e,
           tr = pre ++ trn
           /\ exec (ServiceBus.createNetworkRuleSetForNamespace id
                      (ServiceBus.network_rule_set (rd_config d)) d1)
                trn (Returned (Err e, d1))
           /\ o = Returned (Err e, d1)))
  /\ (forall deadline d tr o,
     exec (Monitor.resourceMonitorDiagnosticSettingCreate deadline d) tr o ->
     existsb Monitor.created_ok tr = true ->
     let id := Monitor.NewScopedDiagnosticSettingID
                 (Monitor.target_resource_id (rd_config d))
                 (Monitor.name (rd_config d)) in
     let d1 := withId (Monitor.resourceIdOf id) d in
     match deadline with
     | None =>
         o = Returned
               (Err (Errorf "internal error: could not retrieve context deadline for %s"),
                d)
     | Some _ =>
         (exists pre suf,
            tr = pre ++ suf
            /\ exec (Monitor.resourceMonitorDiagnosticSettingRead d1) suf o)
         \/ (exists e,
               o = Returned
                     (Err (Wrapf "waiting for Monitor Diagnostic Setting %q for Resource %q to become ready: %s" e), d))
     end)
  /\ (forall sub d servicePlan tr o,
     ServicePlan.decoded (rd_config d) = Ok servicePlan ->
     exec (ServicePlan.Create sub d) tr o ->
     length (filter (fun ev => is_Some (ServicePlan.get_answer ev)) tr) <= 1
     /\ (existsb ServicePlan.created_ok tr = true ->
         length tr = 2
         /\ o = Returned
                 (Ok tt,
                  withId (ServicePlan.AppServicePlanId_ID
                            (ServicePlan.NewAppServicePlanID sub
                               (ServicePlan.ResourceGroup servicePlan)
                               (ServicePlan.Name servicePlan))) d))).
Proof.
  split; [|split].
  - intros sub d tr o Hex Hc. exact (servicebus_create_read_back sub d tr o Hex Hc).
  - intros deadline d tr o Hex Hc.
    exact (monitor_create_read_back deadline d tr o Hex Hc).
  - intros sub d servicePlan tr o Hdec Hex.
    destruct (serviceplan_create_no_read_back sub d tr o Hex) as [Hget Hok].
    split; [exact Hget|]. intros Hc. exact (Hok servicePlan Hdec Hc).
Qed.

(** A new namespace: the create request succeeds and Create goes on as
    Read does. *)
Lemma create_read_back_witness :
  let p := ServiceBus.resourceServiceBusNamespaceCreate (H:=Samples.sbHelpers)
             "sub1" Samples.sbNew in
  let r := run (Samples.sbRemote Samples.sbMissing) p tt in
  let d1 := withId Samples.sbId Samples.sbNew in
  exec p (run_trace r) (run_outcome r)
  /\ existsb ServiceBus.created_ok (run_trace r) = true
  /\ ((exists pre suf,
         run_trace r = pre ++ suf
         /\ exec (ServiceBus.resourceServiceBusNamespaceRead (H:=Samples.sbHelpers) d1)
              suf (run_outcome r))
      \/ (exists pre trn e,
            run_trace r = pre ++ trn
            /\ exec (ServiceBus.createNetworkRuleSetForNamespace
                       (ServiceBus.NewNamespaceID "sub1" "rg1" "ns1") [] d1)
                 trn (Returned (Err e, d1))
            /\ run_outcome r = Returned (Err e, d1))).
Proof.
  intros p r d1.
  assert (Hex : exec p (run_trace r) (run_outcome r)) by apply run_exec.
  assert (Hc : existsb ServiceBus.created_ok (run_trace r) = true) by reflexivity.
  split; [exact Hex|]. split; [exact Hc|].
  exact (proj1 (create_read_back Samples.sbHelpers Samples.spHelpers Samples.mHelpers)
           "sub1" Samples.sbNew _ _ Hex Hc).
Defined.

(** C4 (as stated, refuted): on a remote side whose [Get] fails once the
    plan exists, the Create function of the service plan returns no error
    after two requests (the exists-check and the create request), while Read
    on the state it leaves returns an error: Create did not return what Read
    returns. *)
Lemma service_plan_create_returns_without_read :
  let r := run Samples.spRemote
             (ServicePlan.Create (H:=Samples.spHelpers) "sub1" Samples.spNew) false in
  let d1 := withId Samples.spId Samples.spNew in
  run_outcome r = Returned (Ok tt, d1)
  /\ length (run_trace r) = 2
  /\ run_outcome (run Samples.spRemote
                    (ServicePlan.Read (H:=Samples.spHelpers) d1) (run_world r))
     = Returned (Err (Wrapf "retrieving %s: %+v" (Remote "500 Internal Server Error")),
                 d1).
Proof. repeat split. Qed.

End ReadBack.

(** ** Delete waits for the resource to be gone *)
Section DeleteWaits.

Lemma servicebus_delete_order `{ServiceBus.Helpers} d tr o :
  exec (ServiceBus.resourceServiceBusNamespaceDelete d) tr o ->
  match ServiceBus.ParseNamespaceID (rd_Id d) with
  | Err e => tr = [] /\ o = Returned (Err e, d)
  | Ok id =>
      let wait := ServiceBus.waitForNamespaceStatusToBeReady id
                    (ServiceBus.timeout_update (rd_config d)) in
      (exists e,
         tr = [Ev wait (Some e)]
         /\ o = Returned
                  (Err (Wrapf "waiting for serviceBus namespace %s state to be ready error: %+v" e), d))
      \/ (exists e,
            tr = [Ev wait None; Ev (ServiceBus.DeleteThenPoll id) (Some e)]
            /\ o = Returned (Err (Wrapf "deleting %s: %+v" e), d))
      \/ (tr = [Ev wait None; Ev (ServiceBus.DeleteThenPoll id) None]
          /\ o = Returned (Ok tt, d))
  end.
Proof.
  intros Hex. wp_start tr o Hex.
  unfold ServiceBus.resourceServiceBusNamespaceDelete.
  wp_step. apply holds_mbind.
  destruct (ServiceBus.ParseNamespaceID (rd_Id d)) as [id|e0]; wp_prim.
  2:{ split; reflexivity. }
  do 2 wp_step. apply holds_mbind. destruct x as [e|]; wp_prim.
  { left. exists e. split; reflexivity. }
  wp_step. destruct x as [e|]; wp_prim.
  - right. left. exists e. split; reflexivity.
  - right. right. split; reflexivity.
Qed.

Lemma waitLoop_disappear id deadline polls :
  forall occ, occ < 5 ->
    holds (StateChange.waitLoop (Monitor.disappearConf id deadline) polls 0 occ)
      (Monitor.disappeared id deadline polls occ).
Proof.
  induction polls as [|polls IH]; intros occ Hocc.
  - simpl. split; [reflexivity|]. split; [constructor|]. right. left. split; reflexivity.
  - cbn [StateChange.waitLoop Monitor.disappearConf StateChange.Refresh
         Monitor.monitorDiagnosticSettingRefreshFunc pbind holds].
    intros [res [e|]]; [destruct (WasNotFound (Monitor.HttpResponse_ res)) eqn:Hnf|];
      cbn -[StateChange.waitLoop Nat.eqb Monitor.disappeared].
    + change (StateChange.defaulted 5 1) with 5.
      assert (Habs0 : Monitor.saw_absent_of id (Ev (Monitor.Get id) (res, Some e)))
        by (exists res, e; split; [reflexivity | exact Hnf]).
      destruct (Nat.eqb 5 (S occ)) eqn:E5.
      * apply Nat.eqb_eq in E5. cbn [holds]. split; [simpl; lia|].
        split; [constructor; [eexists; reflexivity | constructor]|]. left.
        split; [reflexivity|]. eexists [], [_]. split; [reflexivity|].
        split; [constructor; [exact Habs0 | constructor]|].
        right. split; [reflexivity | simpl; lia].
      * apply Nat.eqb_neq in E5.
        eapply holds_mono; [apply (IH (S occ)); lia|].
        intros tr o (Hlen & Hpoll & Hcase). split; [simpl; lia|].
        split; [constructor; [eexists; reflexivity | exact Hpoll]|].
        destruct Hcase as [[-> (pre & last & -> & Habs & Hl)]|[[-> Hl]|[e' ->]]].
        -- left. split; [reflexivity|]. destruct Hl as [Hl|[-> Hl]].
           ++ eexists (_ :: pre), last. split; [reflexivity|]. split; [exact Habs|].
              left. exact Hl.
           ++ eexists [], (_ :: last). split; [reflexivity|].
              split; [constructor; [exact Habs0 | exact Habs]|]. right.
              split; [reflexivity | simpl; lia].
        -- right. left. split; [reflexivity | simpl; lia].
        -- right. right. exists e'. reflexivity.
    + split; [simpl; lia|]. split; [constructor; [eexists; reflexivity | constructor]|].
      right. right. exists e. reflexivity.
    + eapply holds_mono; [apply (IH 0); lia|].
      intros tr o (Hlen & Hpoll & Hcase). split; [simpl; lia|].
      split; [constructor; [eexists; reflexivity | exact Hpoll]|].
      destruct Hcase as [[-> (pre & last & -> & Habs & Hl)]|[[-> Hl]|[e' ->]]].
      * left. split; [reflexivity|].
        eexists (_ :: pre), last. split; [reflexivity|]. split; [exact Habs|].
        left. destruct Hl as [Hl|[_ Hl]]; lia.
      * right. left. split; [reflexivity | simpl; lia].
      * right. right. exists e'. reflexivity.
Qed.

Lemma monitor_delete_waits deadline d tr o :
  exec (Monitor.resourceMonitorDiagnosticSettingDelete deadline d) tr o ->
  match Monitor.ParseMonitorDiagnosticId (rd_Id d) with
  | Err e => tr = [] /\ o = Returned (Err e, d)
  | Ok id =>
      exists resp derr polls,
        tr = Ev (Monitor.Delete id) (resp, derr) :: polls
        /\ match derr with
           | Some e =>
               WasNotFound (Monitor.HttpResponse_ resp) = false ->
               polls = []
               /\ o = Returned
                        (Err (Wrapf "deleting Monitor Diagnostics Setting %q for Resource %q: %+v" e), d)
           | None => True
           end
        /\ (derr = None \/ WasNotFound (Monitor.HttpResponse_ resp) = true ->
            match deadline with
            | None =>
                polls = []
                /\ o = Returned
                         (Err (Errorf "internal error: could not retrieve context deadline for %s"), d)
            | Some n =>
                length polls <= n
                /\ Forall (Monitor.is_poll_of id) polls
                /\ ((o = Returned (Ok tt, d)
                     /\ exists pre last,
                          polls = pre ++ last /\ length last = 5
                          /\ Forall (Monitor.saw_absent_of id) last)
                    \/ (o = Returned
                              (Err (Wrapf "waiting for Monitor Diagnostic Setting %q for Resource %q to disappear: %s"
                                      StateChange.TimeoutError), d)
                        /\ length polls = n)
                    \/ (exists e,
                          o = Returned
                                (Err (Wrapf "waiting for Monitor Diagnostic Setting %q for Resource %q to disappear: %s"
                                        (Wrapf "issuing read request in monitorDiagnosticSettingRefreshFunc: %s" e)), d)))
            end)
  end.
Proof.
  intros Hex. wp_start tr o Hex.
  unfold Monitor.resourceMonitorDiagnosticSettingDelete.
  wp_step. apply holds_mbind.
  destruct (Monitor.ParseMonitorDiagnosticId (rd_Id d)) as [id|e0]; wp_prim.
  2:{ split; reflexivity. }
  wp_step. destruct x as [resp derr].
  assert (Hwait :
    holds (match deadline with
           | Some deadline0 =>
               Monitor.waitFor "waiting for Monitor Diagnostic Setting %q for Resource %q to disappear: %s"
                 {| StateChange.Pending := ["Exists"];
                    StateChange.Target := ["NotFound"];
                    StateChange.Refresh := Monitor.monitorDiagnosticSettingRefreshFunc id;
                    StateChange.ContinuousTargetOccurence := 5;
                    StateChange.NotFoundChecks := 0;
                    StateChange.Timeout := deadline0 |}
           | None =>
               fail (Errorf "internal error: could not retrieve context deadline for %s")
           end d)
      (fun polls o =>
         match deadline with
         | None =>
             polls = []
             /\ o = Returned
                      (Err (Errorf "internal error: could not retrieve context deadline for %s"), d)
         | Some n =>
             length polls <= n
             /\ Forall (Monitor.is_poll_of id) polls
             /\ ((o = Returned (Ok tt, d)
                  /\ exists pre last,
                       polls = pre ++ last /\ length last = 5
                       /\ Forall (Monitor.saw_absent_of id) last)
                 \/ (o = Returned
                           (Err (Wrapf "waiting for Monitor Diagnostic Setting %q for Resource %q to disappear: %s"
                                   StateChange.TimeoutError), d)
                     /\ length polls = n)
                 \/ (exists e,
                       o = Returned
                             (Err (Wrapf "waiting for Monitor Diagnostic Setting %q for Resource %q to disappear: %s"
                                     (Wrapf "issuing read request in monitorDiagnosticSettingRefreshFunc: %s" e)), d)))
         end)).
  { destruct deadline as [n|]; [|wp_prim; split; reflexivity].
    unfold Monitor.waitFor. apply holds_mbind, holds_liftP.
    eapply holds_mono; [exact (waitLoop_disappear id n n 0 ltac:(lia))|].
    intros polls ow (Hlen & Hpoll & Hcase). rewrite ?app_nil_r.
    destruct Hcase as [[-> (pre & last & -> & Habs & Hl)]|[[-> Hl]|[e' ->]]];
      apply holds_check; cbn beta iota; rewrite ?app_nil_r;
      (split; [exact Hlen|]); (split; [exact Hpoll|]).
    - left. split; [reflexivity|]. exists pre, last. split; [reflexivity|].
      split; [|exact Habs]. destruct Hl as [Hl|[_ Hl]]; lia.
    - right. left. split; [reflexivity | exact Hl].
    - right. right. exists e'. reflexivity. }
  destruct derr as [e|]; [destruct (WasNotFound (Monitor.HttpResponse_ resp)) eqn:Hnf|];
    cbn [negb].
  - apply holds_mbind. wp_prim. eapply holds_mono; [exact Hwait|].
    intros polls o' Hp. exists resp, (Some e), polls.
    split; [reflexivity|]. split; [congruence|]. intros _. exact Hp.
  - wp_step. exists resp, (Some e), []. split; [reflexivity|].
    split; [intros _; split; reflexivity|]. intros [Hx|Hx]; congruence.
  - apply holds_mbind. wp_prim. eapply holds_mono; [exact Hwait|].
    intros polls o' Hp. exists resp, None, polls.
    split; [reflexivity|]. split; [exact I|]. intros _. exact Hp.
Qed.

(** C6: the namespace's Delete sends its delete request only after the
    wait for the namespace to be ready has returned, and returns no error
    only when the polled delete has; the diagnostic setting's Delete goes on
    after a delete request answered NotFound as after one that succeeded,
    and every request it sends after the delete request is a [Get] of the
    setting of the state ID; it returns no error only after five such polls
    in a row, within the deadline, have seen that setting absent, and it
    returns the error of the wait when the deadline is reached first or a
    poll fails. *)
Theorem delete_waits_for_disappearance (Hsb : ServiceBus.Helpers) :
  (forall d id tr o,
     ServiceBus.ParseNamespaceID (rd_Id d) = Ok id ->
     exec (ServiceBus.resourceServiceBusNamespaceDelete d) tr o ->
     let wait := ServiceBus.waitForNamespaceStatusToBeReady id
                   (ServiceBus.timeout_update (rd_config d)) in
     (exists e,
        tr = [Ev wait (Some e)]
        /\ o = Returned
                 (Err (Wrapf "waiting for serviceBus namespace %s state to be ready error: %+v" e), d))
     \/ (exists e,
           tr = [Ev wait None; Ev (ServiceBus.DeleteThenPoll id) (Some e)]
           /\ o = Returned (Err (Wrapf "deleting %s: %+v" e), d))
     \/ (tr = [Ev wait None; Ev (ServiceBus.DeleteThenPoll id) None]
         /\ o = Returned (Ok tt, d)))
  /\ (forall deadline d id tr o,
     Monitor.ParseMonitorDiagnosticId (rd_Id d) = Ok id ->
     exec (Monitor.resourceMonitorDiagnosticSettingDelete deadline d) tr o ->
     exists resp derr polls,
       tr = Ev (Monitor.Delete id) (resp, derr) :: polls
       /\ match derr with
          | Some e =>
              WasNotFound (Monitor.HttpResponse_ resp) = false ->
              polls = []
              /\ o = Returned
                       (Err (Wrapf "deleting Monitor Diagnostics Setting %q for Resource %q: %+v" e), d)
          | None => True
          end
       /\ (derr = None \/ WasNotFound (Monitor.HttpResponse_ resp) = true ->
           match deadline with
           | None =>
               polls = []
               /\ o = Returned
                        (Err (Errorf "internal error: could not retrieve context deadline for %s"), d)
           | Some n =>
               length polls <= n
               /\ Forall (Monitor.is_poll_of id) polls
               /\ ((o = Returned (Ok tt, d)
                    /\ exists pre last,
                         polls = pre ++ last /\ length last = 5
                         /\ Forall (Monitor.saw_absent_of id) last)
                   \/ (o = Returned
                             (Err (Wrapf "waiting for Monitor Diagnostic Setting %q for Resource %q to disappear: %s"
                                     StateChange.TimeoutError), d)
                       /\ length polls = n)
                   \/ (exists e,
                         o = Returned
                               (Err (Wrapf "waiting for Monitor Diagnostic Setting %q for Resource %q to disappear: %s"
                                       (Wrapf "issuing read request in monitorDiagnosticSettingRefreshFunc: %s" e)), d)))
           end)).
Proof.
  split.
  - intros d id tr o Hid Hex.
    pose proof (servicebus_delete_order d tr o Hex) as Hd.
    rewrite Hid in Hd. exact Hd.
  - intros deadline d id tr o Hid Hex.
    pose proof (monitor_delete_waits deadline d tr o Hex) as Hd.
    rewrite Hid in Hd. exact Hd.
Qed.

(** A setting that two polls still see after its deletion: Delete returns
    after seven polls of that setting, the last five of which saw it
    absent. *)
Lemma delete_waits_for_disappearance_witness :
  let p := Monitor.resourceMonitorDiagnosticSettingDelete (Some 10) Samples.mExisting in
  let r := run Samples.mRemote p 2 in
  exec p (run_trace r) (run_outcome r)
  /\ run_outcome r = Returned (Ok tt, Samples.mExisting)
  /\ Forall (Monitor.is_poll_of
               (Monitor.NewScopedDiagnosticSettingID Samples.mTarget "diag1"))
       (tail (run_trace r))
  /\ exists pre last,
       tail (run_trace r) = pre ++ last /\ length pre = 2 /\ length last = 5
       /\ Forall (Monitor.saw_absent_of
                    (Monitor.NewScopedDiagnosticSettingID Samples.mTarget "diag1"))
            last.
Proof.
  intros p r.
  assert (Hex : exec p (run_trace r) (run_outcome r)) by apply run_exec.
  assert (Ho : run_outcome r = Returned (Ok tt, Samples.mExisting)) by reflexivity.
  split; [exact Hex|]. split; [exact Ho|].
  destruct (proj2 (delete_waits_for_disappearance Samples.sbHelpers)
              (Some 10) Samples.mExisting
              (Monitor.NewScopedDiagnosticSettingID Samples.mTarget "diag1")
              _ _ eq_refl Hex)
    as (resp & derr & polls & Htr & _ & Hwait).
  assert (Hans : head (run_trace r) ≫= Monitor.delete_answer = Some (resp, derr))
    by (rewrite Htr; reflexivity).
  assert (Hpolls : tail (run_trace r) = polls) by (rewrite Htr; reflexivity).
  cbv in Hans. injection Hans as <- <-.
  destruct (Hwait (or_intror eq_refl))
    as (_ & Hall & [[_ (pre & last & Hsplit & Hl & Habs)]|[[Hx _]|[e Hx]]]).
  - rewrite Hpolls. split; [exact Hall|].
    exists pre, last. split; [exact Hsplit|].
    split; [|split; [exact Hl | exact Habs]].
    assert (Hlen : length (tail (run_trace r)) = 7) by reflexivity.
    rewrite Hpolls, Hsplit, length_app in Hlen. lia.
  - rewrite Ho in Hx. discriminate Hx.
  - rewrite Ho in Hx. discriminate Hx.
Defined.

End DeleteWaits.

(** ** What Update sends *)
Lemma never_In {E A} (f : Event E -> option A) (g : Event E -> bool) tr x :
  (forall ev, g ev = false -> f ev = None) ->
  existsb g tr = false -> ~ In (Some x) (map f tr).
Proof.
  intros Hfg. induction tr as [|ev tr IH]; simpl; [tauto|].
  intros Hn. apply orb_false_iff in Hn as [Hev Htr].
  intros [Hx|Hx]; [rewrite (Hfg ev Hev) in Hx; discriminate | exact (IH Htr Hx)].
Qed.

Ltac never_run :=
  repeat first
    [ apply never_quiet; solve [repeat first [quiet_step | silent_step]]
    | apply never_call; reflexivity
    | apply never_mbind; [|intros ? ?]
    | match goal with
      | |- holds ((let '(_, _) := ?x in _) _) _ => destruct x
      | |- holds ((match ?x with _ => _ end) _) _ => destruct x
      | |- holds ((if ?x then _ else _) _) _ => destruct x
      | |- holds (when ?x _ _) _ => destruct x; unfold when
      end ].

Ltac no_payload :=
  intros;
  match goal with Hin : In _ (map _ _) |- _ => cbn in Hin; intuition discriminate end.

(** One [if d.HasChange(key) { ... }] block: the condition, then the block
    as a silent statement whose result keeps what [kept] asks for. *)
Ltac kept_finish :=
  destruct_and!; repeat split; intros; try contradiction;
  repeat match goal with
         | Hx : ?P -> _, Hp : ?P |- _ => specialize (Hx Hp)
         end;
  destruct_and?; try assumption; try congruence.

Section ServiceBusUpdate.
Import ServiceBus.
Context `{Helpers}.

Ltac sb_silent :=
  repeat first
    [ apply silent_expandEncryption
    | silent_step
    | progress unfold onProperties, onSku, checkCapacity ].

Lemma servicebus_kept_refl changed model : kept changed model model.
Proof. unfold kept. repeat split; auto. Qed.

Ltac kept_step :=
  let a := fresh "a" in let Heq := fresh "Heq" in
  intros a Heq;
  match type of Heq with
  | (if bool_decide ?P then _ else _) _ = _ =>
      let Hch := fresh "Hch" in
      destruct (bool_decide P) eqn:Hch;
      [ apply bool_decide_eq_true in Hch;
        unfold mbind, M_bind, d_Get, onProperties, onSku, checkCapacity, liftP,
          expandServiceBusNamespaceEncryption, mret, M_ret, fail, panic in Heq;
        cbn [pbind fst snd] in Heq;
        repeat match type of Heq with
               | context [match ?x with _ => _ end] =>
                   destruct x eqn:?; cbn [pbind fst snd] in Heq
               end;
        try discriminate Heq;
        injection Heq as <-
      | injection Heq as <-; assumption ]
  end.

Ltac kept_solve :=
  match goal with Hk : kept _ _ _ |- _ =>
    unfold kept in *;
    cbn [ns_Id Identity Location ns_Name Properties Sku SystemData Tags ns_Type
         set_Identity set_Sku set_Tags set_Properties set_PublicNetworkAccess
         set_Encryption set_DisableLocalAuth set_MinimumTlsVersion set_Capacity
         fmap option_fmap option_map
         DisableLocalAuth Encryption_ MinimumTlsVersion PremiumMessagingPartitions
         PublicNetworkAccess ServiceBusEndpoint props_rest Capacity sku_Name Tier] in *;
    repeat match goal with
           | Hx : Properties ?p = Some _ |- _ =>
               first [progress (rewrite Hx in Hk) | progress (rewrite Hx)]
           | Hx : Sku ?p = Some _ |- _ =>
               first [progress (rewrite Hx in Hk) | progress (rewrite Hx)]
           end;
    cbn [fmap option_fmap option_map] in Hk |- *;
    kept_finish
  end.

Ltac update_step :=
  wp_step;
  match goal with Hk : kept ?c ?m _ |- _ =>
    apply (holds_mbind_inv (kept c m));
      [ solve [sb_silent] | kept_step; kept_solve
      | clear Hk; intros ? Hk | no_payload | no_payload ]
  end.

Lemma servicebus_Read_never d :
  holds (resourceServiceBusNamespaceRead d) (never sends_payload).
Proof. unfold resourceServiceBusNamespaceRead. never_run. Qed.

Lemma createNetworkRuleSet_never id input d :
  holds (createNetworkRuleSetForNamespace id input d) (never sends_payload).
Proof. unfold createNetworkRuleSetForNamespace. never_run. Qed.

Lemma resetNetworkRuleSet_never id d :
  holds (resetNetworkRuleSetForNamespace id d) (never sends_payload).
Proof. unfold resetNetworkRuleSetForNamespace. never_run. Qed.

Lemma servicebus_update_kept d tr o :
  exec (resourceServiceBusNamespaceUpdate d) tr o ->
  forall existing model payload,
    head tr ≫= get_answer = Some (existing, None) ->
    Model_ existing = Some model ->
    In (Some payload) (map sent_payload tr) ->
    kept (rd_changed d) model payload.
Proof.
  intros Hex. wp_start tr o Hex.
  unfold resourceServiceBusNamespaceUpdate.
  wp_step. apply holds_mbind.
  destruct (ParseNamespaceID (rd_Id d)) as [id|e0]; wp_prim.
  2:{ intros ? ? ? Hhd. discriminate Hhd. }
  wp_step. destruct x as [existing err].
  apply holds_mbind. destruct err as [e|]; wp_prim.
  { intros ? ? ? Hhd. discriminate Hhd. }
  destruct (Model_ existing) as [model|] eqn:Hmodel.
  2:{ wp_prim. intros ex m p [= <-] Hm. congruence. }
  destruct (Properties model) as [props|] eqn:Hprops.
  2:{ wp_prim. intros ? ? ? _ _ [Hin|[]]. discriminate Hin. }
  pose proof (servicebus_kept_refl (rd_changed d) model) as Hk.
  wp_step.
  apply (holds_mbind_inv (kept (rd_changed d) model));
    [ solve [sb_silent] | | clear Hk; intros payload Hk | | ].
  { kept_step; kept_solve. }
  2,3: no_payload.
  do 7 update_step.
  wp_step.
  eapply (holds_mono _ (never sends_payload)).
  { never_run; first [apply servicebus_Read_never | apply createNetworkRuleSet_never
                     | apply resetNetworkRuleSet_never]. }
  intros tr' o' Hnever ex m p [= <-] Hm Hin.
  rewrite Hmodel in Hm. injection Hm as <-.
  cbn in Hin. destruct Hin as [Hin|[Hin|Hin]]; [discriminate Hin | |].
  - injection Hin as <-. exact Hk.
  - exfalso. revert Hin. apply (never_In _ sends_payload); [|exact Hnever].
    intros ev. unfold sends_payload. destruct (sent_payload ev); [discriminate | reflexivity].
Qed.

End ServiceBusUpdate.

Section ServicePlanUpdate.
Import ServicePlan.
Context `{Helpers}.

Ltac sp_silent :=
  repeat first [ silent_step | progress unfold onProperties, onSku ].

Lemma serviceplan_kept_refl changed model : kept changed model model.
Proof. unfold kept. repeat split; auto. Qed.

Ltac kept_step :=
  let a := fresh "a" in let Heq := fresh "Heq" in
  intros a Heq;
  match type of Heq with
  | (if bool_decide ?P then _ else _) _ = _ =>
      let Hch := fresh "Hch" in
      destruct (bool_decide P) eqn:Hch;
      [ apply bool_decide_eq_true in Hch;
        unfold mbind, M_bind, d_Get, onProperties, onSku, mret, M_ret, fail, panic in Heq;
        cbn [pbind fst snd] in Heq;
        repeat match type of Heq with
               | context [match ?x with _ => _ end] =>
                   destruct x eqn:?; cbn [pbind fst snd] in Heq
               end;
        try discriminate Heq;
        injection Heq as <-
      | injection Heq as <-; assumption ]
  end.

Ltac kept_solve :=
  match goal with Hk : kept _ _ _ |- _ =>
    unfold kept in *;
    cbn [asp_Id Kind Location asp_Name Properties Sku Tags asp_Type asp_rest
         set_Properties set_Sku set_Tags set_PerSiteScaling set_ElasticScaleEnabled
         set_MaximumElasticWorkerCount set_ZoneRedundant set_Capacity set_sku_Name
         fmap option_fmap option_map
         ElasticScaleEnabled HostingEnvironmentProfile_ HyperV MaximumElasticWorkerCount
         PerSiteScaling Reserved ZoneRedundant props_rest Capacity sku_Name sku_rest] in *;
    repeat match goal with
           | Hx : Properties ?p = Some _ |- _ =>
               first [progress (rewrite Hx in Hk) | progress (rewrite Hx)]
           | Hx : Sku ?p = Some _ |- _ =>
               first [progress (rewrite Hx in Hk) | progress (rewrite Hx)]
           end;
    cbn [fmap option_fmap option_map] in Hk |- *;
    kept_finish
  end.

Ltac update_step :=
  wp_step;
  match goal with Hk : kept ?c ?m _ |- _ =>
    apply (holds_mbind_inv (kept c m));
      [ solve [sp_silent] | kept_step; kept_solve
      | clear Hk; intros ? Hk | no_payload | no_payload ]
  end.

Lemma serviceplan_update_kept d tr o :
  exec (Update d) tr o ->
  forall existing model payload,
    head tr ≫= get_answer = Some (existing, None) ->
    Model_ existing = Some model ->
    In (Some payload) (map sent_payload tr) ->
    kept (rd_changed d) model payload.
Proof.
  intros Hex. wp_start tr o Hex. unfold Update.
  wp_step. apply holds_mbind.
  destruct (ParseAppServicePlanID (rd_Id d)) as [id|e0]; wp_prim.
  2:{ intros ? ? ? Hhd. discriminate Hhd. }
  wp_step. apply holds_mbind.
  destruct (decoded (rd_config d)) as [state|e0]; wp_prim.
  2:{ intros ? ? ? Hhd. discriminate Hhd. }
  wp_step. destruct x as [existing err].
  apply holds_mbind. destruct err as [e|]; wp_prim.
  { intros ? ? ? Hhd. discriminate Hhd. }
  destruct (Model_ existing) as [model|] eqn:Hmodel.
  2:{ wp_prim. intros ex m p [= <-] Hm. congruence. }
  pose proof (serviceplan_kept_refl (rd_changed d) model) as Hk.
  wp_step.
  apply (holds_mbind_inv (kept (rd_changed d) model));
    [ solve [sp_silent] | | clear Hk; intros payload Hk | | ].
  { kept_step; kept_solve. }
  2,3: no_payload.
  do 6 update_step.
  wp_step. destruct x; wp_prim;
    intros ex m p [= <-] Hm Hin;
    rewrite Hmodel in Hm; injection Hm as <-;
    cbn in Hin; destruct Hin as [Hin|[Hin|[]]];
    first [discriminate Hin | injection Hin as <-; exact Hk].
Qed.

End ServicePlanUpdate.


Section UpdateStart.

(** An Update that sends a payload has started with a [Get] of the resource
    of the state ID, answered without error and with a model. *)
Lemma servicebus_update_get `{ServiceBus.Helpers} d tr o :
  exec (ServiceBus.resourceServiceBusNamespaceUpdate d) tr o ->
  forall payload,
    In (Some payload) (map ServiceBus.sent_payload tr) ->
    exists id existing model rest,
      ServiceBus.ParseNamespaceID (rd_Id d) = Ok id
      /\ tr = Ev (ServiceBus.Get id) (existing, None) :: rest
      /\ ServiceBus.Model_ existing = Some model.
Proof.
  intros Hex. wp_start tr o Hex.
  unfold ServiceBus.resourceServiceBusNamespaceUpdate.
  wp_step. apply holds_mbind.
  destruct (ServiceBus.ParseNamespaceID (rd_Id d)) as [id|e0] eqn:Hid; wp_prim.
  2:{ intros ? []. }
  wp_step. destruct x as [existing err].
  apply holds_mbind. destruct err as [e|]; wp_prim.
  { no_payload. }
  destruct (ServiceBus.Model_ existing) as [model|] eqn:Hmodel.
  2:{ wp_prim. no_payload. }
  apply holds_any. intros tr' o' payload _.
  exists id, existing, model, tr'. repeat split. exact Hmodel.
Qed.

Lemma serviceplan_update_get `{ServicePlan.Helpers} d tr o :
  exec (ServicePlan.Update d) tr o ->
  forall payload,
    In (Some payload) (map ServicePlan.sent_payload tr) ->
    exists id existing model rest,
      ServicePlan.ParseAppServicePlanID (rd_Id d) = Ok id
      /\ tr = Ev (ServicePlan.Get id) (existing, None) :: rest
      /\ ServicePlan.Model_ existing = Some model.
Proof.
  intros Hex. wp_start tr o Hex. unfold ServicePlan.Update.
  wp_step. apply holds_mbind.
  destruct (ServicePlan.ParseAppServicePlanID (rd_Id d)) as [id|e0] eqn:Hid; wp_prim.
  2:{ intros ? []. }
  wp_step. apply holds_mbind.
  destruct (ServicePlan.decoded (rd_config d)) as [state|e0]; wp_prim.
  2:{ intros ? []. }
  wp_step. destruct x as [existing err].
  apply holds_mbind. destruct err as [e|]; wp_prim.
  { no_payload. }
  destruct (ServicePlan.Model_ existing) as [model|] eqn:Hmodel.
  2:{ wp_prim. no_payload. }
  apply holds_any. intros tr' o' payload _.
  exists id, existing, model, tr'. repeat split. exact Hmodel.
Qed.

End UpdateStart.

(** C5 (as amended): an Update that sends a payload, of the ServiceBus
    namespace as of the App Service plan, has started with a [Get] of the
    resource of the state ID, answered without error and with a model, and
    the payload is that model except in the fields the plan reports as
    changed: each field of the payload is the retrieved one unless
    [HasChange] holds of its schema attribute, with one exception on the
    ServiceBus namespace, where the retrieved [Sku.Capacity] is sent back
    only if neither [sku] nor [capacity] is reported as changed (a change of
    [sku] rebuilds the whole [Sku] from the configured name). *)
Theorem update_keeps_unchanged_fields
    (Hsb : ServiceBus.Helpers) (Hsp : ServicePlan.Helpers) :
  (forall d tr o payload,
      exec (ServiceBus.resourceServiceBusNamespaceUpdate d) tr o ->
      In (Some payload) (map ServiceBus.sent_payload tr) ->
      exists id existing model rest,
        ServiceBus.ParseNamespaceID (rd_Id d) = Ok id
        /\ tr = Ev (ServiceBus.Get id) (existing, None) :: rest
        /\ ServiceBus.Model_ existing = Some model
        /\ ServiceBus.kept (rd_changed d) model payload)
  /\ (forall d tr o payload,
         exec (ServicePlan.Update d) tr o ->
         In (Some payload) (map ServicePlan.sent_payload tr) ->
         exists id existing model rest,
           ServicePlan.ParseAppServicePlanID (rd_Id d) = Ok id
           /\ tr = Ev (ServicePlan.Get id) (existing, None) :: rest
           /\ ServicePlan.Model_ existing = Some model
           /\ ServicePlan.kept (rd_changed d) model payload).
Proof.
  split; intros d tr o payload Hex Hin.
  - destruct (servicebus_update_get d tr o Hex payload Hin)
      as (id & existing & model & rest & Hid & Htr & Hm).
    exists id, existing, model, rest. repeat (split; [assumption|]).
    apply (servicebus_update_kept d tr o Hex existing model payload); try assumption.
    rewrite Htr. reflexivity.
  - destruct (serviceplan_update_get d tr o Hex payload Hin)
      as (id & existing & model & rest & Hid & Htr & Hm).
    exists id, existing, model, rest. repeat (split; [assumption|]).
    apply (serviceplan_update_kept d tr o Hex existing model payload); try assumption.
    rewrite Htr. reflexivity.
Qed.

(** A Basic namespace whose plan reports a change of [sku] alone, and a
    service plan whose plan reports a change of [worker_count] alone: each
    Update asks for the resource first, and what it sends is the retrieved
    model but for the [Sku], respectively the capacity of the SKU. *)
Lemma update_keeps_unchanged_fields_witness :
  let sb := run (Samples.sbRemote Samples.sbBasicExists)
              (ServiceBus.resourceServiceBusNamespaceUpdate (H:=Samples.sbHelpers)
                 Samples.sbSkuChange) tt in
  let sp := run (Samples.spHolds Samples.spPlan)
              (ServicePlan.Update (H:=Samples.spHelpers) Samples.spWorkerChange) tt in
  (In (Some Samples.sbStandardPayload) (map ServiceBus.sent_payload (run_trace sb))
   /\ exists id existing model rest,
        Samples.sbParseNamespaceID Samples.sbId = Ok id
        /\ run_trace sb = Ev (ServiceBus.Get id) (existing, None) :: rest
        /\ ServiceBus.Model_ existing = Some model
        /\ ServiceBus.kept {["sku"]} model Samples.sbStandardPayload)
  /\ (In (Some Samples.spThreeWorkers) (map ServicePlan.sent_payload (run_trace sp))
      /\ exists id existing model rest,
           Samples.spParseAppServicePlanID Samples.spId = Ok id
           /\ run_trace sp = Ev (ServicePlan.Get id) (existing, None) :: rest
           /\ ServicePlan.Model_ existing = Some model
           /\ ServicePlan.kept {["worker_count"]} model Samples.spThreeWorkers).
Proof.
  intros sb sp.
  assert (Hsb : In (Some Samples.sbStandardPayload)
                  (map ServiceBus.sent_payload (run_trace sb)))
    by (right; left; vm_compute; reflexivity).
  assert (Hsp : In (Some Samples.spThreeWorkers)
                  (map ServicePlan.sent_payload (run_trace sp)))
    by (right; left; vm_compute; reflexivity).
  split; (split; [assumption|]).
  - exact (proj1 (update_keeps_unchanged_fields Samples.sbHelpers Samples.spHelpers)
             Samples.sbSkuChange _ _ _ (run_exec _ _ _) Hsb).
  - exact (proj2 (update_keeps_unchanged_fields Samples.sbHelpers Samples.spHelpers)
             Samples.spWorkerChange _ _ _ (run_exec _ _ _) Hsp).
Defined.

(** C5 (as stated, refuted): the plan of a Basic namespace reports a change
    of [sku] and none of [capacity]; the model retrieved has [Sku.Capacity]
    0, and the payload Update sends has no [Sku.Capacity]: a field whose
    attribute has no reported change is not sent back as retrieved. *)
Lemma sku_change_drops_retrieved_capacity :
  let d := Samples.sbSkuChange in
  let r := run (Samples.sbRemote Samples.sbBasicExists)
             (ServiceBus.resourceServiceBusNamespaceUpdate (H:=Samples.sbHelpers) d) tt in
  ("capacity" ∉ rd_changed d)
  /\ head (run_trace r) ≫= ServiceBus.get_answer = Some ((fst Samples.sbBasicExists), None)
  /\ ServiceBus.Model_ (fst Samples.sbBasicExists) = Some Samples.sbBasicModel
  /\ ServiceBus.Capacity <$> ServiceBus.Sku Samples.sbBasicModel = Some (Some 0%Z)
  /\ (exists payload,
        map ServiceBus.sent_payload (run_trace r) !! 1%nat = Some (Some payload)
        /\ ServiceBus.Capacity <$> ServiceBus.Sku payload = Some None)
  /\ match run_outcome r with
     | Returned (res, _) => is_ok res = true
     | Panicked _ => False
     end.
Proof.
  intros d r. split; [|split; [|split; [|split; [|split]]]].
  - unfold d, Samples.sbSkuChange; cbn [rd_changed]; set_solver.
  - reflexivity.
  - reflexivity.
  - reflexivity.
  - exists Samples.sbStandardPayload. split; vm_compute; reflexivity.
  - vm_compute. reflexivity.
Qed.

